(** * dropbox-sign-go: response envelope parsing, error classification,
      request building

    A shallow embedding of the Go package [dropboxsign]: the client's
    [parseResponse] and [parseErrorResponse] with the three calls built on
    them, the error taxonomy with its predicates [IsNotFound],
    [IsBadRequest] and [IsUnauthorized], the [SendSignatureRequest] builder
    with its JSON encoding, and [ParseSignerStatus].

    The package leans on the Go standard library.  The parts it uses are
    modelled here from their documented behaviour: [unicode/utf8] (module
    [utf8]), [encoding/json] (module [json] for the syntax of documents,
    [encoding] for decoding into Go values, [marshal] for encoding them) and
    the functions [strings.ToLower] and [strings.TrimSpace] (module
    [strings]).  The HTTP stack stays abstract.

    Go strings and byte slices are [string]s: sequences of 8-bit [ascii]
    characters.  A pointer is an [option], [None] being [nil]; a slice is an
    [option] of a list, for the same reason.  Go's [int] is [Z]; no
    arithmetic is done on it here. *)

From Stdlib Require Import ZArith NArith Lia Bool List Ascii String.
From stdpp Require Import base option gmap strings.

Import ListNotations.
Open Scope string_scope.
Open Scope N_scope.

Set Warnings "-register-all".
Set Default Proof Using "Type".

(** ** Bytes and runes *)

Module utf8.

(** A rune is a Unicode code point. *)
Definition rune := N.

Definition RuneError : rune := 65533.     (* U+FFFD *)
Definition MaxRune : rune := 1114111.     (* U+10FFFF *)
Definition RuneSelf : N := 128.

Definition byte (b : N) : ascii := ascii_of_N b.
Definition code (c : ascii) : N := N_of_ascii c.

Definition between (lo x hi : N) : bool := (lo <=? x) && (x <=? hi).

(** Surrogate halves are not Unicode scalar values. *)
Definition is_surrogate (r : rune) : bool := between 55296 r 57343.

Definition ValidRune (r : rune) : bool :=
  (r <=? MaxRune) && negb (is_surrogate r).

(** [accept b0] is the length of the sequence a leading byte [b0 >= 128]
    announces and the range its second byte must fall in; [None] for a
    byte that cannot start a sequence (the table [first] together with
    [acceptRanges] of the Go package). *)
Definition accept (b0 : N) : option (nat * N * N) :=
  if between 194 b0 223 then Some (2%nat, 128, 191)
  else if b0 =? 224 then Some (3%nat, 160, 191)
  else if between 225 b0 236 then Some (3%nat, 128, 191)
  else if b0 =? 237 then Some (3%nat, 128, 159)
  else if between 238 b0 239 then Some (3%nat, 128, 191)
  else if b0 =? 240 then Some (4%nat, 144, 191)
  else if between 241 b0 243 then Some (4%nat, 128, 191)
  else if b0 =? 244 then Some (4%nat, 128, 143)
  else None.

Definition cont (b : N) : bool := between 128 b 191.

(** [DecodeRune s] unpacks the first UTF-8 sequence of [s]: the rune and
    how many bytes it takes.  An ill-formed or truncated sequence gives
    [(RuneError, 1)], the empty string [(RuneError, 0)]. *)
Definition DecodeRune (s : string) : rune * nat :=
  match s with
  | EmptyString => (RuneError, 0%nat)
  | String c0 s1 =>
    let b0 := code c0 in
    if b0 <? RuneSelf then (b0, 1%nat)
    else
      match accept b0 with
      | None => (RuneError, 1%nat)
      | Some (sz, lo, hi) =>
        match s1 with
        | EmptyString => (RuneError, 1%nat)
        | String c1 s2 =>
          let b1 := code c1 in
          if negb (between lo b1 hi) then (RuneError, 1%nat)
          else if (sz <=? 2)%nat then ((b0 mod 32) * 64 + b1 mod 64, 2%nat)
          else
            match s2 with
            | EmptyString => (RuneError, 1%nat)
            | String c2 s3 =>
              let b2 := code c2 in
              if negb (cont b2) then (RuneError, 1%nat)
              else if (sz <=? 3)%nat then
                ((b0 mod 16) * 4096 + (b1 mod 64) * 64 + b2 mod 64, 3%nat)
              else
                match s3 with
                | EmptyString => (RuneError, 1%nat)
                | String c3 _ =>
                  let b3 := code c3 in
                  if negb (cont b3) then (RuneError, 1%nat)
                  else ((b0 mod 8) * 262144 + (b1 mod 64) * 4096
                        + (b2 mod 64) * 64 + b3 mod 64, 4%nat)
                end
            end
        end
      end
  end.

Definition bytes (l : list N) : string :=
  fold_right (fun b s => String (byte b) s) EmptyString l.

(** [EncodeRune r] is the UTF-8 encoding of [r]; a value that is not a
    scalar value is written as [RuneError]. *)
Definition EncodeRune (r : rune) : string :=
  if r <=? 127 then bytes [r]
  else if r <=? 2047 then bytes [192 + r / 64; 128 + r mod 64]
  else if negb (ValidRune r) then bytes [239; 191; 189]
  else if r <=? 65535 then
    bytes [224 + r / 4096; 128 + (r / 64) mod 64; 128 + r mod 64]
  else
    bytes [240 + r / 262144; 128 + (r / 4096) mod 64;
           128 + (r / 64) mod 64; 128 + r mod 64].

Fixpoint drop (n : nat) (s : string) : string :=
  match n, s with
  | S n', String _ s' => drop n' s'
  | _, _ => s
  end.

Fixpoint take (n : nat) (s : string) : string :=
  match n, s with
  | S n', String c s' => String c (take n' s')
  | _, _ => EmptyString
  end.

(** The runes of a string, left to right, each with the bytes it was read
    from: what a Go [range] loop over the string visits.  [fuel] bounds the
    number of runes; the length of the string is always enough (see
    [runes_concat]). *)
Fixpoint units (fuel : nat) (s : string) : list (rune * string) :=
  match fuel, s with
  | S fuel', String _ _ =>
    let '(r, sz) := DecodeRune s in
    (r, take sz s) :: units fuel' (drop sz s)
  | _, _ => []
  end.

Definition runes (s : string) : list (rune * string) :=
  units (String.length s) s.

Definition encode (rs : list rune) : string :=
  fold_right (fun r s => EncodeRune r ++ s) EmptyString rs.

End utf8.

(** ** JSON documents: the syntax accepted by [encoding/json] *)

Module json.

(** A parsed JSON value.  A number keeps its literal; an object keeps its
    members in document order, duplicates included. *)
Inductive value : Type :=
| Null : value
| Bool : bool -> value
| Number : string -> value
| Str : string -> value
| Array : list value -> value
| Object : list (string * value) -> value.

(** The scanner refuses a document nested deeper than this. *)
Definition maxNestingDepth : N := 10000.

Definition isSpace (c : ascii) : bool :=
  let b := utf8.code c in
  (b =? 32) || (b =? 9) || (b =? 13) || (b =? 10).

Fixpoint skip_space (s : string) : string :=
  match s with
  | String c s' => if isSpace c then skip_space s' else s
  | EmptyString => s
  end.

Definition is_digit (c : ascii) : bool := utf8.between 48 (utf8.code c) 57.

Definition hex_digit (c : ascii) : option N :=
  let b := utf8.code c in
  if utf8.between 48 b 57 then Some (b - 48)
  else if utf8.between 97 b 102 then Some (b - 87)
  else if utf8.between 65 b 70 then Some (b - 55)
  else None.

(** [getu4 s] reads a [\uXXXX] escape at the head of [s]. *)
Definition getu4 (s : string) : option (N * string) :=
  match s with
  | String "\" (String "u" (String h3 (String h2 (String h1 (String h0 s'))))) =>
    match hex_digit h3, hex_digit h2, hex_digit h1, hex_digit h0 with
    | Some d3, Some d2, Some d1, Some d0 =>
      Some (d3 * 4096 + d2 * 256 + d1 * 16 + d0, s')
    | _, _, _, _ => None
    end
  | _ => None
  end.

(** Two UTF-16 halves make one rune when the first is a high and the
    second a low surrogate. *)
Definition utf16_DecodeRune (r1 r2 : N) : option N :=
  if utf8.between 55296 r1 56319 && utf8.between 56320 r2 57343
  then Some ((r1 - 55296) * 1024 + (r2 - 56320) + 65536)
  else None.

(** [scan_unit s] reads the next character of a string literal, or the
    next escape: its bytes unquoted, and what follows it.  An escape is
    replaced by what it stands for, a [\u] escape is written in UTF-8 (a
    surrogate pair as one rune, a lone surrogate as U+FFFD), and a raw byte
    is coerced to well-formed UTF-8.  A control character and an unknown
    escape are syntax errors. *)
Definition scan_unit (s : string) : option (string * string) :=
  match s with
  | EmptyString => None
  | String c s' =>
    let b := utf8.code c in
    if b =? 92 then
      match s' with
      | EmptyString => None
      | String e s'' =>
        let eb := utf8.code e in
        if eb =? 34 then Some (utf8.bytes [34], s'')
        else if eb =? 92 then Some (utf8.bytes [92], s'')
        else if eb =? 47 then Some (utf8.bytes [47], s'')
        else if eb =? 98 then Some (utf8.bytes [8], s'')
        else if eb =? 102 then Some (utf8.bytes [12], s'')
        else if eb =? 110 then Some (utf8.bytes [10], s'')
        else if eb =? 114 then Some (utf8.bytes [13], s'')
        else if eb =? 116 then Some (utf8.bytes [9], s'')
        else if eb =? 117 then
          match getu4 s with
          | None => None
          | Some (rr, after) =>
            if utf8.is_surrogate rr then
              match getu4 after with
              | Some (rr1, after1) =>
                match utf16_DecodeRune rr rr1 with
                | Some dec => Some (utf8.EncodeRune dec, after1)
                | None => Some (utf8.EncodeRune utf8.RuneError, after)
                end
              | None => Some (utf8.EncodeRune utf8.RuneError, after)
              end
            else Some (utf8.EncodeRune rr, after)
          end
        else None
      end
    else if b <? 32 then None
    else if b <? utf8.RuneSelf then Some (String c EmptyString, s')
    else
      let '(r, sz) := utf8.DecodeRune s in
      Some (utf8.EncodeRune r, utf8.drop sz s)
  end.

(** [scan_string fuel s] reads a string literal whose opening quote has
    been consumed, up to and including the closing quote, and returns its
    contents unquoted.  A missing closing quote is a syntax error.  Every
    step consumes a byte: the length of [s] is fuel enough. *)
Fixpoint scan_string (fuel : nat) (s : string) : option (string * string) :=
  match fuel with
  | O => None
  | S fuel' =>
    match s with
    | EmptyString => None
    | String c s' =>
      if utf8.code c =? 34 then Some (EmptyString, s')
      else
        match scan_unit s with
        | None => None
        | Some (out, s1) =>
          match scan_string fuel' s1 with
          | Some (t, rest) => Some (out ++ t, rest)
          | None => None
          end
        end
    end
  end.

Fixpoint span_digits (s : string) : string * string :=
  match s with
  | String c s' =>
    if is_digit c then let '(d, r) := span_digits s' in (String c d, r)
    else (EmptyString, s)
  | EmptyString => (EmptyString, s)
  end.

(** The integer part of a number: [0], or a non-zero digit and more
    digits. *)
Definition scan_int (s : string) : option (string * string) :=
  match s with
  | String c s' =>
    if utf8.code c =? 48 then Some (String c EmptyString, s')
    else if is_digit c then
      let '(d, r) := span_digits s' in Some (String c d, r)
    else None
  | EmptyString => None
  end.

Definition scan_frac (s : string) : option (string * string) :=
  match s with
  | String "." s' =>
    match span_digits s' with
    | (EmptyString, _) => None
    | (d, r) => Some (String "." d, r)
    end
  | _ => Some (EmptyString, s)
  end.

Definition scan_exp (s : string) : option (string * string) :=
  match s with
  | String c s' =>
    if (utf8.code c =? 101) || (utf8.code c =? 69) then
      let '(sign, s'') :=
        match s' with
        | String g t =>
          if (utf8.code g =? 43) || (utf8.code g =? 45)
          then (String g EmptyString, t) else (EmptyString, s')
        | EmptyString => (EmptyString, s')
        end in
      match span_digits s'' with
      | (EmptyString, _) => None
      | (d, r) => Some (String c (sign ++ d), r)
      end
    else Some (EmptyString, s)
  | EmptyString => Some (EmptyString, s)
  end.

(** A number literal: optional minus, integer part, optional fraction,
    optional exponent. *)
Definition scan_number (s : string) : option (string * string) :=
  let '(minus, s0) :=
    match s with
    | String "-" t => ("-", t)
    | _ => (EmptyString, s)
    end in
  match scan_int s0 with
  | None => None
  | Some (i, s1) =>
    match scan_frac s1 with
    | None => None
    | Some (f, s2) =>
      match scan_exp s2 with
      | None => None
      | Some (e, s3) => Some (minus ++ i ++ f ++ e, s3)
      end
    end
  end.

Fixpoint prefix_rest (p s : string) : option string :=
  match p, s with
  | EmptyString, _ => Some s
  | String a p', String b s' =>
    if Ascii.eqb a b then prefix_rest p' s' else None
  | _, _ => None
  end.

(** [expect b s] is what follows the byte [b] at the head of [s]. *)
Definition expect (b : N) (s : string) : option string :=
  match s with
  | String c rest => if utf8.code c =? b then Some rest else None
  | EmptyString => None
  end.

(** [scan_value fuel depth s] reads one value off the head of [s], after
    optional white space, and returns it with the unread rest.  [depth] is
    the number of arrays and objects currently open. *)
Fixpoint scan_value (fuel : nat) (depth : N) (s : string)
  : option (value * string) :=
  match fuel with
  | O => None
  | S fuel' =>
    match skip_space s with
    | EmptyString => None
    | String c s' as s0 =>
      let b := utf8.code c in
      if b =? 123 then                              (* an object *)
        if maxNestingDepth <=? depth then None
        else
          match expect 125 (skip_space s') with
          | Some rest => Some (Object [], rest)
          | None =>
            match scan_members fuel' (depth + 1) s' with
            | Some (ms, rest) => Some (Object ms, rest)
            | None => None
            end
          end
      else if b =? 91 then                          (* an array *)
        if maxNestingDepth <=? depth then None
        else
          match expect 93 (skip_space s') with
          | Some rest => Some (Array [], rest)
          | None =>
            match scan_elements fuel' (depth + 1) s' with
            | Some (vs, rest) => Some (Array vs, rest)
            | None => None
            end
          end
      else if b =? 34 then                          (* a string *)
        match scan_string (String.length s') s' with
        | Some (t, rest) => Some (Str t, rest)
        | None => None
        end
      else if b =? 116 then
        match prefix_rest "true" s0 with
        | Some rest => Some (Bool true, rest)
        | None => None
        end
      else if b =? 102 then
        match prefix_rest "false" s0 with
        | Some rest => Some (Bool false, rest)
        | None => None
        end
      else if b =? 110 then
        match prefix_rest "null" s0 with
        | Some rest => Some (Null, rest)
        | None => None
        end
      else
        match scan_number s0 with
        | Some (lit, rest) => Some (Number lit, rest)
        | None => None
        end
    end
  end

(** The members of an object after its opening brace, at least one, up to
    and including the closing brace. *)
with scan_members (fuel : nat) (depth : N) (s : string)
  : option (list (string * value) * string) :=
  match fuel with
  | O => None
  | S fuel' =>
    match expect 34 (skip_space s) with
    | None => None
    | Some s1 =>
      match scan_string (String.length s1) s1 with
      | None => None
      | Some (k, s2) =>
        match expect 58 (skip_space s2) with
        | None => None
        | Some s3 =>
          match scan_value fuel' depth s3 with
          | None => None
          | Some (v, s4) =>
            match expect 44 (skip_space s4) with
            | Some s5 =>
              match scan_members fuel' depth s5 with
              | Some (ms, rest) => Some ((k, v) :: ms, rest)
              | None => None
              end
            | None =>
              match expect 125 (skip_space s4) with
              | Some rest => Some ([(k, v)], rest)
              | None => None
              end
            end
          end
        end
      end
    end
  end

(** The elements of an array after its opening bracket, at least one, up
    to and including the closing bracket. *)
with scan_elements (fuel : nat) (depth : N) (s : string)
  : option (list value * string) :=
  match fuel with
  | O => None
  | S fuel' =>
    match scan_value fuel' depth s with
    | None => None
    | Some (v, s1) =>
      match expect 44 (skip_space s1) with
      | Some s2 =>
        match scan_elements fuel' depth s2 with
        | Some (vs, rest) => Some (v :: vs, rest)
        | None => None
        end
      | None =>
        match expect 93 (skip_space s1) with
        | Some rest => Some ([v], rest)
        | None => None
        end
      end
    end
  end.

(** [parse data] is the value of a document that is exactly one JSON value
    between optional white space, [None] for anything else (a
    [SyntaxError] in Go).  Twice the length of [data] is fuel enough: see
    [parse_complete]. *)
Definition parse (data : string) : option value :=
  match scan_value (2 * String.length data + 2) 0 data with
  | Some (v, rest) =>
    match skip_space rest with
    | EmptyString => Some v
    | _ => None
    end
  | None => None
  end.

End json.

(** ** Error values

    A Go [error] is an interface value; the ones this package meets are
    listed in [error].  [option error] is an [error] that may be [nil]. *)

(** [ErrorResponseError] (the structured error of the remote service). *)
Record ErrorResponseError : Type := mkErrorResponseError {
  Status : Z;                   (* `json:"-"` *)
  ErrorMsg : string;            (* `json:"error_msg"` *)
  ErrorPath : option string;    (* `json:"error_path,omitempty"` *)
  ErrorName : string            (* `json:"error_name"` *)
}.

(** [ClientError], over the type of the error it wraps. *)
Record ClientError_ (E : Type) : Type := mkClientError {
  Message : string;
  StatusCode : Z;
  Err : option E
}.
Arguments mkClientError {E} _ _ _.
Arguments Message {E} _.
Arguments StatusCode {E} _.
Arguments Err {E} _.

Inductive error : Type :=
  (** [*json.SyntaxError]: the document is not one JSON value. *)
| json_SyntaxError : error
  (** [*json.UnmarshalTypeError]: the description of the JSON value and
      the name of the Go type that cannot hold it. *)
| json_UnmarshalTypeError (Value Type_ : string) : error
  (** An error made by [fmt.Errorf]: the formatted text before the wrapped
      error, and the error wrapped by [%w], if the format has one.  The text
      of the whole is the first followed by the text of the second. *)
| fmt_Errorf (text : string) (wrapped : option error) : error
  (** An [ErrorResponseError] value. *)
| APIError (e : ErrorResponseError) : error
  (** A (non-nil) [*ClientError]. *)
| TransportError (e : ClientError_ error) : error
  (** Any other error, by its text: one from the HTTP stack, say. *)
| foreign_error (text : string) : error.

Abbreviation ClientError := (ClientError_ error).

(** ** Decoding JSON into Go values: [json.Unmarshal] *)

Module encoding.

(** The decoder does not stop at a value of the wrong type: it remembers
    the first such error, goes on, and reports it at the end. *)
Definition saveError (saved new : option error) : option error :=
  match saved with
  | Some _ => saved
  | None => new
  end.

(** How an [UnmarshalTypeError] describes the offending value. *)
Definition describe (j : json.value) : string :=
  match j with
  | json.Null => "null"
  | json.Bool _ => "bool"
  | json.Number _ => "number"
  | json.Str _ => "string"
  | json.Array _ => "array"
  | json.Object _ => "object"
  end.

(** A Go type that JSON can be decoded into: its zero value, its name, and
    how a JSON value is stored into a variable of the type that currently
    holds [cur]. *)
Class Unmarshaler (T : Type) : Type := {
  zero : T;
  type_name : string;
  decode : json.value -> T -> T * option error
}.

(** [json.Unmarshal data &v]: the document is checked as a whole first; [v]
    is untouched when it is not valid JSON. *)
Definition Unmarshal {T} `{Unmarshaler T} (data : string) (v : T)
  : T * option error :=
  match json.parse data with
  | None => (v, Some json_SyntaxError)
  | Some j => decode j v
  end.

(** [string]. *)
#[export] Instance string_Unmarshaler : Unmarshaler string := {|
  zero := EmptyString;
  type_name := "string";
  decode j cur :=
    match j with
    | json.Null => (cur, None)
    | json.Str s => (s, None)
    | _ => (cur, Some (json_UnmarshalTypeError (describe j) "string"))
    end
|}.

(** [bool]. *)
#[export] Instance bool_Unmarshaler : Unmarshaler bool := {|
  zero := false;
  type_name := "bool";
  decode j cur :=
    match j with
    | json.Null => (cur, None)
    | json.Bool b => (b, None)
    | _ => (cur, Some (json_UnmarshalTypeError (describe j) "bool"))
    end
|}.

(** A pointer [*T] is [option T], [None] being [nil].  JSON null sets it
    to [nil]; any other value is decoded into what it points to, a fresh
    zero value if it was [nil]. *)
#[export] Instance pointer_Unmarshaler {T} `{Unmarshaler T}
  : Unmarshaler (option T) := {|
  zero := None;
  type_name := "*" ++ type_name (T := T);
  decode j cur :=
    match j with
    | json.Null => (None, None)
    | _ =>
      let '(x, e) := decode j (default zero cur) in (Some x, e)
    end
|}.

(** A slice [[]T] is [option (list T)], [None] being the [nil] slice. *)
Definition slice (T : Type) : Type := option (list T).

Definition len {T} (s : slice T) : nat := length (default [] s).

(** The elements of a JSON array are decoded one by one, element [i] into
    element [i] of the backing array [cur] of the slice where it has one and
    into a zero value otherwise. *)
Fixpoint decode_elements {T} `{Unmarshaler T}
    (js : list json.value) (cur : list T) : list T * option error :=
  match js with
  | [] => ([], None)
  | j :: js' =>
    let '(x, e) := decode j (hd zero cur) in
    let '(xs, es) := decode_elements js' (tl cur) in
    (x :: xs, saveError e es)
  end.

(** Decoding into a slice whose backing array ends with the slice, as that
    of a [nil] slice does. *)
#[export] Instance slice_Unmarshaler {T} `{Unmarshaler T}
  : Unmarshaler (slice T) := {|
  zero := None;
  type_name := "[]" ++ type_name (T := T);
  decode j cur :=
    match j with
    | json.Null => (None, None)
    | json.Array js =>
      let '(xs, e) := decode_elements js (default [] cur) in (Some xs, e)
    | _ =>
      (cur, Some (json_UnmarshalTypeError (describe j)
                    ("[]" ++ type_name (T := T))))
    end
|}.

(** A slice with its backing array: the slice as the program sees it, and
    the elements the array holds beyond the length of the slice.  The
    decoder does not clear them when it shortens a slice, and it decodes
    into them when the slice grows again, as it does where a key comes more
    than once in a document. *)
Record buffer (T : Type) : Type := mkBuffer {
  shown : slice T;
  spare : list T
}.
Arguments mkBuffer {T} _ _.
Arguments shown {T} _.
Arguments spare {T} _.

Definition nil_buffer {T} : buffer T := mkBuffer None [].

(** Decoding into a slice.  [null] makes it [nil].  An empty array makes it
    a new empty slice.  Any other array is decoded element by element into
    the backing array, which grows by zero values where it is too short;
    the slice then has the length of the array, and what the backing array
    holds beyond it stays. *)
#[export] Instance buffer_Unmarshaler {T} `{Unmarshaler T}
  : Unmarshaler (buffer T) := {|
  zero := nil_buffer;
  type_name := "[]" ++ type_name (T := T);
  decode j cur :=
    match j with
    | json.Null => (nil_buffer, None)
    | json.Array [] => (mkBuffer (Some []) [], None)
    | json.Array js =>
      let backing := (default [] (shown cur) ++ spare cur)%list in
      let '(xs, e) := decode_elements js backing in
      (mkBuffer (Some xs) (List.skipn (length js) backing), e)
    | _ =>
      (cur, Some (json_UnmarshalTypeError (describe j)
                    ("[]" ++ type_name (T := T))))
    end
|}.

(** [json.RawMessage] keeps the bytes of a value undecoded.  They are the
    text of one value of a document that has already been checked, and
    decoding them later gives that value: the embedding keeps the value. *)
Definition RawMessage : Type := json.value.

Definition insert_members (ms : list (string * json.value))
    (m : gmap string RawMessage) : gmap string RawMessage :=
  fold_left (fun acc kv => <[kv.1 := kv.2]> acc) ms m.

(** [map[string]json.RawMessage]: a later member with the same key
    replaces an earlier one.  A [nil] map is the empty map (the two
    answer every lookup alike). *)
#[export] Instance RawMessage_map_Unmarshaler
  : Unmarshaler (gmap string RawMessage) := {|
  zero := ∅;
  type_name := "map[string]json.RawMessage";
  decode j cur :=
    match j with
    | json.Null => (∅, None)
    | json.Object ms => (insert_members ms cur, None)
    | _ =>
      (cur, Some (json_UnmarshalTypeError (describe j)
                    "map[string]json.RawMessage"))
    end
|}.

(** The digits of a decimal literal, most significant first. *)
Fixpoint digits_value (acc : Z) (s : string) : option Z :=
  match s with
  | EmptyString => Some acc
  | String c s' =>
    if json.is_digit c
    then digits_value (acc * 10 + Z.of_N (utf8.code c - 48))%Z s'
    else None
  end.

(** [strconv.ParseInt lit 10 64] on a JSON number literal: the literal
    must be an integer, without fraction or exponent. *)
Definition ParseInt (lit : string) : option Z :=
  match lit with
  | EmptyString => None
  | String "-" EmptyString => None
  | String "-" ds => option_map Z.opp (digits_value 0 ds)
  | ds => digits_value 0 ds
  end.

Definition decode_int (tyname : string) (j : json.value) (cur : Z)
  : Z * option error :=
  match j with
  | json.Null => (cur, None)
  | json.Number lit =>
    match ParseInt lit with
    | Some n =>
      if ((- 2 ^ 63 <=? n) && (n <? 2 ^ 63))%Z then (n, None)
      else (cur, Some (json_UnmarshalTypeError ("number " ++ lit) tyname))
    | None =>
      (cur, Some (json_UnmarshalTypeError ("number " ++ lit) tyname))
    end
  | _ => (cur, Some (json_UnmarshalTypeError (describe j) tyname))
  end.

(** [int64], as a [Z] within its range. *)
Definition int64_Unmarshaler : Unmarshaler Z := {|
  zero := 0%Z;
  type_name := "int64";
  decode := decode_int "int64"
|}.

(** [int], 64 bits wide. *)
Definition int_Unmarshaler : Unmarshaler Z := {|
  zero := 0%Z;
  type_name := "int";
  decode := decode_int "int"
|}.

(** A defined type whose underlying type is [string], under its own
    name. *)
Definition named_string_Unmarshaler (tyname : string) : Unmarshaler string := {|
  zero := EmptyString;
  type_name := tyname;
  decode j cur :=
    match j with
    | json.Null => (cur, None)
    | json.Str s => (s, None)
    | _ => (cur, Some (json_UnmarshalTypeError (describe j) tyname))
    end
|}.

(** [map[string]string]: every member is decoded into a fresh element,
    which is stored under the key even when the value was refused. *)
Fixpoint insert_strings (ms : list (string * json.value))
    (m : gmap string string) (saved : option error)
  : gmap string string * option error :=
  match ms with
  | [] => (m, saved)
  | (k, v) :: ms' =>
    let '(x, e) := decode v (zero : string) in
    insert_strings ms' (<[k := x]> m) (saveError saved e)
  end.

#[export] Instance string_map_Unmarshaler
  : Unmarshaler (gmap string string) := {|
  zero := ∅;
  type_name := "map[string]string";
  decode j cur :=
    match j with
    | json.Null => (∅, None)
    | json.Object ms => insert_strings ms cur None
    | _ =>
      (cur, Some (json_UnmarshalTypeError (describe j) "map[string]string"))
    end
|}.

(** *** Structs *)

Definition is_lower (c : ascii) : bool :=
  utf8.between 97 (utf8.code c) 122.

(** [foldName] is the key under which a field name is found whatever its
    case: ASCII letters in upper case, and the two runes that fold to
    ASCII letters, U+017F to [S] and U+212A to [K], replaced by them.
    Every other rune outside ASCII folds to a rune outside ASCII; it is
    left as it is, which does not change whether the result equals the
    folded name of a field, all field names here being ASCII. *)
Fixpoint foldName (s : string) : string :=
  match s with
  | EmptyString => EmptyString
  | String c s' =>
    if is_lower c then String (utf8.byte (utf8.code c - 32)) (foldName s')
    else
      match utf8.code c, s' with
      | 197, String c1 s1 =>
        if utf8.code c1 =? 191 then String "S" (foldName s1)
        else String c (foldName s')
      | 226, String c1 (String c2 s2) =>
        if (utf8.code c1 =? 132) && (utf8.code c2 =? 170)
        then String "K" (foldName s2)
        else String c (foldName s')
      | _, _ => String c (foldName s')
      end
  end.

(** A field of a struct [S]: the name of its JSON tag and how a JSON value
    is stored into it. *)
Record field (S : Type) : Type := mkField {
  name : string;
  store : json.value -> S -> S * option error
}.
Arguments mkField {S} _ _.
Arguments name {S} _.
Arguments store {S} _.

(** The field described by a getter and a setter. *)
Definition field_of {S T} `{Unmarshaler T}
    (n : string) (get : S -> T) (set : T -> S -> S) : field S :=
  mkField n (fun j s => let '(x, e) := decode j (get s) in (set x s, e)).

(** The field a key names: the one with exactly that name, failing that
    the first whose name is the same up to case. *)
Definition find_field {S} (key : string) (fs : list (field S))
  : option (field S) :=
  match List.find (fun f => String.eqb (name f) key) fs with
  | Some f => Some f
  | None =>
    List.find (fun f => String.eqb (foldName (name f)) (foldName key)) fs
  end.

(** The members of an object are stored in document order; a key that
    names no field is skipped. *)
Fixpoint decode_members {S} (fs : list (field S))
    (ms : list (string * json.value)) (s : S) (saved : option error)
  : S * option error :=
  match ms with
  | [] => (s, saved)
  | (k, v) :: ms' =>
    match find_field k fs with
    | Some f =>
      let '(s', e) := store f v s in
      decode_members fs ms' s' (saveError saved e)
    | None => decode_members fs ms' s saved
    end
  end.

Definition decode_struct {S} (tyname : string) (fs : list (field S))
    (j : json.value) (cur : S) : S * option error :=
  match j with
  | json.Null => (cur, None)
  | json.Object ms => decode_members fs ms cur None
  | _ => (cur, Some (json_UnmarshalTypeError (describe j) tyname))
  end.

End encoding.
Export encoding.

(** ** The package: response and error types *)

(** [WarningResponse]. *)
Record WarningResponse : Type := mkWarningResponse {
  WarningMsg : string;      (* `json:"warning_msg"` *)
  WarningName : string      (* `json:"warning_name"` *)
}.

(** [WarningResponse.String]. *)
Definition WarningResponse_String (w : WarningResponse) : string :=
  WarningMsg w ++ " (" ++ WarningName w ++ ")".

Definition WarningResponse_fields : list (field WarningResponse) :=
  [ field_of "warning_msg" WarningMsg
      (fun x w => mkWarningResponse x (WarningName w));
    field_of "warning_name" WarningName
      (fun x w => mkWarningResponse (WarningMsg w) x) ].

#[export] Instance WarningResponse_Unmarshaler : Unmarshaler WarningResponse := {|
  zero := mkWarningResponse "" "";
  type_name := "dropboxsign.WarningResponse";
  decode := decode_struct "dropboxsign.WarningResponse" WarningResponse_fields
|}.

(** [ErrorResponseError]: [Status] is tagged [json:"-"] and is never read
    from a document. *)
Definition ErrorResponseError_fields : list (field ErrorResponseError) :=
  [ field_of "error_msg" ErrorMsg
      (fun x e => mkErrorResponseError (Status e) x (ErrorPath e) (ErrorName e));
    field_of "error_path" ErrorPath
      (fun x e => mkErrorResponseError (Status e) (ErrorMsg e) x (ErrorName e));
    field_of "error_name" ErrorName
      (fun x e => mkErrorResponseError (Status e) (ErrorMsg e) (ErrorPath e) x) ].

#[export] Instance ErrorResponseError_Unmarshaler
  : Unmarshaler ErrorResponseError := {|
  zero := mkErrorResponseError 0 "" None "";
  type_name := "dropboxsign.ErrorResponseError";
  decode :=
    decode_struct "dropboxsign.ErrorResponseError" ErrorResponseError_fields
|}.

(** [ErrorResponse]: the top-level error document. *)
Record ErrorResponse : Type := mkErrorResponse {
  Error : ErrorResponseError   (* `json:"error"` *)
}.

Definition ErrorResponse_fields : list (field ErrorResponse) :=
  [ field_of "error" Error (fun x _ => mkErrorResponse x) ].

#[export] Instance ErrorResponse_Unmarshaler : Unmarshaler ErrorResponse := {|
  zero := mkErrorResponse zero;
  type_name := "dropboxsign.ErrorResponse";
  decode := decode_struct "dropboxsign.ErrorResponse" ErrorResponse_fields
|}.

(** [ErrorResponseError.Error]. *)
Definition ErrorResponseError_Error (e : ErrorResponseError) : string :=
  match ErrorPath e with
  | Some p =>
    if negb (String.eqb p "")
    then ErrorName e ++ " (" ++ p ++ "): " ++ ErrorMsg e
    else ErrorName e ++ ": " ++ ErrorMsg e
  | None => ErrorName e ++ ": " ++ ErrorMsg e
  end.

(** [ClientError.Unwrap]. *)
Definition Unwrap (e : ClientError) : option error := Err e.

(** [NewClientError]. *)
Definition NewClientError (message : string) (statusCode : Z)
    (err : option error) : ClientError :=
  {| Message := message; StatusCode := statusCode; Err := err |}.

Definition StatusNotFound : Z := 404.
Definition StatusBadRequest : Z := 400.
Definition StatusUnauthorized : Z := 401.
Definition StatusOK : Z := 200.

(** [IsNotFound]: the two type assertions, in the order of the source.  A
    [nil] error, like an error of any other type, passes neither. *)
Definition IsNotFound (err : option error) : bool :=
  match err with
  | Some (APIError apiErr) => (Status apiErr =? StatusNotFound)%Z
  | Some (TransportError clientErr) => (StatusCode clientErr =? StatusNotFound)%Z
  | _ => false
  end.

(** [IsBadRequest]. *)
Definition IsBadRequest (err : option error) : bool :=
  match err with
  | Some (APIError apiErr) => (Status apiErr =? StatusBadRequest)%Z
  | Some (TransportError clientErr) => (StatusCode clientErr =? StatusBadRequest)%Z
  | _ => false
  end.

(** [IsUnauthorized]. *)
Definition IsUnauthorized (err : option error) : bool :=
  match err with
  | Some (APIError apiErr) => (Status apiErr =? StatusUnauthorized)%Z
  | Some (TransportError clientErr) => (StatusCode clientErr =? StatusUnauthorized)%Z
  | _ => false
  end.

(** ** The client: parsing responses *)

(** [Client].  The [*http.Client] it holds is the transport, which is
    outside the embedding. *)
Record Client : Type := mkClient {
  apiKey : string;
  baseURL : string
}.

Definition APIBaseURL : string := "https://api.hellosign.com/v3".

(** [NewClient]. *)
Definition NewClient (key : string) : Client :=
  {| apiKey := key; baseURL := APIBaseURL |}.

(** [Client.WithBaseURL]. *)
Definition WithBaseURL (url : string) (c : Client) : Client :=
  {| apiKey := apiKey c; baseURL := url |}.

Section parseResponse.

Context {T : Type} `{Unmarshaler T}.

(** [parseResponse[T]].  The result is the triple the Go function
    returns: a pointer to the payload, the warnings and the error. *)
Definition parseResponse (body : string) (key : string)
  : option T * slice WarningResponse * option error :=
  let '(rawResponse, err) := Unmarshal body (∅ : gmap string RawMessage) in
  match err with
  | Some e =>
    (None, None, Some (fmt_Errorf "failed to unmarshal response: " (Some e)))
  | None =>
    (* Extract main payload by key *)
    match rawResponse !! key with
    | None =>
      (None, None,
       Some (fmt_Errorf ("missing key '" ++ key ++ "' in response") None))
    | Some payload =>
      (* Deserialize the payload into T *)
      let '(result, err) := decode payload (zero : T) in
      match err with
      | Some e =>
        (None, None,
         Some (fmt_Errorf "failed to unmarshal payload: " (Some e)))
      | None =>
        (* Extract warnings if present *)
        let warnings : slice WarningResponse :=
          match rawResponse !! "warnings" with
          | Some warningsData =>
            let '(warnings, err) :=
              decode (T := slice WarningResponse) warningsData None in
            match err with
            | Some _ => None   (* Non-fatal: continue without warnings *)
            | None => warnings
            end
          | None => None
          end in
        (Some result, warnings, None)
      end
    end
  end.

End parseResponse.

(** [Client.parseErrorResponse]. *)
Definition parseErrorResponse (c : Client) (body : string) (statusCode : Z)
  : error :=
  let '(errResp, err) := Unmarshal body (zero : ErrorResponse) in
  match err with
  | Some e =>
    TransportError
      (NewClientError ("failed to parse error response: " ++ body)
         statusCode (Some e))
  | None =>
    APIError
      {| Status := statusCode;
         ErrorMsg := ErrorMsg (Error errResp);
         ErrorPath := ErrorPath (Error errResp);
         ErrorName := ErrorName (Error errResp) |}
  end.

(** ** The response schema ([signature_request.go])

    Each struct is a module holding the record [t], its zero value, a setter
    per field, and the table of its fields by JSON tag.  A field that is a
    slice is a [buffer]: the decoder writes into the slice it finds. *)

(** [SignatureRequestResponseDataType], a defined string type. *)
Definition SignatureRequestResponseDataType : Type := string.

Definition SignatureRequestResponseDataType_Unmarshaler
  : Unmarshaler SignatureRequestResponseDataType :=
  named_string_Unmarshaler "dropboxsign.SignatureRequestResponseDataType".

(** [SignatureRequestResponseAttachment]:
    a file attached to a signature request. *)
Module SignatureRequestResponseAttachment.
Record t : Type := mk {
  ID : string;
  Signer : string;
  Name : string;
  Required : bool;
  Instructions : option string;
  UploadedAt : option Z
}.

Definition zero_value : t :=
  mk EmptyString EmptyString EmptyString false None None.

Definition set_ID (x : string) (s : t) : t :=
  mk x (Signer s) (Name s) (Required s) (Instructions s) (UploadedAt s).
Definition set_Signer (x : string) (s : t) : t :=
  mk (ID s) x (Name s) (Required s) (Instructions s) (UploadedAt s).
Definition set_Name (x : string) (s : t) : t :=
  mk (ID s) (Signer s) x (Required s) (Instructions s) (UploadedAt s).
Definition set_Required (x : bool) (s : t) : t :=
  mk (ID s) (Signer s) (Name s) x (Instructions s) (UploadedAt s).
Definition set_Instructions (x : option string) (s : t) : t :=
  mk (ID s) (Signer s) (Name s) (Required s) x (UploadedAt s).
Definition set_UploadedAt (x : option Z) (s : t) : t :=
  mk (ID s) (Signer s) (Name s) (Required s) (Instructions s) x.

(** The fields by their JSON tags, in the order of the declaration. *)
Definition fields : list (field t) :=
  [
    field_of "id" ID set_ID
      (H := string_Unmarshaler);
    field_of "signer" Signer set_Signer
      (H := string_Unmarshaler);
    field_of "name" Name set_Name
      (H := string_Unmarshaler);
    field_of "required" Required set_Required
      (H := bool_Unmarshaler);
    field_of "instructions" Instructions set_Instructions
      (H := (pointer_Unmarshaler (H := string_Unmarshaler)));
    field_of "uploaded_at" UploadedAt set_UploadedAt
      (H := (pointer_Unmarshaler (H := int64_Unmarshaler))) ].
End SignatureRequestResponseAttachment.

#[export] Instance SignatureRequestResponseAttachment_Unmarshaler
  : Unmarshaler SignatureRequestResponseAttachment.t := {|
  zero := SignatureRequestResponseAttachment.zero_value;
  type_name := "dropboxsign.SignatureRequestResponseAttachment";
  decode :=
    decode_struct "dropboxsign.SignatureRequestResponseAttachment"
      SignatureRequestResponseAttachment.fields
|}.

(** [SignatureRequestResponseData]:
    what a signer entered in a form field. *)
Module SignatureRequestResponseData.
Record t : Type := mk {
  APIID : option string;
  SignatureID : option string;
  Name : option string;
  Required : option bool;
  Type_ : option SignatureRequestResponseDataType;
  Value : option string
}.

Definition zero_value : t :=
  mk None None None None None None.

Definition set_APIID (x : option string) (s : t) : t :=
  mk x (SignatureID s) (Name s) (Required s) (Type_ s) (Value s).
Definition set_SignatureID (x : option string) (s : t) : t :=
  mk (APIID s) x (Name s) (Required s) (Type_ s) (Value s).
Definition set_Name (x : option string) (s : t) : t :=
  mk (APIID s) (SignatureID s) x (Required s) (Type_ s) (Value s).
Definition set_Required (x : option bool) (s : t) : t :=
  mk (APIID s) (SignatureID s) (Name s) x (Type_ s) (Value s).
Definition set_Type_
    (x : option SignatureRequestResponseDataType) (s : t) : t :=
  mk (APIID s) (SignatureID s) (Name s) (Required s) x (Value s).
Definition set_Value (x : option string) (s : t) : t :=
  mk (APIID s) (SignatureID s) (Name s) (Required s) (Type_ s) x.

(** The fields by their JSON tags, in the order of the declaration. *)
Definition fields : list (field t) :=
  [
    field_of "api_id" APIID set_APIID
      (H := (pointer_Unmarshaler (H := string_Unmarshaler)));
    field_of "signature_id" SignatureID set_SignatureID
      (H := (pointer_Unmarshaler (H := string_Unmarshaler)));
    field_of "name" Name set_Name
      (H := (pointer_Unmarshaler (H := string_Unmarshaler)));
    field_of "required" Required set_Required
      (H := (pointer_Unmarshaler (H := bool_Unmarshaler)));
    field_of "type" Type_ set_Type_
      (H := (pointer_Unmarshaler (H := SignatureRequestResponseDataType_Unmarshaler)));
    field_of "value" Value set_Value
      (H := (pointer_Unmarshaler (H := string_Unmarshaler))) ].
End SignatureRequestResponseData.

#[export] Instance SignatureRequestResponseData_Unmarshaler
  : Unmarshaler SignatureRequestResponseData.t := {|
  zero := SignatureRequestResponseData.zero_value;
  type_name := "dropboxsign.SignatureRequestResponseData";
  decode :=
    decode_struct "dropboxsign.SignatureRequestResponseData"
      SignatureRequestResponseData.fields
|}.

(** [SignatureRequestResponseSignatures]:
    the state of one signer. *)
Module SignatureRequestResponseSignatures.
Record t : Type := mk {
  SignatureID : string;
  SignerGroupGUID : option string;
  SignerEmailAddress : string;
  SignerName : option string;
  SignerRole : option string;
  Order : option Z;
  StatusCode : string;
  DeclineReason : option string;
  SignedAt : option Z;
  LastViewedAt : option Z;
  LastRemindedAt : option Z;
  HasPin : bool;
  HasSMSAuth : option bool;
  HasSMSDelivery : option bool;
  SMSPhoneNumber : option string;
  ReassignedBy : option string;
  ReassignmentReason : option string;
  ReassignedFrom : option string;
  Error : option string
}.

Definition zero_value : t :=
  mk EmptyString None EmptyString None None None EmptyString None None None
     None false None None None None None None None.

Definition set_SignatureID (x : string) (s : t) : t :=
  mk x (SignerGroupGUID s) (SignerEmailAddress s) (SignerName s)
     (SignerRole s) (Order s) (StatusCode s) (DeclineReason s) (SignedAt s)
     (LastViewedAt s) (LastRemindedAt s) (HasPin s) (HasSMSAuth s)
     (HasSMSDelivery s) (SMSPhoneNumber s) (ReassignedBy s)
     (ReassignmentReason s) (ReassignedFrom s) (Error s).
Definition set_SignerGroupGUID (x : option string) (s : t) : t :=
  mk (SignatureID s) x (SignerEmailAddress s) (SignerName s) (SignerRole s)
     (Order s) (StatusCode s) (DeclineReason s) (SignedAt s) (LastViewedAt s)
     (LastRemindedAt s) (HasPin s) (HasSMSAuth s) (HasSMSDelivery s)
     (SMSPhoneNumber s) (ReassignedBy s) (ReassignmentReason s)
     (ReassignedFrom s) (Error s).
Definition set_SignerEmailAddress (x : string) (s : t) : t :=
  mk (SignatureID s) (SignerGroupGUID s) x (SignerName s) (SignerRole s)
     (Order s) (StatusCode s) (DeclineReason s) (SignedAt s) (LastViewedAt s)
     (LastRemindedAt s) (HasPin s) (HasSMSAuth s) (HasSMSDelivery s)
     (SMSPhoneNumber s) (ReassignedBy s) (ReassignmentReason s)
     (ReassignedFrom s) (Error s).
Definition set_SignerName (x : option string) (s : t) : t :=
  mk (SignatureID s) (SignerGroupGUID s) (SignerEmailAddress s) x
     (SignerRole s) (Order s) (StatusCode s) (DeclineReason s) (SignedAt s)
     (LastViewedAt s) (LastRemindedAt s) (HasPin s) (HasSMSAuth s)
     (HasSMSDelivery s) (SMSPhoneNumber s) (ReassignedBy s)
     (ReassignmentReason s) (ReassignedFrom s) (Error s).
Definition set_SignerRole (x : option string) (s : t) : t :=
  mk (SignatureID s) (SignerGroupGUID s) (SignerEmailAddress s) (SignerName s)
     x (Order s) (StatusCode s) (DeclineReason s) (SignedAt s)
     (LastViewedAt s) (LastRemindedAt s) (HasPin s) (HasSMSAuth s)
     (HasSMSDelivery s) (SMSPhoneNumber s) (ReassignedBy s)
     (ReassignmentReason s) (ReassignedFrom s) (Error s).
Definition set_Order (x : option Z) (s : t) : t :=
  mk (SignatureID s) (SignerGroupGUID s) (SignerEmailAddress s) (SignerName s)
     (SignerRole s) x (StatusCode s) (DeclineReason s) (SignedAt s)
     (LastViewedAt s) (LastRemindedAt s) (HasPin s) (HasSMSAuth s)
     (HasSMSDelivery s) (SMSPhoneNumber s) (ReassignedBy s)
     (ReassignmentReason s) (ReassignedFrom s) (Error s).
Definition set_StatusCode (x : string) (s : t) : t :=
  mk (SignatureID s) (SignerGroupGUID s) (SignerEmailAddress s) (SignerName s)
     (SignerRole s) (Order s) x (DeclineReason s) (SignedAt s)
     (LastViewedAt s) (LastRemindedAt s) (HasPin s) (HasSMSAuth s)
     (HasSMSDelivery s) (SMSPhoneNumber s) (ReassignedBy s)
     (ReassignmentReason s) (ReassignedFrom s) (Error s).
Definition set_DeclineReason (x : option string) (s : t) : t :=
  mk (SignatureID s) (SignerGroupGUID s) (SignerEmailAddress s) (SignerName s)
     (SignerRole s) (Order s) (StatusCode s) x (SignedAt s) (LastViewedAt s)
     (LastRemindedAt s) (HasPin s) (HasSMSAuth s) (HasSMSDelivery s)
     (SMSPhoneNumber s) (ReassignedBy s) (ReassignmentReason s)
     (ReassignedFrom s) (Error s).
Definition set_SignedAt (x : option Z) (s : t) : t :=
  mk (SignatureID s) (SignerGroupGUID s) (SignerEmailAddress s) (SignerName s)
     (SignerRole s) (Order s) (StatusCode s) (DeclineReason s) x
     (LastViewedAt s) (LastRemindedAt s) (HasPin s) (HasSMSAuth s)
     (HasSMSDelivery s) (SMSPhoneNumber s) (ReassignedBy s)
     (ReassignmentReason s) (ReassignedFrom s) (Error s).
Definition set_LastViewedAt (x : option Z) (s : t) : t :=
  mk (SignatureID s) (SignerGroupGUID s) (SignerEmailAddress s) (SignerName s)
     (SignerRole s) (Order s) (StatusCode s) (DeclineReason s) (SignedAt s) x
     (LastRemindedAt s) (HasPin s) (HasSMSAuth s) (HasSMSDelivery s)
     (SMSPhoneNumber s) (ReassignedBy s) (ReassignmentReason s)
     (ReassignedFrom s) (Error s).
Definition set_LastRemindedAt (x : option Z) (s : t) : t :=
  mk (SignatureID s) (SignerGroupGUID s) (SignerEmailAddress s) (SignerName s)
     (SignerRole s) (Order s) (StatusCode s) (DeclineReason s) (SignedAt s)
     (LastViewedAt s) x (HasPin s) (HasSMSAuth s) (HasSMSDelivery s)
     (SMSPhoneNumber s) (ReassignedBy s) (ReassignmentReason s)
     (ReassignedFrom s) (Error s).
Definition set_HasPin (x : bool) (s : t) : t :=
  mk (SignatureID s) (SignerGroupGUID s) (SignerEmailAddress s) (SignerName s)
     (SignerRole s) (Order s) (StatusCode s) (DeclineReason s) (SignedAt s)
     (LastViewedAt s) (LastRemindedAt s) x (HasSMSAuth s) (HasSMSDelivery s)
     (SMSPhoneNumber s) (ReassignedBy s) (ReassignmentReason s)
     (ReassignedFrom s) (Error s).
Definition set_HasSMSAuth (x : option bool) (s : t) : t :=
  mk (SignatureID s) (SignerGroupGUID s) (SignerEmailAddress s) (SignerName s)
     (SignerRole s) (Order s) (StatusCode s) (DeclineReason s) (SignedAt s)
     (LastViewedAt s) (LastRemindedAt s) (HasPin s) x (HasSMSDelivery s)
     (SMSPhoneNumber s) (ReassignedBy s) (ReassignmentReason s)
     (ReassignedFrom s) (Error s).
Definition set_HasSMSDelivery (x : option bool) (s : t) : t :=
  mk (SignatureID s) (SignerGroupGUID s) (SignerEmailAddress s) (SignerName s)
     (SignerRole s) (Order s) (StatusCode s) (DeclineReason s) (SignedAt s)
     (LastViewedAt s) (LastRemindedAt s) (HasPin s) (HasSMSAuth s) x
     (SMSPhoneNumber s) (ReassignedBy s) (ReassignmentReason s)
     (ReassignedFrom s) (Error s).
Definition set_SMSPhoneNumber (x : option string) (s : t) : t :=
  mk (SignatureID s) (SignerGroupGUID s) (SignerEmailAddress s) (SignerName s)
     (SignerRole s) (Order s) (StatusCode s) (DeclineReason s) (SignedAt s)
     (LastViewedAt s) (LastRemindedAt s) (HasPin s) (HasSMSAuth s)
     (HasSMSDelivery s) x (ReassignedBy s) (ReassignmentReason s)
     (ReassignedFrom s) (Error s).
Definition set_ReassignedBy (x : option string) (s : t) : t :=
  mk (SignatureID s) (SignerGroupGUID s) (SignerEmailAddress s) (SignerName s)
     (SignerRole s) (Order s) (StatusCode s) (DeclineReason s) (SignedAt s)
     (LastViewedAt s) (LastRemindedAt s) (HasPin s) (HasSMSAuth s)
     (HasSMSDelivery s) (SMSPhoneNumber s) x (ReassignmentReason s)
     (ReassignedFrom s) (Error s).
Definition set_ReassignmentReason (x : option string) (s : t) : t :=
  mk (SignatureID s) (SignerGroupGUID s) (SignerEmailAddress s) (SignerName s)
     (SignerRole s) (Order s) (StatusCode s) (DeclineReason s) (SignedAt s)
     (LastViewedAt s) (LastRemindedAt s) (HasPin s) (HasSMSAuth s)
     (HasSMSDelivery s) (SMSPhoneNumber s) (ReassignedBy s) x
     (ReassignedFrom s) (Error s).
Definition set_ReassignedFrom (x : option string) (s : t) : t :=
  mk (SignatureID s) (SignerGroupGUID s) (SignerEmailAddress s) (SignerName s)
     (SignerRole s) (Order s) (StatusCode s) (DeclineReason s) (SignedAt s)
     (LastViewedAt s) (LastRemindedAt s) (HasPin s) (HasSMSAuth s)
     (HasSMSDelivery s) (SMSPhoneNumber s) (ReassignedBy s)
     (ReassignmentReason s) x (Error s).
Definition set_Error (x : option string) (s : t) : t :=
  mk (SignatureID s) (SignerGroupGUID s) (SignerEmailAddress s) (SignerName s)
     (SignerRole s) (Order s) (StatusCode s) (DeclineReason s) (SignedAt s)
     (LastViewedAt s) (LastRemindedAt s) (HasPin s) (HasSMSAuth s)
     (HasSMSDelivery s) (SMSPhoneNumber s) (ReassignedBy s)
     (ReassignmentReason s) (ReassignedFrom s) x.

(** The fields by their JSON tags, in the order of the declaration. *)
Definition fields : list (field t) :=
  [
    field_of "signature_id" SignatureID set_SignatureID
      (H := string_Unmarshaler);
    field_of "signer_group_guid" SignerGroupGUID set_SignerGroupGUID
      (H := (pointer_Unmarshaler (H := string_Unmarshaler)));
    field_of "signer_email_address" SignerEmailAddress set_SignerEmailAddress
      (H := string_Unmarshaler);
    field_of "signer_name" SignerName set_SignerName
      (H := (pointer_Unmarshaler (H := string_Unmarshaler)));
    field_of "signer_role" SignerRole set_SignerRole
      (H := (pointer_Unmarshaler (H := string_Unmarshaler)));
    field_of "order" Order set_Order
      (H := (pointer_Unmarshaler (H := int_Unmarshaler)));
    field_of "status_code" StatusCode set_StatusCode
      (H := string_Unmarshaler);
    field_of "decline_reason" DeclineReason set_DeclineReason
      (H := (pointer_Unmarshaler (H := string_Unmarshaler)));
    field_of "signed_at" SignedAt set_SignedAt
      (H := (pointer_Unmarshaler (H := int64_Unmarshaler)));
    field_of "last_viewed_at" LastViewedAt set_LastViewedAt
      (H := (pointer_Unmarshaler (H := int64_Unmarshaler)));
    field_of "last_reminded_at" LastRemindedAt set_LastRemindedAt
      (H := (pointer_Unmarshaler (H := int64_Unmarshaler)));
    field_of "has_pin" HasPin set_HasPin
      (H := bool_Unmarshaler);
    field_of "has_sms_auth" HasSMSAuth set_HasSMSAuth
      (H := (pointer_Unmarshaler (H := bool_Unmarshaler)));
    field_of "has_sms_delivery" HasSMSDelivery set_HasSMSDelivery
      (H := (pointer_Unmarshaler (H := bool_Unmarshaler)));
    field_of "sms_phone_number" SMSPhoneNumber set_SMSPhoneNumber
      (H := (pointer_Unmarshaler (H := string_Unmarshaler)));
    field_of "reassigned_by" ReassignedBy set_ReassignedBy
      (H := (pointer_Unmarshaler (H := string_Unmarshaler)));
    field_of "reassignment_reason" ReassignmentReason set_ReassignmentReason
      (H := (pointer_Unmarshaler (H := string_Unmarshaler)));
    field_of "reassigned_from" ReassignedFrom set_ReassignedFrom
      (H := (pointer_Unmarshaler (H := string_Unmarshaler)));
    field_of "error" Error set_Error
      (H := (pointer_Unmarshaler (H := string_Unmarshaler))) ].
End SignatureRequestResponseSignatures.

#[export] Instance SignatureRequestResponseSignatures_Unmarshaler
  : Unmarshaler SignatureRequestResponseSignatures.t := {|
  zero := SignatureRequestResponseSignatures.zero_value;
  type_name := "dropboxsign.SignatureRequestResponseSignatures";
  decode :=
    decode_struct "dropboxsign.SignatureRequestResponseSignatures"
      SignatureRequestResponseSignatures.fields
|}.

(** [SignatureRequestResponse]:
    a signature request as the service reports it. *)
Module SignatureRequestResponse.
Record t : Type := mk {
  TestMode : option bool;
  SignatureRequestID : string;
  RequesterEmailAddress : option string;
  Title : string;
  OriginalTitle : string;
  Subject : option string;
  Message : option string;
  Metadata : gmap string string;
  CreatedAt : Z;
  ExpiresAt : option Z;
  IsComplete : bool;
  IsDeclined : bool;
  HasError : bool;
  FilesURL : string;
  SigningURL : option string;
  DetailsURL : string;
  CCEmailAddresses : buffer string;
  SigningRedirectURL : option string;
  FinalCopyURI : option string;
  TemplateIDs : buffer string;
  CustomIDs : buffer string;
  Attachments : option SignatureRequestResponseAttachment.t;
  ResponseData : buffer SignatureRequestResponseData.t;
  Signatures : buffer SignatureRequestResponseSignatures.t;
  BulkSendJobID : option string
}.

Definition zero_value : t :=
  mk None EmptyString None EmptyString EmptyString None None ∅ 0%Z None false
     false false EmptyString None EmptyString nil_buffer None None nil_buffer
     nil_buffer None nil_buffer nil_buffer None.

Definition set_TestMode (x : option bool) (s : t) : t :=
  mk x (SignatureRequestID s) (RequesterEmailAddress s) (Title s)
     (OriginalTitle s) (Subject s) (Message s) (Metadata s) (CreatedAt s)
     (ExpiresAt s) (IsComplete s) (IsDeclined s) (HasError s) (FilesURL s)
     (SigningURL s) (DetailsURL s) (CCEmailAddresses s) (SigningRedirectURL s)
     (FinalCopyURI s) (TemplateIDs s) (CustomIDs s) (Attachments s)
     (ResponseData s) (Signatures s) (BulkSendJobID s).
Definition set_SignatureRequestID (x : string) (s : t) : t :=
  mk (TestMode s) x (RequesterEmailAddress s) (Title s) (OriginalTitle s)
     (Subject s) (Message s) (Metadata s) (CreatedAt s) (ExpiresAt s)
     (IsComplete s) (IsDeclined s) (HasError s) (FilesURL s) (SigningURL s)
     (DetailsURL s) (CCEmailAddresses s) (SigningRedirectURL s)
     (FinalCopyURI s) (TemplateIDs s) (CustomIDs s) (Attachments s)
     (ResponseData s) (Signatures s) (BulkSendJobID s).
Definition set_RequesterEmailAddress (x : option string) (s : t) : t :=
  mk (TestMode s) (SignatureRequestID s) x (Title s) (OriginalTitle s)
     (Subject s) (Message s) (Metadata s) (CreatedAt s) (ExpiresAt s)
     (IsComplete s) (IsDeclined s) (HasError s) (FilesURL s) (SigningURL s)
     (DetailsURL s) (CCEmailAddresses s) (SigningRedirectURL s)
     (FinalCopyURI s) (TemplateIDs s) (CustomIDs s) (Attachments s)
     (ResponseData s) (Signatures s) (BulkSendJobID s).
Definition set_Title (x : string) (s : t) : t :=
  mk (TestMode s) (SignatureRequestID s) (RequesterEmailAddress s) x
     (OriginalTitle s) (Subject s) (Message s) (Metadata s) (CreatedAt s)
     (ExpiresAt s) (IsComplete s) (IsDeclined s) (HasError s) (FilesURL s)
     (SigningURL s) (DetailsURL s) (CCEmailAddresses s) (SigningRedirectURL s)
     (FinalCopyURI s) (TemplateIDs s) (CustomIDs s) (Attachments s)
     (ResponseData s) (Signatures s) (BulkSendJobID s).
Definition set_OriginalTitle (x : string) (s : t) : t :=
  mk (TestMode s) (SignatureRequestID s) (RequesterEmailAddress s) (Title s) x
     (Subject s) (Message s) (Metadata s) (CreatedAt s) (ExpiresAt s)
     (IsComplete s) (IsDeclined s) (HasError s) (FilesURL s) (SigningURL s)
     (DetailsURL s) (CCEmailAddresses s) (SigningRedirectURL s)
     (FinalCopyURI s) (TemplateIDs s) (CustomIDs s) (Attachments s)
     (ResponseData s) (Signatures s) (BulkSendJobID s).
Definition set_Subject (x : option string) (s : t) : t :=
  mk (TestMode s) (SignatureRequestID s) (RequesterEmailAddress s) (Title s)
     (OriginalTitle s) x (Message s) (Metadata s) (CreatedAt s) (ExpiresAt s)
     (IsComplete s) (IsDeclined s) (HasError s) (FilesURL s) (SigningURL s)
     (DetailsURL s) (CCEmailAddresses s) (SigningRedirectURL s)
     (FinalCopyURI s) (TemplateIDs s) (CustomIDs s) (Attachments s)
     (ResponseData s) (Signatures s) (BulkSendJobID s).
Definition set_Message (x : option string) (s : t) : t :=
  mk (TestMode s) (SignatureRequestID s) (RequesterEmailAddress s) (Title s)
     (OriginalTitle s) (Subject s) x (Metadata s) (CreatedAt s) (ExpiresAt s)
     (IsComplete s) (IsDeclined s) (HasError s) (FilesURL s) (SigningURL s)
     (DetailsURL s) (CCEmailAddresses s) (SigningRedirectURL s)
     (FinalCopyURI s) (TemplateIDs s) (CustomIDs s) (Attachments s)
     (ResponseData s) (Signatures s) (BulkSendJobID s).
Definition set_Metadata (x : gmap string string) (s : t) : t :=
  mk (TestMode s) (SignatureRequestID s) (RequesterEmailAddress s) (Title s)
     (OriginalTitle s) (Subject s) (Message s) x (CreatedAt s) (ExpiresAt s)
     (IsComplete s) (IsDeclined s) (HasError s) (FilesURL s) (SigningURL s)
     (DetailsURL s) (CCEmailAddresses s) (SigningRedirectURL s)
     (FinalCopyURI s) (TemplateIDs s) (CustomIDs s) (Attachments s)
     (ResponseData s) (Signatures s) (BulkSendJobID s).
Definition set_CreatedAt (x : Z) (s : t) : t :=
  mk (TestMode s) (SignatureRequestID s) (RequesterEmailAddress s) (Title s)
     (OriginalTitle s) (Subject s) (Message s) (Metadata s) x (ExpiresAt s)
     (IsComplete s) (IsDeclined s) (HasError s) (FilesURL s) (SigningURL s)
     (DetailsURL s) (CCEmailAddresses s) (SigningRedirectURL s)
     (FinalCopyURI s) (TemplateIDs s) (CustomIDs s) (Attachments s)
     (ResponseData s) (Signatures s) (BulkSendJobID s).
Definition set_ExpiresAt (x : option Z) (s : t) : t :=
  mk (TestMode s) (SignatureRequestID s) (RequesterEmailAddress s) (Title s)
     (OriginalTitle s) (Subject s) (Message s) (Metadata s) (CreatedAt s) x
     (IsComplete s) (IsDeclined s) (HasError s) (FilesURL s) (SigningURL s)
     (DetailsURL s) (CCEmailAddresses s) (SigningRedirectURL s)
     (FinalCopyURI s) (TemplateIDs s) (CustomIDs s) (Attachments s)
     (ResponseData s) (Signatures s) (BulkSendJobID s).
Definition set_IsComplete (x : bool) (s : t) : t :=
  mk (TestMode s) (SignatureRequestID s) (RequesterEmailAddress s) (Title s)
     (OriginalTitle s) (Subject s) (Message s) (Metadata s) (CreatedAt s)
     (ExpiresAt s) x (IsDeclined s) (HasError s) (FilesURL s) (SigningURL s)
     (DetailsURL s) (CCEmailAddresses s) (SigningRedirectURL s)
     (FinalCopyURI s) (TemplateIDs s) (CustomIDs s) (Attachments s)
     (ResponseData s) (Signatures s) (BulkSendJobID s).
Definition set_IsDeclined (x : bool) (s : t) : t :=
  mk (TestMode s) (SignatureRequestID s) (RequesterEmailAddress s) (Title s)
     (OriginalTitle s) (Subject s) (Message s) (Metadata s) (CreatedAt s)
     (ExpiresAt s) (IsComplete s) x (HasError s) (FilesURL s) (SigningURL s)
     (DetailsURL s) (CCEmailAddresses s) (SigningRedirectURL s)
     (FinalCopyURI s) (TemplateIDs s) (CustomIDs s) (Attachments s)
     (ResponseData s) (Signatures s) (BulkSendJobID s).
Definition set_HasError (x : bool) (s : t) : t :=
  mk (TestMode s) (SignatureRequestID s) (RequesterEmailAddress s) (Title s)
     (OriginalTitle s) (Subject s) (Message s) (Metadata s) (CreatedAt s)
     (ExpiresAt s) (IsComplete s) (IsDeclined s) x (FilesURL s) (SigningURL s)
     (DetailsURL s) (CCEmailAddresses s) (SigningRedirectURL s)
     (FinalCopyURI s) (TemplateIDs s) (CustomIDs s) (Attachments s)
     (ResponseData s) (Signatures s) (BulkSendJobID s).
Definition set_FilesURL (x : string) (s : t) : t :=
  mk (TestMode s) (SignatureRequestID s) (RequesterEmailAddress s) (Title s)
     (OriginalTitle s) (Subject s) (Message s) (Metadata s) (CreatedAt s)
     (ExpiresAt s) (IsComplete s) (IsDeclined s) (HasError s) x (SigningURL s)
     (DetailsURL s) (CCEmailAddresses s) (SigningRedirectURL s)
     (FinalCopyURI s) (TemplateIDs s) (CustomIDs s) (Attachments s)
     (ResponseData s) (Signatures s) (BulkSendJobID s).
Definition set_SigningURL (x : option string) (s : t) : t :=
  mk (TestMode s) (SignatureRequestID s) (RequesterEmailAddress s) (Title s)
     (OriginalTitle s) (Subject s) (Message s) (Metadata s) (CreatedAt s)
     (ExpiresAt s) (IsComplete s) (IsDeclined s) (HasError s) (FilesURL s) x
     (DetailsURL s) (CCEmailAddresses s) (SigningRedirectURL s)
     (FinalCopyURI s) (TemplateIDs s) (CustomIDs s) (Attachments s)
     (ResponseData s) (Signatures s) (BulkSendJobID s).
Definition set_DetailsURL (x : string) (s : t) : t :=
  mk (TestMode s) (SignatureRequestID s) (RequesterEmailAddress s) (Title s)
     (OriginalTitle s) (Subject s) (Message s) (Metadata s) (CreatedAt s)
     (ExpiresAt s) (IsComplete s) (IsDeclined s) (HasError s) (FilesURL s)
     (SigningURL s) x (CCEmailAddresses s) (SigningRedirectURL s)
     (FinalCopyURI s) (TemplateIDs s) (CustomIDs s) (Attachments s)
     (ResponseData s) (Signatures s) (BulkSendJobID s).
Definition set_CCEmailAddresses (x : buffer string) (s : t) : t :=
  mk (TestMode s) (SignatureRequestID s) (RequesterEmailAddress s) (Title s)
     (OriginalTitle s) (Subject s) (Message s) (Metadata s) (CreatedAt s)
     (ExpiresAt s) (IsComplete s) (IsDeclined s) (HasError s) (FilesURL s)
     (SigningURL s) (DetailsURL s) x (SigningRedirectURL s) (FinalCopyURI s)
     (TemplateIDs s) (CustomIDs s) (Attachments s) (ResponseData s)
     (Signatures s) (BulkSendJobID s).
Definition set_SigningRedirectURL (x : option string) (s : t) : t :=
  mk (TestMode s) (SignatureRequestID s) (RequesterEmailAddress s) (Title s)
     (OriginalTitle s) (Subject s) (Message s) (Metadata s) (CreatedAt s)
     (ExpiresAt s) (IsComplete s) (IsDeclined s) (HasError s) (FilesURL s)
     (SigningURL s) (DetailsURL s) (CCEmailAddresses s) x (FinalCopyURI s)
     (TemplateIDs s) (CustomIDs s) (Attachments s) (ResponseData s)
     (Signatures s) (BulkSendJobID s).
Definition set_FinalCopyURI (x : option string) (s : t) : t :=
  mk (TestMode s) (SignatureRequestID s) (RequesterEmailAddress s) (Title s)
     (OriginalTitle s) (Subject s) (Message s) (Metadata s) (CreatedAt s)
     (ExpiresAt s) (IsComplete s) (IsDeclined s) (HasError s) (FilesURL s)
     (SigningURL s) (DetailsURL s) (CCEmailAddresses s) (SigningRedirectURL s)
     x (TemplateIDs s) (CustomIDs s) (Attachments s) (ResponseData s)
     (Signatures s) (BulkSendJobID s).
Definition set_TemplateIDs (x : buffer string) (s : t) : t :=
  mk (TestMode s) (SignatureRequestID s) (RequesterEmailAddress s) (Title s)
     (OriginalTitle s) (Subject s) (Message s) (Metadata s) (CreatedAt s)
     (ExpiresAt s) (IsComplete s) (IsDeclined s) (HasError s) (FilesURL s)
     (SigningURL s) (DetailsURL s) (CCEmailAddresses s) (SigningRedirectURL s)
     (FinalCopyURI s) x (CustomIDs s) (Attachments s) (ResponseData s)
     (Signatures s) (BulkSendJobID s).
Definition set_CustomIDs (x : buffer string) (s : t) : t :=
  mk (TestMode s) (SignatureRequestID s) (RequesterEmailAddress s) (Title s)
     (OriginalTitle s) (Subject s) (Message s) (Metadata s) (CreatedAt s)
     (ExpiresAt s) (IsComplete s) (IsDeclined s) (HasError s) (FilesURL s)
     (SigningURL s) (DetailsURL s) (CCEmailAddresses s) (SigningRedirectURL s)
     (FinalCopyURI s) (TemplateIDs s) x (Attachments s) (ResponseData s)
     (Signatures s) (BulkSendJobID s).
Definition set_Attachments
    (x : option SignatureRequestResponseAttachment.t) (s : t) : t :=
  mk (TestMode s) (SignatureRequestID s) (RequesterEmailAddress s) (Title s)
     (OriginalTitle s) (Subject s) (Message s) (Metadata s) (CreatedAt s)
     (ExpiresAt s) (IsComplete s) (IsDeclined s) (HasError s) (FilesURL s)
     (SigningURL s) (DetailsURL s) (CCEmailAddresses s) (SigningRedirectURL s)
     (FinalCopyURI s) (TemplateIDs s) (CustomIDs s) x (ResponseData s)
     (Signatures s) (BulkSendJobID s).
Definition set_ResponseData
    (x : buffer SignatureRequestResponseData.t) (s : t) : t :=
  mk (TestMode s) (SignatureRequestID s) (RequesterEmailAddress s) (Title s)
     (OriginalTitle s) (Subject s) (Message s) (Metadata s) (CreatedAt s)
     (ExpiresAt s) (IsComplete s) (IsDeclined s) (HasError s) (FilesURL s)
     (SigningURL s) (DetailsURL s) (CCEmailAddresses s) (SigningRedirectURL s)
     (FinalCopyURI s) (TemplateIDs s) (CustomIDs s) (Attachments s) x
     (Signatures s) (BulkSendJobID s).
Definition set_Signatures
    (x : buffer SignatureRequestResponseSignatures.t) (s : t) : t :=
  mk (TestMode s) (SignatureRequestID s) (RequesterEmailAddress s) (Title s)
     (OriginalTitle s) (Subject s) (Message s) (Metadata s) (CreatedAt s)
     (ExpiresAt s) (IsComplete s) (IsDeclined s) (HasError s) (FilesURL s)
     (SigningURL s) (DetailsURL s) (CCEmailAddresses s) (SigningRedirectURL s)
     (FinalCopyURI s) (TemplateIDs s) (CustomIDs s) (Attachments s)
     (ResponseData s) x (BulkSendJobID s).
Definition set_BulkSendJobID (x : option string) (s : t) : t :=
  mk (TestMode s) (SignatureRequestID s) (RequesterEmailAddress s) (Title s)
     (OriginalTitle s) (Subject s) (Message s) (Metadata s) (CreatedAt s)
     (ExpiresAt s) (IsComplete s) (IsDeclined s) (HasError s) (FilesURL s)
     (SigningURL s) (DetailsURL s) (CCEmailAddresses s) (SigningRedirectURL s)
     (FinalCopyURI s) (TemplateIDs s) (CustomIDs s) (Attachments s)
     (ResponseData s) (Signatures s) x.

(** The fields by their JSON tags, in the order of the declaration. *)
Definition fields : list (field t) :=
  [
    field_of "test_mode" TestMode set_TestMode
      (H := (pointer_Unmarshaler (H := bool_Unmarshaler)));
    field_of "signature_request_id" SignatureRequestID set_SignatureRequestID
      (H := string_Unmarshaler);
    field_of "requester_email_address" RequesterEmailAddress set_RequesterEmailAddress
      (H := (pointer_Unmarshaler (H := string_Unmarshaler)));
    field_of "title" Title set_Title
      (H := string_Unmarshaler);
    field_of "original_title" OriginalTitle set_OriginalTitle
      (H := string_Unmarshaler);
    field_of "subject" Subject set_Subject
      (H := (pointer_Unmarshaler (H := string_Unmarshaler)));
    field_of "message" Message set_Message
      (H := (pointer_Unmarshaler (H := string_Unmarshaler)));
    field_of "metadata" Metadata set_Metadata
      (H := string_map_Unmarshaler);
    field_of "created_at" CreatedAt set_CreatedAt
      (H := int64_Unmarshaler);
    field_of "expires_at" ExpiresAt set_ExpiresAt
      (H := (pointer_Unmarshaler (H := int64_Unmarshaler)));
    field_of "is_complete" IsComplete set_IsComplete
      (H := bool_Unmarshaler);
    field_of "is_declined" IsDeclined set_IsDeclined
      (H := bool_Unmarshaler);
    field_of "has_error" HasError set_HasError
      (H := bool_Unmarshaler);
    field_of "files_url" FilesURL set_FilesURL
      (H := string_Unmarshaler);
    field_of "signing_url" SigningURL set_SigningURL
      (H := (pointer_Unmarshaler (H := string_Unmarshaler)));
    field_of "details_url" DetailsURL set_DetailsURL
      (H := string_Unmarshaler);
    field_of "cc_email_addresses" CCEmailAddresses set_CCEmailAddresses
      (H := (buffer_Unmarshaler (H := string_Unmarshaler)));
    field_of "signing_redirect_url" SigningRedirectURL set_SigningRedirectURL
      (H := (pointer_Unmarshaler (H := string_Unmarshaler)));
    field_of "final_copy_uri" FinalCopyURI set_FinalCopyURI
      (H := (pointer_Unmarshaler (H := string_Unmarshaler)));
    field_of "template_ids" TemplateIDs set_TemplateIDs
      (H := (buffer_Unmarshaler (H := string_Unmarshaler)));
    field_of "custom_ids" CustomIDs set_CustomIDs
      (H := (buffer_Unmarshaler (H := string_Unmarshaler)));
    field_of "attachments" Attachments set_Attachments
      (H := (pointer_Unmarshaler (H := SignatureRequestResponseAttachment_Unmarshaler)));
    field_of "response_data" ResponseData set_ResponseData
      (H := (buffer_Unmarshaler (H := SignatureRequestResponseData_Unmarshaler)));
    field_of "signatures" Signatures set_Signatures
      (H := (buffer_Unmarshaler (H := SignatureRequestResponseSignatures_Unmarshaler)));
    field_of "bulk_send_job_id" BulkSendJobID set_BulkSendJobID
      (H := (pointer_Unmarshaler (H := string_Unmarshaler))) ].
End SignatureRequestResponse.

#[export] Instance SignatureRequestResponse_Unmarshaler
  : Unmarshaler SignatureRequestResponse.t := {|
  zero := SignatureRequestResponse.zero_value;
  type_name := "dropboxsign.SignatureRequestResponse";
  decode :=
    decode_struct "dropboxsign.SignatureRequestResponse"
      SignatureRequestResponse.fields
|}.


(** ** Encoding Go values as JSON: [json.Marshal] *)

Module marshal.

(** [base64.StdEncoding]: how a [[]byte] is written. *)
Definition base64_digit (n : N) : ascii :=
  if n <? 26 then utf8.byte (65 + n)
  else if n <? 52 then utf8.byte (97 + (n - 26))
  else if n <? 62 then utf8.byte (48 + (n - 52))
  else if n =? 62 then "+"%char
  else "/"%char.

Fixpoint base64 (l : list ascii) : string :=
  match l with
  | [] => EmptyString
  | [a] =>
    let n := utf8.code a * 65536 in
    String (base64_digit (n / 262144))
      (String (base64_digit ((n / 4096) mod 64)) "==")
  | [a; b] =>
    let n := utf8.code a * 65536 + utf8.code b * 256 in
    String (base64_digit (n / 262144))
      (String (base64_digit ((n / 4096) mod 64))
         (String (base64_digit ((n / 64) mod 64)) "="))
  | a :: b :: c :: l' =>
    let n := utf8.code a * 65536 + utf8.code b * 256 + utf8.code c in
    String (base64_digit (n / 262144))
      (String (base64_digit ((n / 4096) mod 64))
         (String (base64_digit ((n / 64) mod 64))
            (String (base64_digit (n mod 64)) (base64 l'))))
  end.

(** The encoder writes a string with every ill-formed byte replaced by
    U+FFFD. *)
Definition ToValidUTF8 (s : string) : string :=
  utf8.encode (map fst (utf8.runes s)).

(** A Go type that can be written as JSON: the value written, and whether a
    value counts as empty for a field tagged [omitempty] ([false], [0], a
    [nil] pointer, and any empty slice, map or string). *)
Class Marshaler (T : Type) : Type := {
  encode : T -> json.value;
  isEmptyValue : T -> bool
}.

#[export] Instance string_Marshaler : Marshaler string := {|
  encode s := json.Str (ToValidUTF8 s);
  isEmptyValue s := (String.length s =? 0)%nat
|}.

#[export] Instance bool_Marshaler : Marshaler bool := {|
  encode b := json.Bool b;
  isEmptyValue b := negb b
|}.

(** A pointer: [null] when [nil], else what it points to. *)
Definition pointer_Marshaler {T} `{Marshaler T} : Marshaler (option T) := {|
  encode p := match p with Some x => encode x | None => json.Null end;
  isEmptyValue p := match p with Some _ => false | None => true end
|}.

(** A slice: [null] when [nil], else the array of its elements. *)
Definition slice_Marshaler {T} `{Marshaler T} : Marshaler (slice T) := {|
  encode s :=
    match s with Some l => json.Array (map encode l) | None => json.Null end;
  isEmptyValue s := (len s =? 0)%nat
|}.

(** A [[]byte]: [null] when [nil], else a base64 string. *)
Definition bytes_Marshaler : Marshaler (slice ascii) := {|
  encode s :=
    match s with Some l => json.Str (base64 l) | None => json.Null end;
  isEmptyValue s := (len s =? 0)%nat
|}.

Fixpoint insert_sorted (kv : string * string) (l : list (string * string))
  : list (string * string) :=
  match l with
  | [] => [kv]
  | kv' :: l' =>
    if String.leb (fst kv) (fst kv') then kv :: l
    else kv' :: insert_sorted kv l'
  end.

Definition sort_keys (l : list (string * string)) : list (string * string) :=
  fold_right insert_sorted [] l.

(** A [map[string]string]: an object, its keys in byte order.  (The maps
    encoded here are tagged [omitempty]; an empty one is left out, and a
    [nil] map is not told apart from an empty one.) *)
#[export] Instance string_map_Marshaler : Marshaler (gmap string string) := {|
  encode m :=
    json.Object
      (map (fun kv => (ToValidUTF8 (fst kv), json.Str (ToValidUTF8 (snd kv))))
           (sort_keys (map_to_list m)));
  isEmptyValue m := (size m =? 0)%nat
|}.

(** A field of a struct [S] for the encoder. *)
Record efield (S : Type) : Type := mkEfield {
  tag : string;
  omitempty : bool;
  value_of : S -> json.value;
  empty_in : S -> bool
}.
Arguments mkEfield {S} _ _ _ _.
Arguments tag {S} _.
Arguments omitempty {S} _.
Arguments value_of {S} _.
Arguments empty_in {S} _.

Definition efield_of {S T} `{Marshaler T}
    (n : string) (omit : bool) (get : S -> T) : efield S :=
  mkEfield n omit (fun s => encode (get s)) (fun s => isEmptyValue (get s)).

(** A struct is written as an object with a member per field, in the order
    of the declaration, leaving out the empty fields tagged [omitempty]. *)
Definition encode_struct {S} (fs : list (efield S)) (s : S) : json.value :=
  json.Object
    (flat_map
       (fun f =>
          if omitempty f && empty_in f s then []
          else [(tag f, value_of f s)])
       fs).

(** [json.Marshal], as the document written.  None of the types encoded
    here can make it fail. *)
Definition Marshal {T} `{Marshaler T} (v : T) : json.value := encode v.

End marshal.
Export marshal.

(** ** The request schema ([signature_request.go]) *)

(** [SMSPhoneNumberType], a defined string type, and its values. *)
Definition SMSPhoneNumberType : Type := string.
Definition SMSPhoneNumberTypeAuthentication : SMSPhoneNumberType :=
  "authentication".
Definition SMSPhoneNumberTypeDelivery : SMSPhoneNumberType := "delivery".

(** [SubSigningOptionsDefaultType], a defined string type, and its values. *)
Definition SubSigningOptionsDefaultType : Type := string.
Definition SubSigningOptionsDefaultTypeDraw : SubSigningOptionsDefaultType :=
  "draw".
Definition SubSigningOptionsDefaultTypePhone : SubSigningOptionsDefaultType :=
  "phone".
Definition SubSigningOptionsDefaultTypeType : SubSigningOptionsDefaultType :=
  "type".
Definition SubSigningOptionsDefaultTypeUpload : SubSigningOptionsDefaultType :=
  "upload".

(** [SubSignatureRequestTemplateSigner]:
    a signer of a template-based request. *)
Module SubSignatureRequestTemplateSigner.
Record t : Type := mk {
  Role : string;
  Name : string;
  EmailAddress : string;
  Pin : option string;
  SMSPhoneNumber : option string;
  SMSPhoneNumberType_ : option SMSPhoneNumberType
}.

Definition set_Role (x : string) (s : t) : t :=
  mk x (Name s) (EmailAddress s) (Pin s) (SMSPhoneNumber s)
     (SMSPhoneNumberType_ s).
Definition set_Name (x : string) (s : t) : t :=
  mk (Role s) x (EmailAddress s) (Pin s) (SMSPhoneNumber s)
     (SMSPhoneNumberType_ s).
Definition set_EmailAddress (x : string) (s : t) : t :=
  mk (Role s) (Name s) x (Pin s) (SMSPhoneNumber s) (SMSPhoneNumberType_ s).
Definition set_Pin (x : option string) (s : t) : t :=
  mk (Role s) (Name s) (EmailAddress s) x (SMSPhoneNumber s)
     (SMSPhoneNumberType_ s).
Definition set_SMSPhoneNumber (x : option string) (s : t) : t :=
  mk (Role s) (Name s) (EmailAddress s) (Pin s) x (SMSPhoneNumberType_ s).
Definition set_SMSPhoneNumberType_
    (x : option SMSPhoneNumberType) (s : t) : t :=
  mk (Role s) (Name s) (EmailAddress s) (Pin s) (SMSPhoneNumber s) x.

(** The fields as [json.Marshal] writes them: tag, whether the tag says
    [omitempty], and the field. *)
Definition fields : list (efield t) :=
  [
    efield_of "role" false Role
      (H := string_Marshaler);
    efield_of "name" false Name
      (H := string_Marshaler);
    efield_of "email_address" false EmailAddress
      (H := string_Marshaler);
    efield_of "pin" true Pin
      (H := (pointer_Marshaler (H := string_Marshaler)));
    efield_of "sms_phone_number" true SMSPhoneNumber
      (H := (pointer_Marshaler (H := string_Marshaler)));
    efield_of "sms_phone_number_type" true SMSPhoneNumberType_
      (H := (pointer_Marshaler (H := string_Marshaler))) ].

(** [NewSubSignatureRequestTemplateSigner]. *)
Definition New (role name emailAddress : string) : t :=
  mk role name emailAddress None None None.

(** [WithPin] sets a PIN the signer must enter. *)
Definition WithPin (pin : string) (s : t) : t :=
  set_Pin (Some pin) s.

(** [WithSMSPhoneNumber] sets the phone number for SMS. *)
Definition WithSMSPhoneNumber (smsPhoneNumber : string) (s : t) : t :=
  set_SMSPhoneNumber (Some smsPhoneNumber) s.

(** [WithSMSPhoneNumberType] sets how the phone number is used. *)
Definition WithSMSPhoneNumberType
    (smsPhoneNumberType : SMSPhoneNumberType) (s : t) : t :=
  set_SMSPhoneNumberType_ (Some smsPhoneNumberType) s.
End SubSignatureRequestTemplateSigner.

#[export] Instance SubSignatureRequestTemplateSigner_Marshaler
  : Marshaler SubSignatureRequestTemplateSigner.t := {|
  encode := encode_struct SubSignatureRequestTemplateSigner.fields;
  isEmptyValue _ := false
|}.

(** [SubCC]:
    a carbon-copy recipient. *)
Module SubCC.
Record t : Type := mk {
  Role : string;
  Email : string
}.

Definition set_Role (x : string) (s : t) : t :=
  mk x (Email s).
Definition set_Email (x : string) (s : t) : t :=
  mk (Role s) x.

(** The fields as [json.Marshal] writes them: tag, whether the tag says
    [omitempty], and the field. *)
Definition fields : list (efield t) :=
  [
    efield_of "role" false Role
      (H := string_Marshaler);
    efield_of "email" false Email
      (H := string_Marshaler) ].

(** [NewSubCC]. *)
Definition New (role email : string) : t := mk role email.
End SubCC.

#[export] Instance SubCC_Marshaler
  : Marshaler SubCC.t := {|
  encode := encode_struct SubCC.fields;
  isEmptyValue _ := false
|}.

(** [SubCustomField]:
    a form field filled in beforehand. *)
Module SubCustomField.
Record t : Type := mk {
  Name : string;
  Editor : option string;
  Required : option bool;
  Value : option string
}.

Definition set_Name (x : string) (s : t) : t :=
  mk x (Editor s) (Required s) (Value s).
Definition set_Editor (x : option string) (s : t) : t :=
  mk (Name s) x (Required s) (Value s).
Definition set_Required (x : option bool) (s : t) : t :=
  mk (Name s) (Editor s) x (Value s).
Definition set_Value (x : option string) (s : t) : t :=
  mk (Name s) (Editor s) (Required s) x.

(** The fields as [json.Marshal] writes them: tag, whether the tag says
    [omitempty], and the field. *)
Definition fields : list (efield t) :=
  [
    efield_of "name" false Name
      (H := string_Marshaler);
    efield_of "editor" true Editor
      (H := (pointer_Marshaler (H := string_Marshaler)));
    efield_of "required" true Required
      (H := (pointer_Marshaler (H := bool_Marshaler)));
    efield_of "value" true Value
      (H := (pointer_Marshaler (H := string_Marshaler))) ].

(** [NewSubCustomField]. *)
Definition New (name : string) : t := mk name None None None.

(** [WithEditor] sets who can edit the field. *)
Definition WithEditor (editor : string) (s : t) : t :=
  set_Editor (Some editor) s.

(** [WithRequired] sets whether the field must be filled. *)
Definition WithRequired (required : bool) (s : t) : t :=
  set_Required (Some required) s.

(** [WithValue] sets the default value. *)
Definition WithValue (value : string) (s : t) : t :=
  set_Value (Some value) s.
End SubCustomField.

#[export] Instance SubCustomField_Marshaler
  : Marshaler SubCustomField.t := {|
  encode := encode_struct SubCustomField.fields;
  isEmptyValue _ := false
|}.

(** [SubSigningOptions]:
    the signature methods on offer. *)
Module SubSigningOptions.
Record t : Type := mk {
  DefaultType : SubSigningOptionsDefaultType;
  Draw : option bool;
  Phone : option bool;
  Type_ : option bool;
  Upload : option bool
}.

Definition set_DefaultType (x : SubSigningOptionsDefaultType) (s : t) : t :=
  mk x (Draw s) (Phone s) (Type_ s) (Upload s).
Definition set_Draw (x : option bool) (s : t) : t :=
  mk (DefaultType s) x (Phone s) (Type_ s) (Upload s).
Definition set_Phone (x : option bool) (s : t) : t :=
  mk (DefaultType s) (Draw s) x (Type_ s) (Upload s).
Definition set_Type_ (x : option bool) (s : t) : t :=
  mk (DefaultType s) (Draw s) (Phone s) x (Upload s).
Definition set_Upload (x : option bool) (s : t) : t :=
  mk (DefaultType s) (Draw s) (Phone s) (Type_ s) x.

(** The fields as [json.Marshal] writes them: tag, whether the tag says
    [omitempty], and the field. *)
Definition fields : list (efield t) :=
  [
    efield_of "default_type" false DefaultType
      (H := string_Marshaler);
    efield_of "draw" true Draw
      (H := (pointer_Marshaler (H := bool_Marshaler)));
    efield_of "phone" true Phone
      (H := (pointer_Marshaler (H := bool_Marshaler)));
    efield_of "type" true Type_
      (H := (pointer_Marshaler (H := bool_Marshaler)));
    efield_of "upload" true Upload
      (H := (pointer_Marshaler (H := bool_Marshaler))) ].

(** [NewSubSigningOptions]. *)
Definition New (defaultType : SubSigningOptionsDefaultType) : t :=
  mk defaultType None None None None.

(** [WithDraw] sets whether signers can draw. *)
Definition WithDraw (draw : bool) (s : t) : t :=
  set_Draw (Some draw) s.

(** [WithPhone] sets whether signers can sign by phone. *)
Definition WithPhone (phone : bool) (s : t) : t :=
  set_Phone (Some phone) s.

(** [WithType] sets whether signers can type. *)
Definition WithType (typeEnabled : bool) (s : t) : t :=
  set_Type_ (Some typeEnabled) s.

(** [WithUpload] sets whether signers can upload an image. *)
Definition WithUpload (upload : bool) (s : t) : t :=
  set_Upload (Some upload) s.
End SubSigningOptions.

#[export] Instance SubSigningOptions_Marshaler
  : Marshaler SubSigningOptions.t := {|
  encode := encode_struct SubSigningOptions.fields;
  isEmptyValue _ := false
|}.

(** [SendSignatureRequest]:
    the request sent with a template. *)
Module SendSignatureRequest.
Record t : Type := mk {
  Signers : slice SubSignatureRequestTemplateSigner.t;
  TemplateIDs : slice string;
  AllowDecline : option bool;
  CCs : slice SubCC.t;
  ClientID : option string;
  CustomFields : slice SubCustomField.t;
  Files : slice (slice ascii);
  FileURLs : slice string;
  IsEID : option bool;
  Message : option string;
  Metadata : gmap string string;
  SigningOptions : option SubSigningOptions.t;
  SigningRedirectURL : option string;
  TestMode : option bool;
  Title : option string
}.

Definition set_Signers
    (x : slice SubSignatureRequestTemplateSigner.t) (s : t) : t :=
  mk x (TemplateIDs s) (AllowDecline s) (CCs s) (ClientID s) (CustomFields s)
     (Files s) (FileURLs s) (IsEID s) (Message s) (Metadata s)
     (SigningOptions s) (SigningRedirectURL s) (TestMode s) (Title s).
Definition set_TemplateIDs (x : slice string) (s : t) : t :=
  mk (Signers s) x (AllowDecline s) (CCs s) (ClientID s) (CustomFields s)
     (Files s) (FileURLs s) (IsEID s) (Message s) (Metadata s)
     (SigningOptions s) (SigningRedirectURL s) (TestMode s) (Title s).
Definition set_AllowDecline (x : option bool) (s : t) : t :=
  mk (Signers s) (TemplateIDs s) x (CCs s) (ClientID s) (CustomFields s)
     (Files s) (FileURLs s) (IsEID s) (Message s) (Metadata s)
     (SigningOptions s) (SigningRedirectURL s) (TestMode s) (Title s).
Definition set_CCs (x : slice SubCC.t) (s : t) : t :=
  mk (Signers s) (TemplateIDs s) (AllowDecline s) x (ClientID s)
     (CustomFields s) (Files s) (FileURLs s) (IsEID s) (Message s)
     (Metadata s) (SigningOptions s) (SigningRedirectURL s) (TestMode s)
     (Title s).
Definition set_ClientID (x : option string) (s : t) : t :=
  mk (Signers s) (TemplateIDs s) (AllowDecline s) (CCs s) x (CustomFields s)
     (Files s) (FileURLs s) (IsEID s) (Message s) (Metadata s)
     (SigningOptions s) (SigningRedirectURL s) (TestMode s) (Title s).
Definition set_CustomFields (x : slice SubCustomField.t) (s : t) : t :=
  mk (Signers s) (TemplateIDs s) (AllowDecline s) (CCs s) (ClientID s) x
     (Files s) (FileURLs s) (IsEID s) (Message s) (Metadata s)
     (SigningOptions s) (SigningRedirectURL s) (TestMode s) (Title s).
Definition set_Files (x : slice (slice ascii)) (s : t) : t :=
  mk (Signers s) (TemplateIDs s) (AllowDecline s) (CCs s) (ClientID s)
     (CustomFields s) x (FileURLs s) (IsEID s) (Message s) (Metadata s)
     (SigningOptions s) (SigningRedirectURL s) (TestMode s) (Title s).
Definition set_FileURLs (x : slice string) (s : t) : t :=
  mk (Signers s) (TemplateIDs s) (AllowDecline s) (CCs s) (ClientID s)
     (CustomFields s) (Files s) x (IsEID s) (Message s) (Metadata s)
     (SigningOptions s) (SigningRedirectURL s) (TestMode s) (Title s).
Definition set_IsEID (x : option bool) (s : t) : t :=
  mk (Signers s) (TemplateIDs s) (AllowDecline s) (CCs s) (ClientID s)
     (CustomFields s) (Files s) (FileURLs s) x (Message s) (Metadata s)
     (SigningOptions s) (SigningRedirectURL s) (TestMode s) (Title s).
Definition set_Message (x : option string) (s : t) : t :=
  mk (Signers s) (TemplateIDs s) (AllowDecline s) (CCs s) (ClientID s)
     (CustomFields s) (Files s) (FileURLs s) (IsEID s) x (Metadata s)
     (SigningOptions s) (SigningRedirectURL s) (TestMode s) (Title s).
Definition set_Metadata (x : gmap string string) (s : t) : t :=
  mk (Signers s) (TemplateIDs s) (AllowDecline s) (CCs s) (ClientID s)
     (CustomFields s) (Files s) (FileURLs s) (IsEID s) (Message s) x
     (SigningOptions s) (SigningRedirectURL s) (TestMode s) (Title s).
Definition set_SigningOptions (x : option SubSigningOptions.t) (s : t) : t :=
  mk (Signers s) (TemplateIDs s) (AllowDecline s) (CCs s) (ClientID s)
     (CustomFields s) (Files s) (FileURLs s) (IsEID s) (Message s)
     (Metadata s) x (SigningRedirectURL s) (TestMode s) (Title s).
Definition set_SigningRedirectURL (x : option string) (s : t) : t :=
  mk (Signers s) (TemplateIDs s) (AllowDecline s) (CCs s) (ClientID s)
     (CustomFields s) (Files s) (FileURLs s) (IsEID s) (Message s)
     (Metadata s) (SigningOptions s) x (TestMode s) (Title s).
Definition set_TestMode (x : option bool) (s : t) : t :=
  mk (Signers s) (TemplateIDs s) (AllowDecline s) (CCs s) (ClientID s)
     (CustomFields s) (Files s) (FileURLs s) (IsEID s) (Message s)
     (Metadata s) (SigningOptions s) (SigningRedirectURL s) x (Title s).
Definition set_Title (x : option string) (s : t) : t :=
  mk (Signers s) (TemplateIDs s) (AllowDecline s) (CCs s) (ClientID s)
     (CustomFields s) (Files s) (FileURLs s) (IsEID s) (Message s)
     (Metadata s) (SigningOptions s) (SigningRedirectURL s) (TestMode s) x.

(** The fields as [json.Marshal] writes them: tag, whether the tag says
    [omitempty], and the field. *)
Definition fields : list (efield t) :=
  [
    efield_of "signers" false Signers
      (H := (slice_Marshaler (H := SubSignatureRequestTemplateSigner_Marshaler)));
    efield_of "template_ids" false TemplateIDs
      (H := (slice_Marshaler (H := string_Marshaler)));
    efield_of "allow_decline" true AllowDecline
      (H := (pointer_Marshaler (H := bool_Marshaler)));
    efield_of "ccs" true CCs
      (H := (slice_Marshaler (H := SubCC_Marshaler)));
    efield_of "client_id" true ClientID
      (H := (pointer_Marshaler (H := string_Marshaler)));
    efield_of "custom_fields" true CustomFields
      (H := (slice_Marshaler (H := SubCustomField_Marshaler)));
    efield_of "files" true Files
      (H := (slice_Marshaler (H := bytes_Marshaler)));
    efield_of "file_urls" true FileURLs
      (H := (slice_Marshaler (H := string_Marshaler)));
    efield_of "is_eid" true IsEID
      (H := (pointer_Marshaler (H := bool_Marshaler)));
    efield_of "message" true Message
      (H := (pointer_Marshaler (H := string_Marshaler)));
    efield_of "metadata" true Metadata
      (H := string_map_Marshaler);
    efield_of "signing_options" true SigningOptions
      (H := (pointer_Marshaler (H := SubSigningOptions_Marshaler)));
    efield_of "signing_redirect_url" true SigningRedirectURL
      (H := (pointer_Marshaler (H := string_Marshaler)));
    efield_of "test_mode" true TestMode
      (H := (pointer_Marshaler (H := bool_Marshaler)));
    efield_of "title" true Title
      (H := (pointer_Marshaler (H := string_Marshaler))) ].

(** [NewSendSignatureRequest]: the two required fields; every other field
    is left at its zero value. *)
Definition New (signers : slice SubSignatureRequestTemplateSigner.t)
    (templateIDs : slice string) : t :=
  mk signers templateIDs None None None None None None None None ∅ None None
     None None.

(** The setters.  Each Go method assigns one field of the request it is
    called on and returns that request; here it maps the request before the
    call to the request after it.  A pointer field is given the address of
    the method's own copy of the argument. *)

(** [WithAllowDecline] sets whether signers can decline. *)
Definition WithAllowDecline (allowDecline : bool) (s : t) : t :=
  set_AllowDecline (Some allowDecline) s.

(** [WithCCs] sets the CC recipients. *)
Definition WithCCs (ccs : slice SubCC.t) (s : t) : t :=
  set_CCs ccs s.

(** [WithClientID] sets the client ID. *)
Definition WithClientID (clientID : string) (s : t) : t :=
  set_ClientID (Some clientID) s.

(** [WithCustomFields] sets the custom fields. *)
Definition WithCustomFields
    (customFields : slice SubCustomField.t) (s : t) : t :=
  set_CustomFields customFields s.

(** [WithFiles] sets the files, as bytes. *)
Definition WithFiles (files : slice (slice ascii)) (s : t) : t :=
  set_Files files s.

(** [WithFileURLs] sets the URLs of the files. *)
Definition WithFileURLs (fileURLs : slice string) (s : t) : t :=
  set_FileURLs fileURLs s.

(** [WithIsEID] sets eIDAS compliance. *)
Definition WithIsEID (isEID : bool) (s : t) : t :=
  set_IsEID (Some isEID) s.

(** [WithMessage] sets the message of the email. *)
Definition WithMessage (message : string) (s : t) : t :=
  set_Message (Some message) s.

(** [WithMetadata] sets the metadata. *)
Definition WithMetadata (metadata : gmap string string) (s : t) : t :=
  set_Metadata metadata s.

(** [WithSigningOptions] sets the signing options. *)
Definition WithSigningOptions
    (signingOptions : option SubSigningOptions.t) (s : t) : t :=
  set_SigningOptions signingOptions s.

(** [WithSigningRedirectURL] sets where signers are sent after signing. *)
Definition WithSigningRedirectURL (signingRedirectURL : string) (s : t) : t :=
  set_SigningRedirectURL (Some signingRedirectURL) s.

(** [WithTestMode] sets test mode. *)
Definition WithTestMode (testMode : bool) (s : t) : t :=
  set_TestMode (Some testMode) s.

(** [WithTitle] sets the title. *)
Definition WithTitle (title : string) (s : t) : t :=
  set_Title (Some title) s.
End SendSignatureRequest.

#[export] Instance SendSignatureRequest_Marshaler
  : Marshaler SendSignatureRequest.t := {|
  encode := encode_struct SendSignatureRequest.fields;
  isEmptyValue _ := false
|}.


(** ** The client: the three calls

    The HTTP stack is outside the package.  A call hands it a request and
    gets back an [exchange]: how far the round trip went. *)

Record Request : Type := mkRequest {
  Method : string;
  URL : string;
  BasicAuthUser : string;          (* the password is always empty *)
  ContentType : option string;
  Body : option json.value
}.

Inductive exchange : Type :=
  (** [http.NewRequestWithContext] failed. *)
| request_failed (err : error) : exchange
  (** [httpClient.Do] failed: no connection, time-out, cancellation. *)
| do_failed (err : error) : exchange
  (** A response arrived with this status; reading its body failed. *)
| read_failed (statusCode : Z) (err : error) : exchange
  (** A response arrived with this status and this body. *)
| responded (statusCode : Z) (body : string) : exchange.

Section calls.

(** The HTTP stack the client was configured with. *)
Variable roundTrip : Request -> exchange.

(** What [GetSignatureRequest] and [SendWithTemplate] do with the answer. *)
Definition signature_request_result (c : Client) (x : exchange)
  : option SignatureRequestResponse.t * slice WarningResponse * option error :=
  match x with
  | request_failed err =>
    (None, None,
     Some (TransportError (NewClientError "failed to create request" 0 (Some err))))
  | do_failed err =>
    (None, None,
     Some (TransportError (NewClientError "failed to execute request" 0 (Some err))))
  | read_failed statusCode err =>
    (None, None,
     Some (TransportError
             (NewClientError "failed to read response body" statusCode (Some err))))
  | responded statusCode body =>
    if negb (statusCode =? StatusOK)%Z then
      (None, None, Some (parseErrorResponse c body statusCode))
    else
      let '(sigRequest, warnings, err) :=
        parseResponse (T := SignatureRequestResponse.t) body "signature_request" in
      match err with
      | Some e =>
        (None, None,
         Some (TransportError
                 (NewClientError "failed to parse response" statusCode (Some e))))
      | None => (sigRequest, warnings, None)
      end
  end.

(** [Client.GetSignatureRequest]. *)
Definition GetSignatureRequest (c : Client) (signatureRequestID : string)
  : option SignatureRequestResponse.t * slice WarningResponse * option error :=
  let url := baseURL c ++ "/signature_request/" ++ signatureRequestID in
  signature_request_result c
    (roundTrip
       {| Method := "GET"; URL := url; BasicAuthUser := apiKey c;
          ContentType := None; Body := None |}).

(** [Client.SendWithTemplate]. *)
Definition SendWithTemplate (c : Client) (request : SendSignatureRequest.t)
  : option SignatureRequestResponse.t * slice WarningResponse * option error :=
  let url := baseURL c ++ "/signature_request/send_with_template" in
  let jsonData := Marshal request in
  signature_request_result c
    (roundTrip
       {| Method := "POST"; URL := url; BasicAuthUser := apiKey c;
          ContentType := Some "application/json"; Body := Some jsonData |}).

(** [Client.CancelIncompleteSignatureRequest]: the body is read only when
    the status is not 200. *)
Definition CancelIncompleteSignatureRequest (c : Client)
    (signatureRequestID : string) : option error :=
  let url := baseURL c ++ "/signature_request/cancel/" ++ signatureRequestID in
  match roundTrip
          {| Method := "POST"; URL := url; BasicAuthUser := apiKey c;
             ContentType := None; Body := None |} with
  | request_failed err =>
    Some (TransportError (NewClientError "failed to create request" 0 (Some err)))
  | do_failed err =>
    Some (TransportError (NewClientError "failed to execute request" 0 (Some err)))
  | read_failed statusCode err =>
    if negb (statusCode =? StatusOK)%Z then
      Some (TransportError
              (NewClientError "failed to read error response body" statusCode
                 (Some err)))
    else None
  | responded statusCode body =>
    if negb (statusCode =? StatusOK)%Z then
      Some (parseErrorResponse c body statusCode)
    else None
  end.

End calls.

(** ** [strings.ToLower] and [strings.TrimSpace] *)

Module strings.

(** The lower-case mapping of the Unicode tables outside ASCII.  The tables
    belong to the Go release the package is built with; the embedding takes
    them as they come. *)
Class CaseTable : Type := { lower_table : utf8.rune -> utf8.rune }.

(** [unicode.ToLower]. *)
Definition unicode_ToLower `{CaseTable} (r : utf8.rune) : utf8.rune :=
  if r <=? 127 then
    if utf8.between 65 r 90 then r + 32 else r
  else lower_table r.

(** [unicode.IsSpace]. *)
Definition unicode_IsSpace (r : utf8.rune) : bool :=
  if r <=? 255 then
    utf8.between 9 r 13 || (r =? 32) || (r =? 133) || (r =? 160)
  else
    (r =? 5760) || utf8.between 8192 r 8202 || (r =? 8232) || (r =? 8233)
    || (r =? 8239) || (r =? 8287) || (r =? 12288).

Fixpoint isASCII (s : string) : bool :=
  match s with
  | EmptyString => true
  | String c s' => (utf8.code c <? utf8.RuneSelf) && isASCII s'
  end.

Fixpoint map_bytes (f : N -> N) (s : string) : string :=
  match s with
  | EmptyString => EmptyString
  | String c s' => String (utf8.byte (f (utf8.code c))) (map_bytes f s')
  end.

(** [strings.Map]: the mapping applied to every rune of the string, an
    ill-formed byte counting as U+FFFD, and the results written in UTF-8. *)
Definition Map (mapping : utf8.rune -> utf8.rune) (s : string) : string :=
  utf8.encode (map mapping (map fst (utf8.runes s))).

(** [strings.ToLower]: byte by byte when the string is all ASCII, rune by
    rune otherwise. *)
Definition ToLower `{CaseTable} (s : string) : string :=
  if isASCII s then
    map_bytes (fun b => if utf8.between 65 b 90 then b + 32 else b) s
  else Map unicode_ToLower s.

Fixpoint drop_spaces (l : list (utf8.rune * string))
  : list (utf8.rune * string) :=
  match l with
  | (r, _) :: l' => if unicode_IsSpace r then drop_spaces l' else l
  | [] => []
  end.

(** [strings.TrimSpace]: the string without the white space at its two
    ends.  What is kept is kept byte for byte. *)
Definition TrimSpace (s : string) : string :=
  let kept := rev (drop_spaces (rev (drop_spaces (utf8.runes s)))) in
  fold_right (fun u t => snd u ++ t) EmptyString kept.

End strings.

(** ** [SignerStatus] *)

(** [SignerStatus], a defined string type, and its values. *)
Definition SignerStatus : Type := string.

Definition SignerStatusSuccess : SignerStatus := "success".
Definition SignerStatusOnHold : SignerStatus := "on_hold".
Definition SignerStatusSigned : SignerStatus := "signed".
Definition SignerStatusAwaitingSignature : SignerStatus := "awaiting_signature".
Definition SignerStatusDeclined : SignerStatus := "declined".
Definition SignerStatusErrorUnknown : SignerStatus := "error_unknown".
Definition SignerStatusErrorFile : SignerStatus := "error_file".
Definition SignerStatusErrorComponentPosition : SignerStatus :=
  "error_component_position".
Definition SignerStatusErrorTextTag : SignerStatus := "error_text_tag".
Definition SignerStatusOnHoldByRequester : SignerStatus := "on_hold_by_requester".
Definition SignerStatusErrorInvalidEmail : SignerStatus := "error_invalid_email".
Definition SignerStatusExpired : SignerStatus := "expired".
Definition SignerStatusUnknownEnum : SignerStatus := "unknown_enum".

Section SignerStatus.

Context `{strings.CaseTable}.

(** [ParseSignerStatus]: the [switch], case by case. *)
Definition ParseSignerStatus (s : string) : SignerStatus :=
  let t := strings.TrimSpace (strings.ToLower s) in
  if String.eqb t "success" then SignerStatusSuccess
  else if String.eqb t "on_hold" then SignerStatusOnHold
  else if String.eqb t "signed" then SignerStatusSigned
  else if String.eqb t "awaiting_signature" then SignerStatusAwaitingSignature
  else if String.eqb t "declined" then SignerStatusDeclined
  else if String.eqb t "error_unknown" then SignerStatusErrorUnknown
  else if String.eqb t "error_file" then SignerStatusErrorFile
  else if String.eqb t "error_component_position"
       then SignerStatusErrorComponentPosition
  else if String.eqb t "error_text_tag" then SignerStatusErrorTextTag
  else if String.eqb t "on_hold_by_requester" then SignerStatusOnHoldByRequester
  else if String.eqb t "error_invalid_email" then SignerStatusErrorInvalidEmail
  else if String.eqb t "expired" then SignerStatusExpired
  else SignerStatusUnknownEnum.

(** [SignerStatus.UnmarshalJSON]: the status [s] points to before the call,
    and the status after it with the error returned. *)
Definition SignerStatus_UnmarshalJSON (data : string) (s : SignerStatus)
  : SignerStatus * option error :=
  let '(str, err) := Unmarshal data (EmptyString : string) in
  match err with
  | Some e => (s, Some e)
  | None => (ParseSignerStatus str, None)
  end.

End SignerStatus.

(** ** Notions used in the statements *)

(** [names n key]: the key of a member selects the field tagged [n]. *)
Definition names (n key : string) : bool :=
  String.eqb (foldName n) (foldName key).

(** The values of the members of an object that select the field [n], in
    document order. *)
Definition named (n : string) (ms : list (string * json.value))
  : list json.value :=
  map snd (List.filter (fun kv => names n (fst kv)) ms).

(** Storing a run of values into one variable, one after the other, as the
    decoder does with the members of an object that select the same
    field. *)
Definition store_all {T} `{Unmarshaler T} (vs : list json.value) (cur : T) : T :=
  fold_left (fun x v => fst (decode v x)) vs cur.

(** What a Go [string] accepts. *)
Definition string_ok (v : json.value) : bool :=
  match v with
  | json.Null | json.Str _ => true
  | _ => false
  end.


(** What an [ErrorResponseError] accepts: null, or an object in which every
    member that selects a field holds a string or null. *)
Definition ErrorResponseError_ok (v : json.value) : bool :=
  match v with
  | json.Null => true
  | json.Object fs =>
    forallb string_ok (named "error_msg" fs)
    && forallb string_ok (named "error_path" fs)
    && forallb string_ok (named "error_name" fs)
  | _ => false
  end.

(** What an [ErrorResponse] accepts. *)
Definition ErrorResponse_ok (v : json.value) : bool :=
  match v with
  | json.Null => true
  | json.Object ms => forallb ErrorResponseError_ok (named "error" ms)
  | _ => false
  end.

(** What a [WarningResponse] accepts. *)
Definition WarningResponse_ok (v : json.value) : bool :=
  match v with
  | json.Null => true
  | json.Object fs =>
    forallb string_ok (named "warning_msg" fs)
    && forallb string_ok (named "warning_name" fs)
  | _ => false
  end.

(** What a [[]WarningResponse] accepts: the values [json.Unmarshal] stores
    without an error. *)
Definition warnings_ok (v : json.value) : bool :=
  match v with
  | json.Null => true
  | json.Array js => forallb WarningResponse_ok js
  | _ => false
  end.

(** The member of an object a Go map holds under [key] after decoding: the
    last one with exactly that key. *)
Fixpoint lookup_member (key : string) (ms : list (string * json.value))
  : option json.value :=
  match ms with
  | [] => None
  | (k, v) :: ms' =>
    match lookup_member key ms' with
    | Some x => Some x
    | None => if String.eqb k key then Some v else None
    end
  end.

(** An object has a member with exactly this key. *)
Definition has_key (key : string) (ms : list (string * json.value)) : bool :=
  existsb (fun kv => String.eqb (fst kv) key) ms.

(** A well-formed error envelope, and what it says: an object with one
    member for [error], itself an object with one string for [error_msg],
    one string for [error_name] and at most one string for [error_path].
    Other members are free. *)
Definition error_envelope (v : json.value)
  : option (string * string * option string) :=
  match v with
  | json.Object ms =>
    match named "error" ms with
    | [json.Object fs] =>
      match named "error_msg" fs, named "error_name" fs, named "error_path" fs with
      | [json.Str m], [json.Str n], [] => Some (m, n, None)
      | [json.Str m], [json.Str n], [json.Str p] => Some (m, n, Some p)
      | _, _, _ => None
      end
    | _ => None
    end
  | _ => None
  end.

(** A well-formed warning object, and the warning it says. *)
Definition warning_object (v : json.value) : option WarningResponse :=
  match v with
  | json.Object fs =>
    match named "warning_msg" fs, named "warning_name" fs with
    | [json.Str m], [json.Str n] => Some (mkWarningResponse m n)
    | _, _ => None
    end
  | _ => None
  end.

Definition is_TransportError (e : option error) : bool :=
  match e with
  | Some (TransportError _) => true
  | _ => false
  end.

Definition is_APIError (e : option error) : bool :=
  match e with
  | Some (APIError _) => true
  | _ => false
  end.

(** A 2xx status. *)
Definition is_success (statusCode : Z) : bool :=
  ((200 <=? statusCode) && (statusCode <=? 299))%Z.

(** JSON text is written below with apostrophes where the document has
    double quotes. *)
Fixpoint quoted (s : string) : string :=
  match s with
  | EmptyString => EmptyString
  | String c s' =>
    String (if utf8.code c =? 39 then utf8.byte 34 else c) (quoted s')
  end.

(** No member of the document selects the field [n]: the document is not an
    object, or none of its keys equals [n] up to case. *)
Definition no_member_named (n : string) (body : string) : bool :=
  match json.parse body with
  | Some (json.Object ms) =>
    match named n ms with
    | [] => true
    | _ => false
    end
  | _ => true
  end.

(** No member of the document has exactly the key [key]. *)
Definition no_member_with_key (key : string) (body : string) : bool :=
  match json.parse body with
  | Some (json.Object ms) => negb (has_key key ms)
  | _ => true
  end.

(** ** Sample documents *)

Definition not_found_body : string :=
  quoted "{'error':{'error_msg':'Signature request not found','error_name':'not_found'}}".

(** An error envelope that also carries numbers that look like statuses. *)
Definition bad_request_body : string :=
  quoted "{'error':{'error_msg':'Invalid email','error_name':'bad_request','error_path':'signers[0].email_address','status':200},'status_code':200}".

(** An error body whose only key is [Error], with a capital. *)
Definition capital_error_body : string :=
  quoted "{'Error':{'error_msg':'Invalid template ID','error_name':'bad_request'}}".

Definition html_body : string := "<html>Bad Gateway</html>".

(** An array every element of which a [WarningResponse] accepts. *)
Definition warning_array (v : json.value) : bool :=
  match v with
  | json.Array js => forallb WarningResponse_ok js
  | _ => false
  end.

Definition missing_key_body : string := quoted "{'other_key': {}}".

(** A success body with one warning. *)
Definition send_body : string :=
  quoted "{'signature_request':{'signature_request_id':'abc','title':'T','original_title':'T','is_complete':false,'is_declined':false,'has_error':false,'files_url':'https://example.com','details_url':'https://example.com','cc_email_addresses':[],'metadata':{},'created_at':1234567890,'signatures':[]},'warnings':[{'warning_msg':'m','warning_name':'n'}]}".

(** The same body with a [warnings] member that is no array. *)
Definition bad_warnings_body : string :=
  quoted "{'signature_request':{'signature_request_id':'abc','title':'T'},'warnings':{'warning_msg':'m','warning_name':'n'}}".

(** The same body with a warning whose message is a number. *)
Definition bad_warning_body : string :=
  quoted "{'signature_request':{'signature_request_id':'abc','title':'T'},'warnings':[{'warning_msg':'m','warning_name':'n'},{'warning_msg':7}]}".

(** The same body with warnings that are no warning objects, though the
    decoder takes each of them. *)
Definition lax_warnings_body : string :=
  quoted "{'signature_request':{'signature_request_id':'abc','title':'T'},'warnings':[null,{},{'foo':1},{'warning_msg':null}]}".

(** A body without [warnings]. *)
Definition plain_body : string :=
  quoted "{'signature_request':{'signature_request_id':'abc','title':'T'}}".

(** What [send_body] says under its key. *)
Definition sent_request : SignatureRequestResponse.t :=
  SignatureRequestResponse.set_SignatureRequestID "abc"
    (SignatureRequestResponse.set_Title "T"
       (SignatureRequestResponse.set_OriginalTitle "T"
          (SignatureRequestResponse.set_FilesURL "https://example.com"
             (SignatureRequestResponse.set_DetailsURL "https://example.com"
                (SignatureRequestResponse.set_CCEmailAddresses
                   (mkBuffer (Some []) [])
                   (SignatureRequestResponse.set_CreatedAt 1234567890%Z
                      (SignatureRequestResponse.set_Signatures
                         (mkBuffer (Some []) [])
                         zero))))))).

(** Payloads in which a key of a slice comes more than once. *)
Definition twice_payload : json.value :=
  json.Object
    [("cc_email_addresses", json.Array [json.Str "a"; json.Str "b"]);
     ("cc_email_addresses", json.Array [json.Str "c"; json.Null])].

Definition thrice_payload : json.value :=
  json.Object
    [("cc_email_addresses", json.Array [json.Str "a"; json.Str "b"]);
     ("cc_email_addresses", json.Array [json.Str "c"]);
     ("cc_email_addresses", json.Array [json.Str "d"; json.Null])].

Definition abc_request : SignatureRequestResponse.t :=
  SignatureRequestResponse.set_Title "T"
    (SignatureRequestResponse.set_SignatureRequestID "abc" zero).

(** The fields of a [SendSignatureRequest], by name, with their types. *)
Inductive request_field : Type :=
| FSigners | FTemplateIDs | FAllowDecline | FCCs | FClientID | FCustomFields
| FFiles | FFileURLs | FIsEID | FMessage | FMetadata | FSigningOptions
| FSigningRedirectURL | FTestMode | FTitle.

Definition request_field_type (f : request_field) : Type :=
  match f with
  | FSigners => slice SubSignatureRequestTemplateSigner.t
  | FTemplateIDs => slice string
  | FAllowDecline => option bool
  | FCCs => slice SubCC.t
  | FClientID => option string
  | FCustomFields => slice SubCustomField.t
  | FFiles => slice (slice ascii)
  | FFileURLs => slice string
  | FIsEID => option bool
  | FMessage => option string
  | FMetadata => gmap string string
  | FSigningOptions => option SubSigningOptions.t
  | FSigningRedirectURL => option string
  | FTestMode => option bool
  | FTitle => option string
  end.

(** The value of a field of a request. *)
Definition request_get (f : request_field) (s : SendSignatureRequest.t)
  : request_field_type f :=
  match f with
  | FSigners => SendSignatureRequest.Signers s
  | FTemplateIDs => SendSignatureRequest.TemplateIDs s
  | FAllowDecline => SendSignatureRequest.AllowDecline s
  | FCCs => SendSignatureRequest.CCs s
  | FClientID => SendSignatureRequest.ClientID s
  | FCustomFields => SendSignatureRequest.CustomFields s
  | FFiles => SendSignatureRequest.Files s
  | FFileURLs => SendSignatureRequest.FileURLs s
  | FIsEID => SendSignatureRequest.IsEID s
  | FMessage => SendSignatureRequest.Message s
  | FMetadata => SendSignatureRequest.Metadata s
  | FSigningOptions => SendSignatureRequest.SigningOptions s
  | FSigningRedirectURL => SendSignatureRequest.SigningRedirectURL s
  | FTestMode => SendSignatureRequest.TestMode s
  | FTitle => SendSignatureRequest.Title s
  end.

(** [s'] differs from [s] in the field [f] at most. *)
Definition only_changes (f : request_field) (s s' : SendSignatureRequest.t)
  : Prop :=
  forall g, g <> f -> request_get g s' = request_get g s.

(** The key of an optional field, when the field is set. *)
Definition when_set (unset : bool) (key : string) : list string :=
  if unset then [] else [key].

(** The keys of the members of an object, in order. *)
Definition keys (v : json.value) : list string :=
  match v with
  | json.Object ms => map fst ms
  | _ => []
  end.

(** What the statements about [ParseSignerStatus] ask of the Unicode
    tables: lowering a scalar value outside ASCII gives a scalar value, and
    one that lowering leaves alone. *)
Definition lower_table_sound `{strings.CaseTable} : Prop :=
  forall r : utf8.rune,
    127 < r -> utf8.ValidRune r = true ->
    utf8.ValidRune (strings.lower_table r) = true /\
    strings.unicode_ToLower (strings.lower_table r) = strings.lower_table r.

(** A part of the Unicode tables: the capital letters of Latin-1, the
    dotted capital I (U+0130) and the Kelvin sign (U+212A). *)
Definition latin1_lower (r : utf8.rune) : utf8.rune :=
  if utf8.between 192 r 222 && negb (r =? 215) then r + 32
  else if r =? 304 then 105
  else if r =? 8490 then 107
  else r.

Definition latin1_table : strings.CaseTable :=
  {| strings.lower_table := latin1_lower |}.

(** Unicode scalar values only. *)
Definition valid_runes (rs : list utf8.rune) : Prop :=
  Forall (fun r => utf8.ValidRune r = true) rs.

(** White space dropped from the front of a list of runes, and from both
    ends. *)
Fixpoint drop_space_runes (l : list utf8.rune) : list utf8.rune :=
  match l with
  | r :: l' => if strings.unicode_IsSpace r then drop_space_runes l' else l
  | [] => []
  end.

Definition trim_runes (l : list utf8.rune) : list utf8.rune :=
  rev (drop_space_runes (rev (drop_space_runes l))).

(** A text ready for the [switch] of [ParseSignerStatus]: written rune by
    rune from scalar values that lowering leaves alone, with no white space
    at either end. *)
Definition normal `{strings.CaseTable} (rs : list utf8.rune) : Prop :=
  valid_runes rs /\
  Forall (fun r => strings.unicode_ToLower r = r) rs /\
  trim_runes rs = rs.

(** The cases of the [switch] in [ParseSignerStatus]: the text and the
    status returned for it. *)
Definition status_table : list (string * SignerStatus) :=
  [ ("success", SignerStatusSuccess);
    ("on_hold", SignerStatusOnHold);
    ("signed", SignerStatusSigned);
    ("awaiting_signature", SignerStatusAwaitingSignature);
    ("declined", SignerStatusDeclined);
    ("error_unknown", SignerStatusErrorUnknown);
    ("error_file", SignerStatusErrorFile);
    ("error_component_position", SignerStatusErrorComponentPosition);
    ("error_text_tag", SignerStatusErrorTextTag);
    ("on_hold_by_requester", SignerStatusOnHoldByRequester);
    ("error_invalid_email", SignerStatusErrorInvalidEmail);
    ("expired", SignerStatusExpired) ].

Fixpoint status_for (t : string) (table : list (string * SignerStatus))
  : option SignerStatus :=
  match table with
  | [] => None
  | (k, st) :: table' => if String.eqb t k then Some st else status_for t table'
  end.

(** A status text in capitals, with white space around it, a no-break space
    (U+00A0) included, and a Kelvin sign for its [k]. *)
Definition shouting_status : string :=
  " ERROR_UN" ++ utf8.EncodeRune 8490 ++ "NOWN" ++ utf8.EncodeRune 160.

(** ** Further notions *)

(** An error of one of the two kinds the package declares. *)
Definition is_typed_error (e : option error) : bool :=
  is_APIError e || is_TransportError e.

(** The status a response arrived with, if one arrived. *)
Definition exchange_status (x : exchange) : option Z :=
  match x with
  | responded statusCode _ => Some statusCode
  | read_failed statusCode _ => Some statusCode
  | request_failed _ | do_failed _ => None
  end.

(** The requests the three calls hand to the HTTP stack. *)
Definition get_request (c : Client) (signatureRequestID : string) : Request :=
  {| Method := "GET";
     URL := baseURL c ++ "/signature_request/" ++ signatureRequestID;
     BasicAuthUser := apiKey c; ContentType := None; Body := None |}.

Definition send_request (c : Client) (request : SendSignatureRequest.t)
  : Request :=
  {| Method := "POST";
     URL := baseURL c ++ "/signature_request/send_with_template";
     BasicAuthUser := apiKey c; ContentType := Some "application/json";
     Body := Some (Marshal request) |}.

Definition cancel_request (c : Client) (signatureRequestID : string) : Request :=
  {| Method := "POST";
     URL := baseURL c ++ "/signature_request/cancel/" ++ signatureRequestID;
     BasicAuthUser := apiKey c; ContentType := None; Body := None |}.

(** The members of an object. *)
Definition members (v : json.value) : list (string * json.value) :=
  match v with
  | json.Object ms => ms
  | _ => []
  end.

(** A body whose payload is a number. *)
Definition number_payload_body : string :=
  quoted "{'signature_request': 7, 'warnings': [{'warning_msg':'m','warning_name':'n'}]}".

(** A body whose payload is null. *)
Definition null_payload_body : string :=
  quoted "{'signature_request': null}".

(** [plain_body] with members the client knows nothing of. *)
Definition noisy_body : string :=
  quoted "{'api_version': 3, 'signature_request':{'signature_request_id':'abc','title':'T'}, 'account': {'quota': 1}}".

(** The status an error of the package carries: [Status] of an
    [ErrorResponseError], [StatusCode] of a [ClientError]. *)
Definition status_of (e : option error) : option Z :=
  match e with
  | Some (APIError apiErr) => Some (Status apiErr)
  | Some (TransportError clientErr) => Some (StatusCode clientErr)
  | _ => None
  end.

(** A result is either a payload without error, or an error of the package
    with neither payload nor warnings. *)
Definition payload_or_typed_error {A B : Type}
    (r : option A * slice B * option error) : bool :=
  match r with
  | (Some _, _, None) => true
  | (None, None, Some e) => is_typed_error (Some e)
  | _ => false
  end.

Definition nil_or_typed_error (e : option error) : bool :=
  match e with
  | None => true
  | Some _ => is_typed_error e
  end.

(** What a call may return after this exchange: no error only if the
    response had status 200, and an error only with the status of the
    response, or 0 if none arrived. *)
Definition status_kept (x : exchange) (e : option error) : Prop :=
  match e with
  | None => exchange_status x = Some StatusOK
  | Some _ => status_of e = Some (default 0%Z (exchange_status x))
  end.

(** A transport that answers every request with one response. *)
Definition always (statusCode : Z) (body : string) : Request -> exchange :=
  fun _ => responded statusCode body.

(** What a struct is written with under [key]: the value of the field with
    that tag, unless the field is empty and tagged [omitempty]. *)
Definition written {S} (fs : list (efield S)) (key : string) (s : S)
  : option json.value :=
  match List.find (fun f => String.eqb (tag f) key) fs with
  | Some f => if omitempty f && empty_in f s then None else Some (value_of f s)
  | None => None
  end.

(** The member under [key] of the document written for [v]. *)
Definition member_of {T} `{Marshaler T} (key : string) (v : T)
  : option json.value :=
  lookup_member key (members (Marshal v)).

(** The thirteen optional keys of a request, in the order of the struct. *)
Definition optional_keys : list string :=
  [ "allow_decline"; "ccs"; "client_id"; "custom_fields"; "files";
    "file_urls"; "is_eid"; "message"; "metadata"; "signing_options";
    "signing_redirect_url"; "test_mode"; "title" ].

(** Assigning a field of a request. *)
Definition request_set (f : request_field)
  : request_field_type f -> SendSignatureRequest.t -> SendSignatureRequest.t :=
  match f with
  | FSigners => SendSignatureRequest.set_Signers
  | FTemplateIDs => SendSignatureRequest.set_TemplateIDs
  | FAllowDecline => SendSignatureRequest.set_AllowDecline
  | FCCs => SendSignatureRequest.set_CCs
  | FClientID => SendSignatureRequest.set_ClientID
  | FCustomFields => SendSignatureRequest.set_CustomFields
  | FFiles => SendSignatureRequest.set_Files
  | FFileURLs => SendSignatureRequest.set_FileURLs
  | FIsEID => SendSignatureRequest.set_IsEID
  | FMessage => SendSignatureRequest.set_Message
  | FMetadata => SendSignatureRequest.set_Metadata
  | FSigningOptions => SendSignatureRequest.set_SigningOptions
  | FSigningRedirectURL => SendSignatureRequest.set_SigningRedirectURL
  | FTestMode => SendSignatureRequest.set_TestMode
  | FTitle => SendSignatureRequest.set_Title
  end.

(** The request of the package documentation: one signer, one template. *)
Definition doc_request : SendSignatureRequest.t :=
  SendSignatureRequest.New
    (Some [SubSignatureRequestTemplateSigner.New
             "Signer" "John Doe" "john@example.com"])
    (Some ["template-id"]).

(** The thirteen values of [SignerStatus]. *)
Definition all_statuses : list SignerStatus :=
  [ SignerStatusSuccess; SignerStatusOnHold; SignerStatusSigned;
    SignerStatusAwaitingSignature; SignerStatusDeclined;
    SignerStatusErrorUnknown; SignerStatusErrorFile;
    SignerStatusErrorComponentPosition; SignerStatusErrorTextTag;
    SignerStatusOnHoldByRequester; SignerStatusErrorInvalidEmail;
    SignerStatusExpired; SignerStatusUnknownEnum ].

(** A run of ASCII white space: tabs, line feeds, vertical tabs, form
    feeds, carriage returns and blanks. *)
Fixpoint ascii_blank (s : string) : bool :=
  match s with
  | EmptyString => true
  | String c s' =>
    (utf8.between 9 (utf8.code c) 13 || (utf8.code c =? 32)) && ascii_blank s'
  end.

(** An ASCII text with its capitals made small. *)
Definition ascii_lower (s : string) : string :=
  strings.map_bytes (fun b => if utf8.between 65 b 90 then b + 32 else b) s.

(** A status of the service as another system might write it. *)
Definition padded_status : string :=
  String (utf8.byte 9) " Awaiting_Signature" ++ String (utf8.byte 10) "".

(** A key that selects no field of [SignatureRequestResponse], whatever the
    case of its letters. *)
Definition unknown_key (key : string) : bool :=
  forallb (fun f => negb (names (name f) key)) SignatureRequestResponse.fields.

(** The warnings [parseResponse] returns for a body with these members. *)
Definition warnings_of (ms : list (string * json.value))
  : slice WarningResponse :=
  match lookup_member "warnings" ms with
  | Some w =>
    match decode w (None : slice WarningResponse) with
    | (_, Some _) => None
    | (warnings, None) => warnings
    end
  | None => None
  end.


(** * Properties *)

(** ** Keys and fields *)

Lemma saveError_None_r (e : option error) : saveError e None = e.
Proof. by destruct e. Qed.

Lemma saveError_None_iff (a b : option error) :
  saveError a b = None <-> a = None /\ b = None.
Proof. destruct a, b; simpl; intuition congruence. Qed.

Lemma names_exact (n : string) : names n n = true.
Proof. unfold names. apply String.eqb_refl. Qed.

Lemma named_nil n : named n [] = [].
Proof. reflexivity. Qed.

Lemma named_cons n k v ms :
  named n ((k, v) :: ms) = if names n k then v :: named n ms else named n ms.
Proof. unfold named. simpl. by destruct (names n k). Qed.

(** Where the folded names of the fields differ from one another, a key
    finds the first field it names. *)
Lemma find_field_names {S} (fs : list (field S)) (key : string) :
  NoDup (map (fun f => foldName (name f)) fs) ->
  find_field key fs = find (fun f => names (name f) key) fs.
Proof.
  intros Hnd. unfold find_field.
  destruct (find (fun f => String.eqb (name f) key) fs) as [f|] eqn:Hex;
    [|reflexivity].
  apply find_some in Hex as [Hin Heq]. apply String.eqb_eq in Heq.
  induction fs as [|g fs IH]; [by destruct Hin|].
  simpl in *. apply NoDup_cons in Hnd as [Hg Hnd].
  destruct (names (name g) key) eqn:Hn.
  - destruct Hin as [->|Hin]; [reflexivity|].
    exfalso. apply Hg. apply String.eqb_eq in Hn. rewrite Hn, <- Heq.
    apply list_elem_of_In, in_map_iff. by exists f.
  - destruct Hin as [->|Hin]; [|by apply IH].
    rewrite Heq in Hn. by rewrite names_exact in Hn.
Qed.

(** ** The scanner: fuel *)

Lemma skip_space_length s :
  (String.length (json.skip_space s) <= String.length s)%nat.
Proof.
  induction s as [|c s IH]; simpl; [lia|]. destruct (json.isSpace c); simpl; lia.
Qed.

Lemma drop_length n s : String.length (utf8.drop n s) = (String.length s - n)%nat.
Proof. revert s. induction n; intros [|c s]; simpl; auto. Qed.

Lemma DecodeRune_size c s :
  (1 <= snd (utf8.DecodeRune (String c s)))%nat.
Proof.
  unfold utf8.DecodeRune.
  repeat (case_match; cbn [snd]; try lia).
Qed.

Lemma getu4_length s r rest :
  json.getu4 s = Some (r, rest) -> String.length s = (6 + String.length rest)%nat.
Proof.
  unfold json.getu4. intros Hg. repeat case_match; try discriminate.
  inversion Hg; subst. reflexivity.
Qed.

Lemma scan_unit_length s out s1 :
  json.scan_unit s = Some (out, s1) ->
  (String.length s1 < String.length s)%nat.
Proof.
  unfold json.scan_unit. intros Hs.
  destruct s as [|c s']; [discriminate|].
  repeat case_match; try discriminate; inversion Hs; subst; clear Hs;
    cbn [String.length];
    repeat match goal with
    | Hg : json.getu4 _ = Some _ |- _ => apply getu4_length in Hg
    end; cbn [String.length] in *; try lia.
  rewrite drop_length.
  match goal with
  | Hd : utf8.DecodeRune (String ?c ?s) = (_, ?sz) |- _ =>
    pose proof (DecodeRune_size c s) as Hsz; rewrite Hd in Hsz
  end.
  cbn [snd String.length] in *. lia.
Qed.

(** Reading a string literal succeeds with the same result on any fuel that
    is at least the number of bytes it consumes. *)
Lemma scan_string_spec n : forall s t rest,
  json.scan_string n s = Some (t, rest) ->
  (String.length rest < String.length s)%nat /\
  forall m, (String.length s - String.length rest <= m)%nat ->
            json.scan_string m s = Some (t, rest).
Proof.
  induction n as [|n IH]; intros s t rest Hs; [discriminate|].
  cbn [json.scan_string] in Hs.
  destruct s as [|c s']; [discriminate|].
  destruct (utf8.code c =? 34) eqn:Hq.
  - inversion Hs; subst. split; [simpl; lia|].
    intros [|m] Hm; [simpl in Hm; lia|]. cbn [json.scan_string]. by rewrite Hq.
  - destruct (json.scan_unit (String c s')) as [[out s1]|] eqn:Hu; [|discriminate].
    destruct (json.scan_string n s1) as [[t' rest']|] eqn:Hr; [|discriminate].
    inversion Hs; subst. apply IH in Hr as [Hlen Hfuel].
    apply scan_unit_length in Hu as Hlt. split; [lia|].
    intros [|m] Hm; [lia|]. cbn [json.scan_string]. rewrite Hq, Hu.
    rewrite Hfuel; [reflexivity|]. cbn [String.length] in *. lia.
Qed.

Lemma span_digits_length s d r :
  json.span_digits s = (d, r) -> (String.length r <= String.length s)%nat.
Proof.
  revert d r. induction s as [|c s IH]; intros d r Hs; simpl in Hs.
  - inversion Hs; subst. simpl. lia.
  - destruct (json.is_digit c).
    + destruct (json.span_digits s) as [d' r'] eqn:Hd. inversion Hs; subst.
      specialize (IH _ _ eq_refl). simpl. lia.
    + inversion Hs; subst. simpl. lia.
Qed.

Lemma scan_int_length s i r :
  json.scan_int s = Some (i, r) -> (String.length r < String.length s)%nat.
Proof.
  unfold json.scan_int. intros Hs. destruct s as [|c s]; [discriminate|].
  repeat case_match; try discriminate; inversion Hs; subst; simpl; try lia.
  match goal with Hd : json.span_digits _ = _ |- _ =>
    apply span_digits_length in Hd end. lia.
Qed.

Lemma scan_frac_length s f r :
  json.scan_frac s = Some (f, r) -> (String.length r <= String.length s)%nat.
Proof.
  unfold json.scan_frac. intros Hs.
  repeat case_match; try discriminate; inversion Hs; subst; simpl; try lia;
  match goal with Hd : json.span_digits _ = _ |- _ =>
    apply span_digits_length in Hd end; simpl in *; lia.
Qed.

Lemma scan_exp_length s e r :
  json.scan_exp s = Some (e, r) -> (String.length r <= String.length s)%nat.
Proof.
  unfold json.scan_exp. intros Hs.
  repeat case_match; try discriminate; simplify_eq; simpl; try lia;
  match goal with Hd : json.span_digits _ = _ |- _ =>
    apply span_digits_length in Hd end; simpl in *; lia.
Qed.

Lemma scan_number_length s lit r :
  json.scan_number s = Some (lit, r) -> (String.length r < String.length s)%nat.
Proof.
  unfold json.scan_number. intros Hs.
  repeat case_match; try discriminate; simplify_eq;
  repeat match goal with
  | H : json.scan_int _ = Some _ |- _ => apply scan_int_length in H
  | H : json.scan_frac _ = Some _ |- _ => apply scan_frac_length in H
  | H : json.scan_exp _ = Some _ |- _ => apply scan_exp_length in H
  end; simpl in *; lia.
Qed.

Lemma prefix_rest_length p : forall s rest,
  json.prefix_rest p s = Some rest ->
  String.length s = (String.length p + String.length rest)%nat.
Proof.
  induction p as [|a p IH]; intros s rest Hp; simpl in Hp.
  - by inversion Hp.
  - destruct s as [|b s]; [discriminate|].
    destruct (Ascii.eqb a b); [|discriminate]. apply IH in Hp. simpl. lia.
Qed.

Lemma expect_length b s rest :
  json.expect b s = Some rest -> String.length s = S (String.length rest).
Proof.
  unfold json.expect. destruct s as [|c s]; [discriminate|].
  destruct (utf8.code c =? b); [|discriminate]. by intros [= ->].
Qed.

Ltac lengths :=
  repeat match goal with
  | H : json.expect _ (json.skip_space ?s) = Some _ |- _ =>
    apply expect_length in H; pose proof (skip_space_length s)
  | H : json.scan_string _ _ = Some _ |- _ =>
    apply scan_string_spec in H as [H _]
  | H : json.scan_number _ = Some _ |- _ => apply scan_number_length in H
  | H : json.prefix_rest _ _ = Some _ |- _ => apply prefix_rest_length in H
  end; cbn [String.length] in *.

Ltac use_IH IHv IHm IHe :=
  repeat match goal with
  | H : json.scan_value _ _ _ = Some _ |- _ => apply IHv in H as [? ?]
  | H : json.scan_members _ _ _ = Some _ |- _ => apply IHm in H as [? ?]
  | H : json.scan_elements _ _ _ = Some _ |- _ => apply IHe in H as [? ?]
  end.

Ltac replay :=
  repeat match goal with
  | H : ?x = _ |- context [?x] => rewrite H
  | H : forall m, _ -> ?f m ?d ?s = _ |- context [?f _ ?d ?s] =>
    rewrite H by (lengths; lia)
  end.

(** A scan that succeeds with some fuel consumes at least one byte, and
    succeeds with the same result on any fuel that is at least twice the
    number of bytes it consumes. *)
Lemma scan_spec n :
  (forall d s v rest,
     json.scan_value n d s = Some (v, rest) ->
     (String.length rest < String.length s)%nat /\
     forall m, (2 * (String.length s - String.length rest) <= m)%nat ->
               json.scan_value m d s = Some (v, rest)) /\
  (forall d s ms rest,
     json.scan_members n d s = Some (ms, rest) ->
     (String.length rest < String.length s)%nat /\
     forall m, (2 * (String.length s - String.length rest) <= m)%nat ->
               json.scan_members m d s = Some (ms, rest)) /\
  (forall d s vs rest,
     json.scan_elements n d s = Some (vs, rest) ->
     (String.length rest < String.length s)%nat /\
     forall m, (2 * (String.length s - String.length rest) <= m)%nat ->
               json.scan_elements m d s = Some (vs, rest)).
Proof.
  induction n as [|n (IHv & IHm & IHe)]; [by repeat split|].
  split; [|split].
  - intros d s v rest Hs. cbn [json.scan_value] in Hs.
    pose proof (skip_space_length s) as Hsk.
    destruct (json.skip_space s) as [|c s'] eqn:Hs0; [discriminate|].
    cbn [String.length] in Hsk.
    repeat case_match; try discriminate; simplify_eq.
    all: use_IH IHv IHm IHe.
    all: (split; [lengths; lia|]).
    all: intros [|m] Hm; [exfalso; lengths; lia|];
         cbn [json.scan_value]; rewrite Hs0.
    all: replay.
    all: try reflexivity.
  - intros d s ms rest Hs. cbn [json.scan_members] in Hs.
    repeat case_match; try discriminate; simplify_eq.
    all: use_IH IHv IHm IHe.
    all: (split; [lengths; lia|]).
    all: intros [|m] Hm; [exfalso; lengths; lia|];
         cbn [json.scan_members].
    all: replay.
    all: try reflexivity.
  - intros d s vs rest Hs. cbn [json.scan_elements] in Hs.
    repeat case_match; try discriminate; simplify_eq.
    all: use_IH IHv IHm IHe.
    all: (split; [lengths; lia|]).
    all: intros [|m] Hm; [exfalso; lengths; lia|];
         cbn [json.scan_elements].
    all: replay.
    all: try reflexivity.
Qed.

(** [parse] never fails for want of fuel: it finds the value of a document
    whenever the scanner finds it with some fuel. *)
Lemma parse_complete (data : string) (v : json.value) :
  json.parse data = Some v <->
  exists n rest,
    json.scan_value n 0 data = Some (v, rest) /\
    json.skip_space rest = EmptyString.
Proof.
  unfold json.parse. split.
  - destruct (json.scan_value _ 0 data) as [[v' rest]|] eqn:Hs; [|discriminate].
    destruct (json.skip_space rest) eqn:Hr; [|discriminate].
    intros [= ->]. eauto.
  - intros (n & rest & Hs & Hr).
    destruct (scan_spec n) as (Hv & _ & _).
    destruct (Hv _ _ _ _ Hs) as [_ Hfuel].
    rewrite Hfuel by lia. by rewrite Hr.
Qed.

(** A key selects at most one of two fields whose folded names differ. *)
Lemma names_disjoint (a b key : string) :
  foldName a <> foldName b -> names a key = true -> names b key = true -> False.
Proof.
  unfold names. intros Hne Ha Hb.
  apply String.eqb_eq in Ha, Hb. congruence.
Qed.

Ltac names_clash :=
  match goal with
  | Ha : names ?a ?k = true, Hb : names ?b ?k = true |- _ =>
    exfalso; apply (names_disjoint a b k); [by vm_compute | exact Ha | exact Hb]
  end.

Ltac nodup_names := apply (bool_decide_unpack _); by vm_compute.

(** ** The three structs read from responses *)

Lemma WarningResponse_fields_NoDup :
  NoDup (map (fun f => foldName (name f)) WarningResponse_fields).
Proof. nodup_names. Qed.

Lemma ErrorResponseError_fields_NoDup :
  NoDup (map (fun f => foldName (name f)) ErrorResponseError_fields).
Proof. nodup_names. Qed.

Lemma ErrorResponse_fields_NoDup :
  NoDup (map (fun f => foldName (name f)) ErrorResponse_fields).
Proof. nodup_names. Qed.

Lemma decode_string_ok (v : json.value) (cur : string) :
  snd (decode v cur) = None <-> string_ok v = true.
Proof. destruct v; simpl; intuition congruence. Qed.

Lemma decode_pointer_string_ok (v : json.value) (cur : option string) :
  snd (decode v cur) = None <-> string_ok v = true.
Proof. destruct v; simpl; intuition congruence. Qed.

Ltac step := cbn -[decode decode_members named].

(** Decoding the members of a [WarningResponse]: each field receives, in
    order, the values of the members that select it. *)
Lemma decode_members_WarningResponse ms : forall cur saved,
  fst (decode_members WarningResponse_fields ms cur saved) =
  mkWarningResponse (store_all (named "warning_msg" ms) (WarningMsg cur))
                    (store_all (named "warning_name" ms) (WarningName cur)).
Proof.
  induction ms as [|[k v] ms IH]; intros cur saved; [by destruct cur|].
  simpl decode_members.
  rewrite (find_field_names _ _ WarningResponse_fields_NoDup), !named_cons.
  simpl List.find.
  destruct (names "warning_msg" k) eqn:H1, (names "warning_name" k) eqn:H2;
    try names_clash; step;
    try (destruct (decode v _) as [x e] eqn:Hd); rewrite IH; step;
    reflexivity.
Qed.

Lemma decode_members_WarningResponse_ok ms : forall cur saved,
  snd (decode_members WarningResponse_fields ms cur saved) = None <->
  saved = None /\
  forallb string_ok (named "warning_msg" ms) = true /\
  forallb string_ok (named "warning_name" ms) = true.
Proof.
  induction ms as [|[k v] ms IH]; intros cur saved; [simpl; tauto|].
  simpl decode_members.
  rewrite (find_field_names _ _ WarningResponse_fields_NoDup), !named_cons.
  simpl List.find.
  destruct (names "warning_msg" k) eqn:H1, (names "warning_name" k) eqn:H2;
    try names_clash; step;
    try (destruct (decode v _) as [x e] eqn:Hd;
         apply (f_equal snd) in Hd; cbn [snd] in Hd; subst e;
         rewrite IH, saveError_None_iff, decode_string_ok, andb_true_iff);
    rewrite ?IH; tauto.
Qed.

(** The same for an [ErrorResponseError]; [Status] is no field of the
    document and keeps its value. *)
Lemma decode_members_ErrorResponseError ms : forall cur saved,
  fst (decode_members ErrorResponseError_fields ms cur saved) =
  mkErrorResponseError (Status cur)
    (store_all (named "error_msg" ms) (ErrorMsg cur))
    (store_all (named "error_path" ms) (ErrorPath cur))
    (store_all (named "error_name" ms) (ErrorName cur)).
Proof.
  induction ms as [|[k v] ms IH]; intros cur saved; [by destruct cur|].
  simpl decode_members.
  rewrite (find_field_names _ _ ErrorResponseError_fields_NoDup), !named_cons.
  simpl List.find.
  destruct (names "error_msg" k) eqn:H1, (names "error_path" k) eqn:H2,
           (names "error_name" k) eqn:H3;
    try names_clash; step;
    try (destruct (decode v _) as [x e] eqn:Hd); rewrite IH; step;
    reflexivity.
Qed.

Lemma decode_members_ErrorResponseError_ok ms : forall cur saved,
  snd (decode_members ErrorResponseError_fields ms cur saved) = None <->
  saved = None /\
  forallb string_ok (named "error_msg" ms) = true /\
  forallb string_ok (named "error_path" ms) = true /\
  forallb string_ok (named "error_name" ms) = true.
Proof.
  induction ms as [|[k v] ms IH]; intros cur saved; [simpl; tauto|].
  simpl decode_members.
  rewrite (find_field_names _ _ ErrorResponseError_fields_NoDup), !named_cons.
  simpl List.find.
  destruct (names "error_msg" k) eqn:H1, (names "error_path" k) eqn:H2,
           (names "error_name" k) eqn:H3;
    try names_clash; step;
    try (destruct (decode v _) as [x e] eqn:Hd;
         apply (f_equal snd) in Hd; cbn [snd] in Hd; subst e;
         rewrite IH, saveError_None_iff,
           ?decode_string_ok, ?decode_pointer_string_ok, andb_true_iff);
    rewrite ?IH; tauto.
Qed.

Lemma decode_ErrorResponseError_ok v (cur : ErrorResponseError) :
  snd (decode v cur) = None <-> ErrorResponseError_ok v = true.
Proof.
  destruct v; cbn -[decode_members named]; try (intuition congruence).
  rewrite decode_members_ErrorResponseError_ok, !andb_true_iff. tauto.
Qed.

(** Decoding the members of an [ErrorResponse]. *)
Lemma decode_members_ErrorResponse ms : forall cur saved,
  fst (decode_members ErrorResponse_fields ms cur saved) =
  mkErrorResponse (store_all (named "error" ms) (Error cur)).
Proof.
  induction ms as [|[k v] ms IH]; intros cur saved; [by destruct cur|].
  simpl decode_members.
  rewrite (find_field_names _ _ ErrorResponse_fields_NoDup), !named_cons.
  simpl List.find.
  destruct (names "error" k) eqn:H1; step;
    try (destruct (decode v _) as [x e] eqn:Hd); rewrite IH; step;
    reflexivity.
Qed.

Lemma decode_members_ErrorResponse_ok ms : forall cur saved,
  snd (decode_members ErrorResponse_fields ms cur saved) = None <->
  saved = None /\ forallb ErrorResponseError_ok (named "error" ms) = true.
Proof.
  induction ms as [|[k v] ms IH]; intros cur saved; [simpl; tauto|].
  simpl decode_members.
  rewrite (find_field_names _ _ ErrorResponse_fields_NoDup), !named_cons.
  simpl List.find.
  destruct (names "error" k) eqn:H1; step;
    try (destruct (decode v _) as [x e] eqn:Hd;
         apply (f_equal snd) in Hd; cbn [snd] in Hd; subst e;
         rewrite IH, saveError_None_iff, decode_ErrorResponseError_ok,
           andb_true_iff);
    rewrite ?IH; tauto.
Qed.

Lemma decode_ErrorResponseError_fst v (cur : ErrorResponseError) :
  fst (decode v cur) =
  match v with
  | json.Object fs =>
    mkErrorResponseError (Status cur)
      (store_all (named "error_msg" fs) (ErrorMsg cur))
      (store_all (named "error_path" fs) (ErrorPath cur))
      (store_all (named "error_name" fs) (ErrorName cur))
  | _ => cur
  end.
Proof.
  destruct v; try reflexivity. cbn -[decode_members named].
  apply decode_members_ErrorResponseError.
Qed.

Lemma decode_ErrorResponse_fst v (cur : ErrorResponse) :
  fst (decode v cur) =
  match v with
  | json.Object ms => mkErrorResponse (store_all (named "error" ms) (Error cur))
  | _ => cur
  end.
Proof.
  destruct v; try reflexivity. cbn -[decode_members named].
  apply decode_members_ErrorResponse.
Qed.

Lemma decode_ErrorResponse_ok v (cur : ErrorResponse) :
  snd (decode v cur) = None <-> ErrorResponse_ok v = true.
Proof.
  destruct v; cbn -[decode_members named]; try (intuition congruence).
  rewrite decode_members_ErrorResponse_ok. tauto.
Qed.

(** The status is no part of the document: decoding never touches it. *)
Lemma decode_ErrorResponseError_Status v (cur : ErrorResponseError) :
  Status (fst (decode v cur)) = Status cur.
Proof. rewrite decode_ErrorResponseError_fst. by destruct v. Qed.

(** [parseErrorResponse] gives one of the two kinds of error, with the
    status it was given. *)
Lemma parseErrorResponse_cases c body statusCode :
  match Unmarshal body (zero : ErrorResponse) with
  | (_, Some e) =>
    parseErrorResponse c body statusCode =
    TransportError
      (NewClientError ("failed to parse error response: " ++ body) statusCode
         (Some e))
  | (errResp, None) =>
    parseErrorResponse c body statusCode =
    APIError (mkErrorResponseError statusCode (ErrorMsg (Error errResp))
                (ErrorPath (Error errResp)) (ErrorName (Error errResp)))
  end.
Proof.
  unfold parseErrorResponse.
  destruct (Unmarshal body zero) as [errResp [e|]]; reflexivity.
Qed.

(** C1.  A non-2xx status and a body that is a well-formed error envelope:
    the result is the [ErrorResponseError] whose status is the status
    passed in, whatever else the body holds, and whose message, name and
    path are those of the envelope. *)
Theorem parseErrorResponse_well_formed
    (c : Client) (body : string) (statusCode : Z) (v : json.value)
    (msg name : string) (path : option string) :
  is_success statusCode = false ->
  json.parse body = Some v ->
  error_envelope v = Some (msg, name, path) ->
  parseErrorResponse c body statusCode =
  APIError {| Status := statusCode; ErrorMsg := msg;
              ErrorPath := path; ErrorName := name |}.
Proof.
  intros _ Hparse Henv.
  destruct v as [| | | |?|ms]; try discriminate. cbn -[named] in Henv.
  destruct (named "error" ms) as [|[| | | |?|fs] [|]] eqn:Hms; try discriminate.
  unfold parseErrorResponse, Unmarshal. rewrite Hparse.
  destruct (decode (json.Object ms) (zero : ErrorResponse)) as [errResp e] eqn:Hd.
  pose proof (decode_ErrorResponse_fst (json.Object ms) zero) as Hv.
  pose proof (decode_ErrorResponse_ok (json.Object ms) zero) as He.
  rewrite Hd in Hv, He. cbn [fst snd] in Hv, He. subst errResp.
  cbn -[named decode] in He. rewrite Hms in He |- *.
  cbn [store_all fold_left Error forallb] in He |- *.
  rewrite decode_ErrorResponseError_fst.
  destruct (named "error_msg" fs) as [|[| | |m| |] [|]] eqn:Hm; try discriminate;
  destruct (named "error_name" fs) as [|[| | |n| |] [|]] eqn:Hn; try discriminate;
  destruct (named "error_path" fs) as [|[| | |p| |] [|]] eqn:Hp; try discriminate;
    inversion Henv; subst; clear Henv;
    (destruct e as [e|];
     [ exfalso; assert (Some e = None) as Hne; [|discriminate Hne];
       apply He; cbn -[named]; rewrite Hm, Hn, Hp; reflexivity
     | reflexivity ]).
Qed.

Lemma parseErrorResponse_well_formed_witness :
  is_success 400 = false /\
  json.parse bad_request_body =
    Some (json.Object
            [("error",
              json.Object
                [("error_msg", json.Str "Invalid email");
                 ("error_name", json.Str "bad_request");
                 ("error_path", json.Str "signers[0].email_address");
                 ("status", json.Number "200")]);
             ("status_code", json.Number "200")]) /\
  parseErrorResponse (NewClient "key") bad_request_body 400 =
  APIError {| Status := 400; ErrorMsg := "Invalid email";
              ErrorPath := Some "signers[0].email_address";
              ErrorName := "bad_request" |}.
Proof.
  split; [reflexivity|]. split; [by vm_compute|].
  eapply parseErrorResponse_well_formed; [reflexivity | by vm_compute | by vm_compute].
Defined.

(** When [json.Unmarshal] refuses a body for an [ErrorResponse]: it is not
    JSON, or it is JSON that the struct does not accept. *)
Lemma Unmarshal_ErrorResponse_fails body (cur : ErrorResponse) :
  snd (Unmarshal body cur) <> None <->
  match json.parse body with
  | None => True
  | Some v => ErrorResponse_ok v = false
  end.
Proof.
  unfold Unmarshal. destruct (json.parse body) as [v|]; [|simpl; intuition congruence].
  rewrite decode_ErrorResponse_ok. destruct (ErrorResponse_ok v); intuition congruence.
Qed.

(** C2.  A non-2xx status and a body that [json.Unmarshal] refuses for the
    error envelope: the result is a [ClientError] with the status passed
    in, a message that ends with the raw body, and the failure of
    [json.Unmarshal] as its cause. *)
Theorem parseErrorResponse_malformed
    (c : Client) (body : string) (statusCode : Z) (e : error) :
  is_success statusCode = false ->
  snd (Unmarshal body (zero : ErrorResponse)) = Some e ->
  parseErrorResponse c body statusCode =
  TransportError {| Message := "failed to parse error response: " ++ body;
                    StatusCode := statusCode;
                    Err := Some e |}.
Proof.
  intros _ He. pose proof (parseErrorResponse_cases c body statusCode) as Hc.
  destruct (Unmarshal body zero) as [errResp e']. simpl in He. subst e'.
  exact Hc.
Qed.

Lemma parseErrorResponse_malformed_witness :
  is_success 502 = false /\
  snd (Unmarshal html_body (zero : ErrorResponse)) = Some json_SyntaxError /\
  parseErrorResponse (NewClient "key") html_body 502 =
  TransportError
    {| Message := "failed to parse error response: <html>Bad Gateway</html>";
       StatusCode := 502;
       Err := Some json_SyntaxError |}.
Proof.
  split; [reflexivity|]. split; [by vm_compute|].
  apply (parseErrorResponse_malformed (NewClient "key") html_body 502
           json_SyntaxError); [reflexivity | by vm_compute].
Defined.

(** C8, as stated, fails: a body without any key [error] can still fill
    the envelope, because a key selects a field up to case. *)
Lemma parseErrorResponse_capital_key :
  is_success 400 = false /\
  snd (Unmarshal capital_error_body (zero : ErrorResponse)) = None /\
  no_member_with_key "error" capital_error_body = true /\
  parseErrorResponse (NewClient "key") capital_error_body 400 =
  APIError {| Status := 400; ErrorMsg := "Invalid template ID";
              ErrorPath := None; ErrorName := "bad_request" |}.
Proof. repeat split; by vm_compute. Qed.

(** C8, amended.  A non-2xx status and a body that [json.Unmarshal]
    accepts for the error envelope and in which no key equals [error] up to
    case (the body [{}], say): the result is an [ErrorResponseError] with
    the status passed in and an empty message, name and path, not a
    [ClientError]. *)
Theorem parseErrorResponse_no_error_member
    (c : Client) (body : string) (statusCode : Z) :
  is_success statusCode = false ->
  snd (Unmarshal body (zero : ErrorResponse)) = None ->
  no_member_named "error" body = true ->
  parseErrorResponse c body statusCode =
  APIError {| Status := statusCode; ErrorMsg := EmptyString;
              ErrorPath := None; ErrorName := EmptyString |}.
Proof.
  intros _ He Hno.
  pose proof (parseErrorResponse_cases c body statusCode) as Hc.
  unfold no_member_named in Hno. unfold Unmarshal in *.
  destruct (json.parse body) as [v|]; [|discriminate].
  pose proof (decode_ErrorResponse_fst v zero) as Hv.
  destruct (decode v (zero : ErrorResponse)) as [errResp e].
  cbn [fst snd] in *. subst e errResp. rewrite Hc. clear Hc.
  destruct v as [| | | |?|ms]; try reflexivity.
  destruct (named "error" ms); [reflexivity|discriminate].
Qed.

Lemma parseErrorResponse_no_error_member_witness :
  is_success 500 = false /\
  snd (Unmarshal "{}" (zero : ErrorResponse)) = None /\
  no_member_named "error" "{}" = true /\
  parseErrorResponse (NewClient "key") "{}" 500 =
  APIError {| Status := 500; ErrorMsg := EmptyString;
              ErrorPath := None; ErrorName := EmptyString |}.
Proof.
  split; [reflexivity|]. split; [by vm_compute|]. split; [by vm_compute|].
  apply (parseErrorResponse_no_error_member (NewClient "key") "{}" 500);
    [reflexivity | by vm_compute | by vm_compute].
Defined.

(** ** The texts of the errors, on the cases of the package's tests *)

Lemma ErrorResponseError_Error_with_path :
  ErrorResponseError_Error
    {| Status := 0; ErrorMsg := "Invalid email address";
       ErrorPath := Some "signers[0].email"; ErrorName := "validation_error" |}
  = "validation_error (signers[0].email): Invalid email address".
Proof. reflexivity. Qed.

Lemma ErrorResponseError_Error_without_path :
  ErrorResponseError_Error
    {| Status := 0; ErrorMsg := "Resource not found";
       ErrorPath := None; ErrorName := "not_found" |}
  = "not_found: Resource not found".
Proof. reflexivity. Qed.

Lemma WarningResponse_String_test :
  WarningResponse_String
    {| WarningMsg := "This is a test warning"; WarningName := "test_warning" |}
  = "This is a test warning (test_warning)".
Proof. reflexivity. Qed.

Lemma IsNotFound_tests :
  IsNotFound (Some (APIError {| Status := 404; ErrorMsg := "Not found";
                                ErrorPath := None; ErrorName := "not_found" |}))
    = true /\
  IsNotFound (Some (TransportError {| Message := "Not found"; StatusCode := 404;
                                      Err := None |})) = true /\
  IsNotFound (Some (APIError {| Status := 400; ErrorMsg := "Bad request";
                                ErrorPath := None; ErrorName := "bad_request" |}))
    = false /\
  IsNotFound (Some (foreign_error "http: Server closed")) = false.
Proof. repeat split. Qed.

(** ** The predicates on errors *)

(** C5.  On an error of either kind each predicate holds exactly when the
    status is the one it looks for; it fails on a status of 0 and on
    anything that is neither an [ErrorResponseError] nor a [ClientError],
    [nil] included. *)
Theorem status_predicates
    (a : ErrorResponseError) (t : ClientError) (other : option error) :
  (IsNotFound (Some (APIError a)) = true <-> Status a = 404%Z) /\
  (IsBadRequest (Some (APIError a)) = true <-> Status a = 400%Z) /\
  (IsUnauthorized (Some (APIError a)) = true <-> Status a = 401%Z) /\
  (IsNotFound (Some (TransportError t)) = true <-> StatusCode t = 404%Z) /\
  (IsBadRequest (Some (TransportError t)) = true <-> StatusCode t = 400%Z) /\
  (IsUnauthorized (Some (TransportError t)) = true <-> StatusCode t = 401%Z) /\
  (Status a = 0%Z ->
   IsNotFound (Some (APIError a)) = false /\
   IsBadRequest (Some (APIError a)) = false /\
   IsUnauthorized (Some (APIError a)) = false) /\
  (StatusCode t = 0%Z ->
   IsNotFound (Some (TransportError t)) = false /\
   IsBadRequest (Some (TransportError t)) = false /\
   IsUnauthorized (Some (TransportError t)) = false) /\
  (is_APIError other = false -> is_TransportError other = false ->
   IsNotFound other = false /\
   IsBadRequest other = false /\
   IsUnauthorized other = false).
Proof.
  unfold IsNotFound, IsBadRequest, IsUnauthorized,
    StatusNotFound, StatusBadRequest, StatusUnauthorized.
  repeat match goal with |- _ /\ _ => split end;
    try apply Z.eqb_eq.
  - by intros ->.
  - by intros ->.
  - intros Ha Ht. by destruct other as [[]|].
Qed.

(** ** The response envelope *)

(** The raw map holds, under a key, the last member of the document with
    that key. *)
Lemma lookup_insert_members ms : forall (m : gmap string RawMessage) key,
  insert_members ms m !! key =
  match lookup_member key ms with
  | Some v => Some v
  | None => m !! key
  end.
Proof.
  unfold insert_members.
  induction ms as [|[k v] ms IH]; intros m key; [reflexivity|].
  cbn [fold_left lookup_member fst snd]. rewrite IH.
  destruct (lookup_member key ms); [reflexivity|].
  destruct (String.eqb_spec k key) as [->|Hne].
  - by rewrite lookup_insert_eq.
  - by rewrite lookup_insert_ne.
Qed.

Lemma Unmarshal_raw_object body ms :
  json.parse body = Some (json.Object ms) ->
  Unmarshal body (∅ : gmap string RawMessage) = (insert_members ms ∅, None).
Proof. intros Hp. unfold Unmarshal. by rewrite Hp. Qed.

Lemma lookup_raw ms key :
  insert_members ms (∅ : gmap string RawMessage) !! key = lookup_member key ms.
Proof.
  rewrite lookup_insert_members, lookup_empty. by destruct (lookup_member key ms).
Qed.

Lemma decode_WarningResponse_fst v (cur : WarningResponse) :
  fst (decode v cur) =
  match v with
  | json.Object fs =>
    mkWarningResponse (store_all (named "warning_msg" fs) (WarningMsg cur))
                      (store_all (named "warning_name" fs) (WarningName cur))
  | _ => cur
  end.
Proof.
  destruct v; try reflexivity. cbn -[decode_members named].
  apply decode_members_WarningResponse.
Qed.

Lemma decode_WarningResponse_ok v (cur : WarningResponse) :
  snd (decode v cur) = None <-> WarningResponse_ok v = true.
Proof.
  destruct v; cbn -[decode_members named]; try (intuition congruence).
  rewrite decode_members_WarningResponse_ok, !andb_true_iff. tauto.
Qed.

Lemma decode_elements_WarningResponse_ok js : forall (cur : list WarningResponse),
  snd (decode_elements js cur) = None <-> forallb WarningResponse_ok js = true.
Proof.
  induction js as [|j js IH]; intros cur; [simpl; tauto|].
  cbn -[decode]. destruct (decode j _) as [x e] eqn:Hd.
  destruct (decode_elements js _) as [xs es] eqn:Hds.
  apply (f_equal snd) in Hd, Hds. cbn [snd] in *. subst.
  rewrite saveError_None_iff, decode_WarningResponse_ok, IH, andb_true_iff.
  tauto.
Qed.

(** [json.Unmarshal] refuses a value for a [[]WarningResponse] exactly when
    it is neither null nor an array of accepted elements. *)
Lemma decode_warnings_ok v (cur : slice WarningResponse) :
  snd (decode v cur) = None <-> warnings_ok v = true.
Proof.
  destruct v; cbn -[decode_elements]; try (intuition congruence).
  destruct (decode_elements l (default [] cur)) as [xs e] eqn:Hd.
  apply (f_equal snd) in Hd. cbn [snd] in *. subst.
  apply decode_elements_WarningResponse_ok.
Qed.

Lemma decode_warning_object v w (cur : WarningResponse) :
  warning_object v = Some w -> decode v cur = (w, None).
Proof.
  intros Hw. rewrite (surjective_pairing (decode v cur)).
  pose proof (decode_WarningResponse_ok v cur) as Hok.
  rewrite decode_WarningResponse_fst.
  destruct v as [| | | |?|fs]; try discriminate. cbn -[named] in *.
  destruct (named "warning_msg" fs) as [|[| | |m| |] [|]]; try discriminate.
  destruct (named "warning_name" fs) as [|[| | |n| |] [|]]; try discriminate.
  inversion Hw; subst. f_equal. by apply Hok.
Qed.

Lemma decode_warning_objects js : forall ws (cur : list WarningResponse),
  mapM warning_object js = Some ws ->
  decode_elements js cur = (ws, None).
Proof.
  induction js as [|j js IH]; intros ws cur Hm.
  - by inversion Hm.
  - cbn [mapM] in Hm. unfold mbind, mret, option_bind, option_ret in Hm.
    destruct (warning_object j) as [w|] eqn:Hw; [|discriminate].
    destruct (mapM warning_object js) as [ws'|] eqn:Hws; [|discriminate].
    inversion Hm; subst. cbn -[decode].
    rewrite (decode_warning_object _ _ _ Hw), (IH _ _ eq_refl). reflexivity.
Qed.

Section parseResponse_properties.

Context {T : Type} `{Unmarshaler T}.

(** What [parseResponse] returns once the body is an object holding the
    key and the payload decodes: the payload, and the warnings as a
    function of the [warnings] member alone. *)
Lemma parseResponse_payload body key ms payload (result : T) :
  json.parse body = Some (json.Object ms) ->
  lookup_member key ms = Some payload ->
  decode payload (zero : T) = (result, None) ->
  parseResponse body key =
  (Some result,
   match lookup_member "warnings" ms with
   | Some w =>
     match decode w (None : slice WarningResponse) with
     | (_, Some _) => None
     | (warnings, None) => warnings
     end
   | None => None
   end,
   None).
Proof.
  intros Hp Hk Hd. unfold parseResponse.
  rewrite (Unmarshal_raw_object _ _ Hp), !lookup_raw, Hk, Hd.
  destruct (lookup_member "warnings" ms) as [w|]; [|reflexivity].
  unfold slice. by destruct (decode w None) as [ws [e|]].
Qed.

End parseResponse_properties.

(** C3, as stated, fails: an array of elements that are no warning objects
    (a null, an empty object, an object without the two fields) is still an
    array the decoder takes, and [parseResponse] returns a warning for each
    of its elements, not an empty list. *)
Lemma parseResponse_lax_warnings :
  json.parse lax_warnings_body =
    Some (json.Object
            [("signature_request",
              json.Object [("signature_request_id", json.Str "abc");
                           ("title", json.Str "T")]);
             ("warnings",
              json.Array
                [json.Null;
                 json.Object [];
                 json.Object [("foo", json.Number "1")];
                 json.Object [("warning_msg", json.Null)]])]) /\
  mapM warning_object
    [json.Null;
     json.Object [];
     json.Object [("foo", json.Number "1")];
     json.Object [("warning_msg", json.Null)]] = None /\
  parseResponse (T := SignatureRequestResponse.t)
    lax_warnings_body "signature_request" =
    (Some abc_request,
     Some [mkWarningResponse "" ""; mkWarningResponse "" "";
           mkWarningResponse "" ""; mkWarningResponse "" ""],
     None) /\
  len (snd (fst (parseResponse (T := SignatureRequestResponse.t)
                   lax_warnings_body "signature_request"))) = 4%nat.
Proof. repeat split; by vm_compute. Qed.

(** A fresh slice receives each element of an array decoded into a zero
    value. *)
Lemma decode_elements_fresh {T : Type} `{Unmarshaler T} (js : list json.value) :
  fst (decode_elements js ([] : list T)) =
  map (fun j => fst (decode j (zero : T))) js.
Proof.
  induction js as [|j js IH]; [reflexivity|]. cbn -[decode].
  destruct (decode j zero) as [x e].
  destruct (decode_elements js []) as [xs es].
  cbn [fst map] in *. by rewrite IH.
Qed.

(** C3, amended.  A body in which the key holds a payload that decodes and
    that has a [warnings] member: [parseResponse] succeeds with the
    payload, whatever the member holds.  It returns no warnings when the
    member is not an array of elements that the decoder takes for a
    [WarningResponse].  When it is such an array, be its elements warning
    objects or not, it returns one warning for each element: the element
    decoded into a zero value. *)
Theorem parseResponse_malformed_warnings
    {T : Type} `{Unmarshaler T}
    (body key : string) (ms : list (string * json.value))
    (payload : json.value) (result : T) (w : json.value) :
  json.parse body = Some (json.Object ms) ->
  lookup_member key ms = Some payload ->
  decode payload (zero : T) = (result, None) ->
  lookup_member "warnings" ms = Some w ->
  (fst (fst (parseResponse (T := T) body key)) = Some result /\
   snd (parseResponse (T := T) body key) = None) /\
  (warning_array w = false ->
   parseResponse body key = (Some result, None, None) /\
   len (snd (fst (parseResponse (T := T) body key))) = 0%nat) /\
  (forall js,
     w = json.Array js ->
     forallb WarningResponse_ok js = true ->
     parseResponse body key =
       (Some result,
        Some (map (fun j => fst (decode j (zero : WarningResponse))) js),
        None) /\
     len (snd (fst (parseResponse (T := T) body key))) = length js).
Proof.
  intros Hp Hk Hd Hw.
  rewrite (parseResponse_payload _ _ _ _ _ Hp Hk Hd), Hw.
  split; [by split|].
  pose proof (decode_warnings_ok w None) as Hok. split.
  - intros Hbad.
    destruct (decode w (None : slice WarningResponse)) as [ws [e|]] eqn:Hdw;
      [by split|].
    destruct w; try discriminate; cbn -[decode_elements] in Hdw.
    + by inversion Hdw.
    + cbn [snd warnings_ok] in Hok. unfold warning_array in Hbad.
      rewrite Hbad in Hok. by destruct Hok as [Hok _]; discriminate Hok.
  - intros js -> Hall. cbn [warnings_ok] in Hok. apply Hok in Hall.
    pose proof (decode_elements_fresh (T := WarningResponse) js) as Hfst.
    cbn -[decode_elements decode_struct] in Hall |- *.
    destruct (decode_elements js []) as [xs e]. cbn [fst snd] in *.
    subst e xs. split; [reflexivity|].
    cbn [len snd fst]. apply length_map.
Qed.

Lemma parseResponse_malformed_warnings_witness :
  json.parse bad_warning_body =
    Some (json.Object
            [("signature_request",
              json.Object [("signature_request_id", json.Str "abc");
                           ("title", json.Str "T")]);
             ("warnings",
              json.Array
                [json.Object [("warning_msg", json.Str "m");
                              ("warning_name", json.Str "n")];
                 json.Object [("warning_msg", json.Number "7")]])]) /\
  parseResponse bad_warning_body "signature_request" =
    (Some abc_request, None, None) /\
  len (snd (fst (parseResponse (T := SignatureRequestResponse.t)
                   bad_warning_body "signature_request"))) = 0%nat.
Proof.
  split; [by vm_compute|].
  eapply (parseResponse_malformed_warnings (T := SignatureRequestResponse.t));
    [by vm_compute | by vm_compute | by vm_compute | by vm_compute
    | by vm_compute].
Defined.

(** C4, as stated, fails: the error [parseResponse] returns for a missing
    key is no [ClientError]. *)
Lemma parseResponse_missing_key_plain_error :
  json.parse missing_key_body =
    Some (json.Object [("other_key", json.Object [])]) /\
  lookup_member "signature_request" [("other_key", json.Object [])] = None /\
  parseResponse (T := SignatureRequestResponse.t)
    missing_key_body "signature_request" =
    (None, None,
     Some (fmt_Errorf "missing key 'signature_request' in response" None)) /\
  is_TransportError
    (snd (parseResponse (T := SignatureRequestResponse.t)
            missing_key_body "signature_request")) = false.
Proof. repeat split; by vm_compute. Qed.

(** Without the key in the document, [parseResponse] stops at the lookup. *)
Lemma parseResponse_no_key {T : Type} `{Unmarshaler T}
    (body key : string) (ms : list (string * json.value)) :
  json.parse body = Some (json.Object ms) ->
  lookup_member key ms = None ->
  parseResponse (T := T) body key =
    (None, None,
     Some (fmt_Errorf ("missing key '" ++ key ++ "' in response") None)).
Proof.
  intros Hp Hk. unfold parseResponse.
  by rewrite (Unmarshal_raw_object _ _ Hp), lookup_raw, Hk.
Qed.

(** C4, amended.  A body that is a JSON object without the key:
    [parseResponse] fails, with no payload and no warnings, and its error is
    the plain one made by [fmt.Errorf], whose text names the key; it is not
    a [ClientError]. *)
Theorem parseResponse_missing_key
    {T : Type} `{Unmarshaler T}
    (body key : string) (ms : list (string * json.value)) :
  json.parse body = Some (json.Object ms) ->
  lookup_member key ms = None ->
  parseResponse (T := T) body key =
    (None, None,
     Some (fmt_Errorf ("missing key '" ++ key ++ "' in response") None)) /\
  is_TransportError (snd (parseResponse (T := T) body key)) = false.
Proof.
  intros Hp Hk. by rewrite (parseResponse_no_key _ _ _ Hp Hk).
Qed.

Lemma parseResponse_missing_key_witness :
  json.parse missing_key_body =
    Some (json.Object [("other_key", json.Object [])]) /\
  parseResponse (T := SignatureRequestResponse.t)
    missing_key_body "signature_request" =
    (None, None,
     Some (fmt_Errorf "missing key 'signature_request' in response" None)).
Proof.
  split; [by vm_compute|].
  apply (parseResponse_missing_key (T := SignatureRequestResponse.t)
           missing_key_body "signature_request"
           [("other_key", json.Object [])]); by vm_compute.
Defined.

(** The exported calls wrap what [parseResponse] reports: the caller of
    [GetSignatureRequest] or [SendWithTemplate] sees a [ClientError] that
    carries the status of the response and has the missing key as its
    cause. *)
Lemma signature_request_result_missing_key c body ms :
  json.parse body = Some (json.Object ms) ->
  lookup_member "signature_request" ms = None ->
  signature_request_result c (responded 200 body) =
  (None, None,
   Some (TransportError
           {| Message := "failed to parse response";
              StatusCode := 200;
              Err := Some (fmt_Errorf
                             "missing key 'signature_request' in response"
                             None) |})).
Proof.
  intros Hp Hk. unfold signature_request_result.
  by rewrite (parseResponse_no_key (T := SignatureRequestResponse.t)
                body "signature_request" ms Hp Hk).
Qed.

(** C6.  A body in which the key holds a payload that decodes: without a
    [warnings] member, [parseResponse] returns the payload and no warnings;
    with a [warnings] array of well-formed warning objects, it returns the
    payload and the warnings those objects say, one per element, in
    order. *)
Theorem parseResponse_warnings
    {T : Type} `{Unmarshaler T}
    (body key : string) (ms : list (string * json.value))
    (payload : json.value) (result : T) :
  json.parse body = Some (json.Object ms) ->
  lookup_member key ms = Some payload ->
  decode payload (zero : T) = (result, None) ->
  (lookup_member "warnings" ms = None ->
   parseResponse body key = (Some result, None, None) /\
   len (snd (fst (parseResponse (T := T) body key))) = 0%nat) /\
  (forall js ws,
     lookup_member "warnings" ms = Some (json.Array js) ->
     mapM warning_object js = Some ws ->
     parseResponse body key = (Some result, Some ws, None) /\
     length ws = length js /\
     forall i j,
       js !! i = Some j ->
       exists w, ws !! i = Some w /\ warning_object j = Some w).
Proof.
  intros Hp Hk Hd. rewrite (parseResponse_payload _ _ _ _ _ Hp Hk Hd). split.
  - intros ->. by split.
  - intros js ws -> Hm. cbn -[decode_elements].
    rewrite (decode_warning_objects _ _ _ Hm). split; [reflexivity|].
    apply mapM_Some in Hm. split.
    + symmetry. by eapply Forall2_length.
    + intros i j Hj.
      destruct (Forall2_lookup_l _ _ _ _ _ Hm Hj) as (w & Hw & Hjw). eauto.
Qed.

Lemma parseResponse_warnings_witness :
  mapM warning_object
    [json.Object [("warning_msg", json.Str "m"); ("warning_name", json.Str "n")]]
    = Some [mkWarningResponse "m" "n"] /\
  parseResponse (T := SignatureRequestResponse.t)
    send_body "signature_request" =
    (Some sent_request, Some [mkWarningResponse "m" "n"], None).
Proof.
  split; [by vm_compute|].
  eapply (parseResponse_warnings (T := SignatureRequestResponse.t)
            send_body "signature_request");
    [by vm_compute | by vm_compute | by vm_compute | by vm_compute
    | by vm_compute].
Defined.

(** A body without warnings. *)
Lemma parseResponse_plain_body :
  parseResponse (T := SignatureRequestResponse.t)
    plain_body "signature_request" = (Some abc_request, None, None).
Proof. by vm_compute. Qed.

(** The success scenario of the specification: one warning, named [n]. *)
Lemma parseResponse_send_body :
  exists r,
    parseResponse (T := SignatureRequestResponse.t)
      send_body "signature_request" =
      (Some r, Some [mkWarningResponse "m" "n"], None) /\
    SignatureRequestResponse.SignatureRequestID r = "abc".
Proof. eexists. split; [by vm_compute | reflexivity]. Qed.

(** A key of a slice that comes again is decoded into the slice the
    earlier member left: a [null] element keeps the string that was there,
    also one that a shorter array in between had cut off. *)
Lemma decode_repeated_slice_key :
  shown (SignatureRequestResponse.CCEmailAddresses
           (fst (decode twice_payload (zero : SignatureRequestResponse.t))))
    = Some ["c"; "b"] /\
  shown (SignatureRequestResponse.CCEmailAddresses
           (fst (decode thrice_payload (zero : SignatureRequestResponse.t))))
    = Some ["d"; "b"].
Proof. split; by vm_compute. Qed.

(** Whenever [parseResponse] reports an error it returns neither a payload
    nor warnings. *)
Lemma parseResponse_all_or_nothing {T : Type} `{Unmarshaler T}
    (body key : string) :
  snd (parseResponse (T := T) body key) <> None ->
  parseResponse (T := T) body key =
  (None, None, snd (parseResponse (T := T) body key)).
Proof.
  unfold parseResponse.
  destruct (Unmarshal body ∅) as [raw [e|]]; [reflexivity|].
  destruct (raw !! key) as [payload|]; [|reflexivity].
  destruct (decode payload zero) as [result [e|]]; [reflexivity|].
  intros Hne. by destruct Hne.
Qed.

(** ** The calls, end to end *)

(** A GET answered with 404 and the error envelope of the service: the
    caller gets an error that [IsNotFound] recognises, and that the other
    two predicates do not. *)
Lemma GetSignatureRequest_not_found (c : Client) (id : string) :
  let result :=
    GetSignatureRequest (fun _ => responded 404 not_found_body) c id in
  result =
    (None, None,
     Some (APIError {| Status := 404;
                       ErrorMsg := "Signature request not found";
                       ErrorPath := None;
                       ErrorName := "not_found" |})) /\
  IsNotFound (snd result) = true /\
  IsBadRequest (snd result) = false /\
  IsUnauthorized (snd result) = false.
Proof. repeat split; by vm_compute. Qed.

(** A POST answered with 200, a signature request and one warning. *)
Lemma SendWithTemplate_success (c : Client) (request : SendSignatureRequest.t) :
  SendWithTemplate (fun _ => responded 200 send_body) c request =
  (Some sent_request, Some [mkWarningResponse "m" "n"], None).
Proof. by vm_compute. Qed.

(** A POST answered with 400 and an error envelope: [IsBadRequest] holds
    and the message is the one of the body. *)
Lemma SendWithTemplate_bad_request (c : Client) (request : SendSignatureRequest.t) :
  let result :=
    SendWithTemplate (fun _ => responded 400 bad_request_body) c request in
  IsBadRequest (snd result) = true /\
  snd result =
    Some (APIError {| Status := 400; ErrorMsg := "Invalid email";
                      ErrorPath := Some "signers[0].email_address";
                      ErrorName := "bad_request" |}).
Proof. split; by vm_compute. Qed.

(** A response that cannot be read as the envelope keeps its status. *)
Lemma GetSignatureRequest_bad_gateway (c : Client) (id : string) :
  snd (GetSignatureRequest (fun _ => responded 502 html_body) c id) =
  Some (TransportError
          {| Message := "failed to parse error response: <html>Bad Gateway</html>";
             StatusCode := 502;
             Err := Some json_SyntaxError |}).
Proof. by vm_compute. Qed.

(** ** Building and encoding a request *)

Ltac frame := intros g Hg; destruct g; try reflexivity; congruence.

(** C10.  Each setter of [SendSignatureRequest] gives its own field the
    value supplied (behind a pointer where the field is one) and leaves
    every other field of the request as it was. *)
Theorem With_setters_frame (s : SendSignatureRequest.t)
    (title message clientID signingRedirectURL : string)
    (testMode allowDecline isEID : bool)
    (ccs : slice SubCC.t) (customFields : slice SubCustomField.t)
    (files : slice (slice ascii)) (fileURLs : slice string)
    (metadata : gmap string string)
    (signingOptions : option SubSigningOptions.t) :
  (SendSignatureRequest.Title (SendSignatureRequest.WithTitle title s)
     = Some title /\
   only_changes FTitle s (SendSignatureRequest.WithTitle title s)) /\
  (SendSignatureRequest.TestMode (SendSignatureRequest.WithTestMode testMode s)
     = Some testMode /\
   only_changes FTestMode s (SendSignatureRequest.WithTestMode testMode s)) /\
  (SendSignatureRequest.Message (SendSignatureRequest.WithMessage message s)
     = Some message /\
   only_changes FMessage s (SendSignatureRequest.WithMessage message s)) /\
  (SendSignatureRequest.AllowDecline
     (SendSignatureRequest.WithAllowDecline allowDecline s) = Some allowDecline /\
   only_changes FAllowDecline s
     (SendSignatureRequest.WithAllowDecline allowDecline s)) /\
  (SendSignatureRequest.CCs (SendSignatureRequest.WithCCs ccs s) = ccs /\
   only_changes FCCs s (SendSignatureRequest.WithCCs ccs s)) /\
  (SendSignatureRequest.ClientID (SendSignatureRequest.WithClientID clientID s)
     = Some clientID /\
   only_changes FClientID s (SendSignatureRequest.WithClientID clientID s)) /\
  (SendSignatureRequest.CustomFields
     (SendSignatureRequest.WithCustomFields customFields s) = customFields /\
   only_changes FCustomFields s
     (SendSignatureRequest.WithCustomFields customFields s)) /\
  (SendSignatureRequest.Files (SendSignatureRequest.WithFiles files s) = files /\
   only_changes FFiles s (SendSignatureRequest.WithFiles files s)) /\
  (SendSignatureRequest.FileURLs (SendSignatureRequest.WithFileURLs fileURLs s)
     = fileURLs /\
   only_changes FFileURLs s (SendSignatureRequest.WithFileURLs fileURLs s)) /\
  (SendSignatureRequest.IsEID (SendSignatureRequest.WithIsEID isEID s)
     = Some isEID /\
   only_changes FIsEID s (SendSignatureRequest.WithIsEID isEID s)) /\
  (SendSignatureRequest.Metadata (SendSignatureRequest.WithMetadata metadata s)
     = metadata /\
   only_changes FMetadata s (SendSignatureRequest.WithMetadata metadata s)) /\
  (SendSignatureRequest.SigningOptions
     (SendSignatureRequest.WithSigningOptions signingOptions s)
     = signingOptions /\
   only_changes FSigningOptions s
     (SendSignatureRequest.WithSigningOptions signingOptions s)) /\
  (SendSignatureRequest.SigningRedirectURL
     (SendSignatureRequest.WithSigningRedirectURL signingRedirectURL s)
     = Some signingRedirectURL /\
   only_changes FSigningRedirectURL s
     (SendSignatureRequest.WithSigningRedirectURL signingRedirectURL s)).
Proof.
  repeat match goal with |- _ /\ _ => split end; try reflexivity; frame.
Qed.

(** The keys of an encoded struct: the tags of its fields, without those of
    the empty fields tagged [omitempty]. *)
Lemma keys_encode_struct {S} (fs : list (efield S)) (s : S) :
  keys (encode_struct fs s) =
  flat_map (fun f => when_set (omitempty f && empty_in f s) (tag f)) fs.
Proof.
  unfold encode_struct, keys. induction fs as [|f fs IH]; [reflexivity|].
  cbn [flat_map]. rewrite List.map_app, IH. f_equal.
  unfold when_set. by destruct (omitempty f && empty_in f s).
Qed.

(** Whatever setters were applied, a request is written with [signers] and
    [template_ids] and with the key of each optional field that is set: a
    pointer that is not [nil], a slice or map that is not empty. *)
Lemma Marshal_request_keys (r : SendSignatureRequest.t) :
  keys (Marshal r) =
  ("signers" :: "template_ids"
   :: when_set (bool_decide (SendSignatureRequest.AllowDecline r = None))
        "allow_decline"
   ++ when_set (len (SendSignatureRequest.CCs r) =? 0)%nat "ccs"
   ++ when_set (bool_decide (SendSignatureRequest.ClientID r = None)) "client_id"
   ++ when_set (len (SendSignatureRequest.CustomFields r) =? 0)%nat
        "custom_fields"
   ++ when_set (len (SendSignatureRequest.Files r) =? 0)%nat "files"
   ++ when_set (len (SendSignatureRequest.FileURLs r) =? 0)%nat "file_urls"
   ++ when_set (bool_decide (SendSignatureRequest.IsEID r = None)) "is_eid"
   ++ when_set (bool_decide (SendSignatureRequest.Message r = None)) "message"
   ++ when_set (size (SendSignatureRequest.Metadata r) =? 0)%nat "metadata"
   ++ when_set (bool_decide (SendSignatureRequest.SigningOptions r = None))
        "signing_options"
   ++ when_set (bool_decide (SendSignatureRequest.SigningRedirectURL r = None))
        "signing_redirect_url"
   ++ when_set (bool_decide (SendSignatureRequest.TestMode r = None)) "test_mode"
   ++ when_set (bool_decide (SendSignatureRequest.Title r = None)) "title")%list.
Proof.
  unfold Marshal. cbn [encode SendSignatureRequest_Marshaler].
  rewrite keys_encode_struct. destruct r as [? ? ad ? ci ? ? ? ie me ? so sr tm ti].
  destruct ad, ci, ie, me, so, sr, tm, ti; reflexivity.
Qed.

(** C7.  A request made by [NewSendSignatureRequest] and not touched by
    any setter is written as an object with the two members [signers] and
    [template_ids] and no other: every optional field is left out. *)
Theorem Marshal_new_request
    (signers : slice SubSignatureRequestTemplateSigner.t)
    (templateIDs : slice string) :
  Marshal (SendSignatureRequest.New signers templateIDs) =
    json.Object
      [("signers", encode (Marshaler := slice_Marshaler) signers);
       ("template_ids", encode (Marshaler := slice_Marshaler) templateIDs)] /\
  keys (Marshal (SendSignatureRequest.New signers templateIDs)) =
    ["signers"; "template_ids"].
Proof. split; reflexivity. Qed.

(** ** UTF-8: decoding what was encoded *)

Ltac divlia := zify; Z.to_euclidean_division_equations; lia.

Lemma code_byte (n : N) : n < 256 -> utf8.code (utf8.byte n) = n.
Proof. apply N_ascii_embedding. Qed.

Lemma byte_code (c : ascii) : utf8.byte (utf8.code c) = c.
Proof. apply ascii_N_embedding. Qed.

Lemma code_bound (c : ascii) : utf8.code c < 256.
Proof. apply N_ascii_bounded. Qed.

Lemma between_spec lo x hi : utf8.between lo x hi = true <-> lo <= x <= hi.
Proof. unfold utf8.between. rewrite andb_true_iff, !N.leb_le. tauto. Qed.

Lemma between_false lo x hi :
  utf8.between lo x hi = false <-> x < lo \/ hi < x.
Proof.
  unfold utf8.between. rewrite andb_false_iff, !N.leb_gt. tauto.
Qed.

Lemma ValidRune_spec r :
  utf8.ValidRune r = true <-> r <= 1114111 /\ (r < 55296 \/ 57343 < r).
Proof.
  unfold utf8.ValidRune, utf8.is_surrogate, utf8.MaxRune.
  rewrite andb_true_iff, negb_true_iff, between_false, N.leb_le. tauto.
Qed.

(** The ranges behind [accept]. *)
Lemma accept_spec b0 sz lo hi :
  utf8.accept b0 = Some (sz, lo, hi) ->
  (194 <= b0 <= 223 /\ sz = 2%nat /\ lo = 128 /\ hi = 191) \/
  (b0 = 224 /\ sz = 3%nat /\ lo = 160 /\ hi = 191) \/
  ((225 <= b0 <= 236 \/ 238 <= b0 <= 239) /\ sz = 3%nat /\ lo = 128 /\ hi = 191) \/
  (b0 = 237 /\ sz = 3%nat /\ lo = 128 /\ hi = 159) \/
  (b0 = 240 /\ sz = 4%nat /\ lo = 144 /\ hi = 191) \/
  (241 <= b0 <= 243 /\ sz = 4%nat /\ lo = 128 /\ hi = 191) \/
  (b0 = 244 /\ sz = 4%nat /\ lo = 128 /\ hi = 143).
Proof.
  unfold utf8.accept.
  repeat match goal with
  | |- context [utf8.between ?a ?x ?b] =>
    let H := fresh in
    destruct (utf8.between a x b) eqn:H;
    [apply between_spec in H|apply between_false in H]
  | |- context [?x =? ?n] =>
    let H := fresh in
    destruct (N.eqb_spec x n) as [H|H]
  end; intros Heq; inversion Heq; subst; lia.
Qed.

Lemma accept_intro b0 sz lo hi :
  (194 <= b0 <= 223 /\ sz = 2%nat /\ lo = 128 /\ hi = 191) \/
  (b0 = 224 /\ sz = 3%nat /\ lo = 160 /\ hi = 191) \/
  ((225 <= b0 <= 236 \/ 238 <= b0 <= 239) /\ sz = 3%nat /\ lo = 128 /\ hi = 191) \/
  (b0 = 237 /\ sz = 3%nat /\ lo = 128 /\ hi = 159) \/
  (b0 = 240 /\ sz = 4%nat /\ lo = 144 /\ hi = 191) \/
  (241 <= b0 <= 243 /\ sz = 4%nat /\ lo = 128 /\ hi = 191) \/
  (b0 = 244 /\ sz = 4%nat /\ lo = 128 /\ hi = 143) ->
  utf8.accept b0 = Some (sz, lo, hi).
Proof.
  unfold utf8.accept.
  repeat match goal with
  | |- context [utf8.between ?a ?x ?b] =>
    let H := fresh in
    destruct (utf8.between a x b) eqn:H;
    [apply between_spec in H|apply between_false in H]
  | |- context [?x =? ?n] =>
    let H := fresh in
    destruct (N.eqb_spec x n) as [H|H]
  end; intros Hc; try (exfalso; lia);
  repeat f_equal; lia.
Qed.

(** Whatever the bytes, [DecodeRune] returns a Unicode scalar value. *)
Lemma DecodeRune_valid (s : string) :
  utf8.ValidRune (fst (utf8.DecodeRune s)) = true.
Proof.
  assert (Herr : utf8.ValidRune utf8.RuneError = true) by reflexivity.
  unfold utf8.DecodeRune.
  destruct s as [|c0 s1]; [exact Herr|].
  pose proof (code_bound c0) as Hb0. set (b0 := utf8.code c0) in *.
  destruct (N.ltb_spec b0 utf8.RuneSelf) as [Hlt|Hge].
  { apply ValidRune_spec. unfold utf8.RuneSelf in Hlt. simpl. lia. }
  destruct (utf8.accept b0) as [[[sz lo] hi]|] eqn:Hacc; [|exact Herr].
  apply accept_spec in Hacc.
  destruct s1 as [|c1 s2]; [exact Herr|].
  pose proof (code_bound c1) as Hb1. set (b1 := utf8.code c1) in *.
  destruct (utf8.between lo b1 hi) eqn:H1; [|exact Herr].
  apply between_spec in H1. cbn [negb].
  destruct (sz <=? 2)%nat eqn:Hsz2.
  { apply Nat.leb_le in Hsz2. apply ValidRune_spec. cbn [fst]. divlia. }
  apply Nat.leb_gt in Hsz2.
  destruct s2 as [|c2 s3]; [exact Herr|].
  pose proof (code_bound c2) as Hb2. set (b2 := utf8.code c2) in *.
  unfold utf8.cont.
  destruct (utf8.between 128 b2 191) eqn:H2; [|exact Herr].
  apply between_spec in H2. cbn [negb].
  destruct (sz <=? 3)%nat eqn:Hsz3.
  { apply Nat.leb_le in Hsz3. apply ValidRune_spec. cbn [fst]. divlia. }
  apply Nat.leb_gt in Hsz3.
  destruct s3 as [|c3 s4]; [exact Herr|].
  pose proof (code_bound c3) as Hb3. set (b3 := utf8.code c3) in *.
  destruct (utf8.between 128 b3 191) eqn:H3; [|exact Herr].
  apply between_spec in H3. cbn [negb].
  apply ValidRune_spec. cbn [fst]. divlia.
Qed.

Lemma append_String c (s t : string) : String c s ++ t = String c (s ++ t).
Proof. reflexivity. Qed.

Lemma append_Empty (t : string) : EmptyString ++ t = t.
Proof. reflexivity. Qed.

Ltac norm_append :=
  unfold utf8.bytes; cbn [fold_right String.length];
  rewrite ?append_String, ?append_Empty.

Lemma DecodeRune_1 b0 s :
  b0 < 128 ->
  utf8.DecodeRune (String (utf8.byte b0) s) = (b0, 1%nat).
Proof.
  intros H0. unfold utf8.DecodeRune. rewrite code_byte by lia.
  unfold utf8.RuneSelf. by destruct (N.ltb_spec b0 128); [|lia].
Qed.

Lemma DecodeRune_2 b0 b1 lo hi s :
  128 <= b0 < 256 -> b1 < 256 ->
  utf8.accept b0 = Some (2%nat, lo, hi) -> lo <= b1 <= hi ->
  utf8.DecodeRune (String (utf8.byte b0) (String (utf8.byte b1) s)) =
  ((b0 mod 32) * 64 + b1 mod 64, 2%nat).
Proof.
  intros H0 H1 Hacc Hr. unfold utf8.DecodeRune.
  rewrite !code_byte by lia. unfold utf8.RuneSelf.
  destruct (N.ltb_spec b0 128); [lia|]. rewrite Hacc.
  by rewrite (proj2 (between_spec lo b1 hi) Hr).
Qed.

Lemma DecodeRune_3 b0 b1 b2 lo hi s :
  128 <= b0 < 256 -> b1 < 256 -> 128 <= b2 <= 191 ->
  utf8.accept b0 = Some (3%nat, lo, hi) -> lo <= b1 <= hi ->
  utf8.DecodeRune
    (String (utf8.byte b0) (String (utf8.byte b1) (String (utf8.byte b2) s))) =
  ((b0 mod 16) * 4096 + (b1 mod 64) * 64 + b2 mod 64, 3%nat).
Proof.
  intros H0 H1 H2 Hacc Hr. unfold utf8.DecodeRune, utf8.cont.
  rewrite !code_byte by lia. unfold utf8.RuneSelf.
  destruct (N.ltb_spec b0 128); [lia|]. rewrite Hacc.
  rewrite (proj2 (between_spec lo b1 hi) Hr).
  by rewrite (proj2 (between_spec 128 b2 191) H2).
Qed.

Lemma DecodeRune_4 b0 b1 b2 b3 lo hi s :
  128 <= b0 < 256 -> b1 < 256 -> 128 <= b2 <= 191 -> 128 <= b3 <= 191 ->
  utf8.accept b0 = Some (4%nat, lo, hi) -> lo <= b1 <= hi ->
  utf8.DecodeRune
    (String (utf8.byte b0) (String (utf8.byte b1)
       (String (utf8.byte b2) (String (utf8.byte b3) s)))) =
  ((b0 mod 8) * 262144 + (b1 mod 64) * 4096 + (b2 mod 64) * 64 + b3 mod 64,
   4%nat).
Proof.
  intros H0 H1 H2 H3 Hacc Hr. unfold utf8.DecodeRune, utf8.cont.
  rewrite !code_byte by lia. unfold utf8.RuneSelf.
  destruct (N.ltb_spec b0 128); [lia|]. rewrite Hacc.
  rewrite (proj2 (between_spec lo b1 hi) Hr).
  rewrite (proj2 (between_spec 128 b2 191) H2).
  by rewrite (proj2 (between_spec 128 b3 191) H3).
Qed.

(** Decoding the encoding of a scalar value gives it back, with the number
    of bytes written. *)
Lemma DecodeRune_EncodeRune (r : utf8.rune) (s : string) :
  utf8.ValidRune r = true ->
  utf8.DecodeRune (utf8.EncodeRune r ++ s) =
  (r, String.length (utf8.EncodeRune r)).
Proof.
  intros Hv. unfold utf8.EncodeRune. rewrite Hv. cbn [negb].
  apply ValidRune_spec in Hv.
  destruct (N.leb_spec r 127); [norm_append; by apply DecodeRune_1; lia|].
  destruct (N.leb_spec r 2047).
  { norm_append.
    erewrite DecodeRune_2;
      [ | | | apply accept_intro; left; split; [|done] | ]; [|divlia..].
    f_equal. divlia. }
  destruct (N.leb_spec r 65535).
  { norm_append.
    assert (Hacc : exists lo hi,
               utf8.accept (224 + r / 4096) = Some (3%nat, lo, hi) /\
               lo <= 128 + (r / 64) mod 64 <= hi).
    { assert (r / 4096 = 0 \/ r / 4096 = 13 \/
              (1 <= r / 4096 <= 12 \/ 14 <= r / 4096 <= 15)) as [Hq|[Hq|Hq]]
        by divlia.
      - exists 160, 191. split; [apply accept_intro; lia | divlia].
      - exists 128, 159. split; [apply accept_intro; lia | divlia].
      - exists 128, 191. split; [apply accept_intro; lia | divlia]. }
    destruct Hacc as (lo & hi & Hacc & Hr).
    erewrite DecodeRune_3; [| | | |exact Hacc|exact Hr]; [|divlia..].
    f_equal. divlia. }
  norm_append.
  assert (Hacc : exists lo hi,
             utf8.accept (240 + r / 262144) = Some (4%nat, lo, hi) /\
             lo <= 128 + (r / 4096) mod 64 <= hi).
  { assert (r / 262144 = 0 \/ r / 262144 = 4 \/ 1 <= r / 262144 <= 3)
      as [Hq|[Hq|Hq]] by divlia.
    - exists 144, 191. split; [apply accept_intro; lia | divlia].
    - exists 128, 143. split; [apply accept_intro; lia | divlia].
    - exists 128, 191. split; [apply accept_intro; lia | divlia]. }
  destruct Hacc as (lo & hi & Hacc & Hr).
  erewrite DecodeRune_4; [| | | | |exact Hacc|exact Hr]; [|divlia..].
  f_equal. divlia.
Qed.

(** ** Runes of a string that was written rune by rune *)

Lemma length_append (a b : string) :
  String.length (a ++ b) = (String.length a + String.length b)%nat.
Proof. induction a; simpl; [reflexivity|]. rewrite ?append_String. simpl. lia. Qed.

Lemma take_append (a b : string) : utf8.take (String.length a) (a ++ b) = a.
Proof.
  induction a; simpl; [by destruct b|]. rewrite ?append_String. simpl. by f_equal.
Qed.

Lemma drop_append (a b : string) : utf8.drop (String.length a) (a ++ b) = b.
Proof. induction a; simpl; [by destruct b|]. by rewrite ?append_String. Qed.

Lemma EncodeRune_nonempty (r : utf8.rune) :
  exists c t, utf8.EncodeRune r = String c t.
Proof.
  unfold utf8.EncodeRune, utf8.bytes.
  repeat match goal with |- context [if ?b then _ else _] => destruct b end;
    cbn [fold_right]; eauto.
Qed.

Lemma units_step fuel c t :
  utf8.units (S fuel) (String c t) =
  (fst (utf8.DecodeRune (String c t)),
   utf8.take (snd (utf8.DecodeRune (String c t))) (String c t))
  :: utf8.units fuel (utf8.drop (snd (utf8.DecodeRune (String c t))) (String c t)).
Proof.
  cbn [utf8.units]. by destruct (utf8.DecodeRune (String c t)).
Qed.

Lemma units_encode rs : forall fuel,
  valid_runes rs ->
  (String.length (utf8.encode rs) <= fuel)%nat ->
  utf8.units fuel (utf8.encode rs) = map (fun r => (r, utf8.EncodeRune r)) rs.
Proof.
  induction rs as [|r rs IH]; intros fuel Hv Hlen.
  - by destruct fuel.
  - apply Forall_cons in Hv as [Hr Hv].
    cbn [utf8.encode fold_right map] in *. fold (utf8.encode rs) in *.
    destruct (EncodeRune_nonempty r) as (c & t & He).
    rewrite length_append in Hlen.
    destruct fuel as [|fuel]; [rewrite He in Hlen; simpl in Hlen; lia|].
    pose proof (DecodeRune_EncodeRune r (utf8.encode rs) Hr) as Hd.
    pose proof (take_append (utf8.EncodeRune r) (utf8.encode rs)) as Ht.
    pose proof (drop_append (utf8.EncodeRune r) (utf8.encode rs)) as Hdr.
    rewrite He in Hd, Ht, Hdr, Hlen |- *. rewrite append_String in *.
    rewrite units_step, Hd. cbn [fst snd]. rewrite Ht, Hdr. f_equal.
    apply IH; [exact Hv|]. simpl in Hlen. lia.
Qed.

Lemma runes_encode rs :
  valid_runes rs ->
  utf8.runes (utf8.encode rs) = map (fun r => (r, utf8.EncodeRune r)) rs.
Proof. intros Hv. by apply units_encode. Qed.

Lemma units_valid fuel : forall s,
  valid_runes (map fst (utf8.units fuel s)).
Proof.
  induction fuel as [|fuel IH]; intros s; [by constructor|].
  destruct s as [|c t]; [by constructor|].
  rewrite units_step. cbn [map fst]. constructor; [apply DecodeRune_valid|apply IH].
Qed.

Lemma runes_valid s : valid_runes (map fst (utf8.runes s)).
Proof. apply units_valid. Qed.

Lemma take_drop n : forall s, utf8.take n s ++ utf8.drop n s = s.
Proof.
  induction n as [|n IH]; intros [|c s]; try reflexivity.
  cbn [utf8.take utf8.drop]. rewrite append_String. by rewrite IH.
Qed.

Lemma units_concat fuel : forall s,
  (String.length s <= fuel)%nat ->
  fold_right (fun u t => snd u ++ t) EmptyString (utf8.units fuel s) = s.
Proof.
  induction fuel as [|fuel IH]; intros [|c s] Hlen; try reflexivity.
  - simpl in Hlen. lia.
  - rewrite units_step. cbn [fold_right snd].
    pose proof (DecodeRune_size c s) as Hsz.
    rewrite IH; [apply take_drop|].
    rewrite drop_length. cbn [String.length] in *. lia.
Qed.

(** The runes of a string cover it: their bytes, put together, are the
    string. *)
Lemma runes_concat (s : string) :
  fold_right (fun u t => snd u ++ t) EmptyString (utf8.runes s) = s.
Proof. by apply units_concat. Qed.

(** ** [ToLower] and [TrimSpace] on what they return *)

Lemma runes_String_ascii c t :
  utf8.code c < 128 ->
  utf8.runes (String c t) = (utf8.code c, String c EmptyString) :: utf8.runes t.
Proof.
  intros Hc. unfold utf8.runes. cbn [String.length].
  rewrite units_step. rewrite <- (byte_code c) at 1 2 3 4.
  rewrite (DecodeRune_1 _ _ Hc), byte_code. reflexivity.
Qed.

Section lowering.

Context `{strings.CaseTable}.

Lemma unicode_ToLower_ascii b :
  b < 128 ->
  strings.unicode_ToLower b = (if utf8.between 65 b 90 then b + 32 else b) /\
  strings.unicode_ToLower b < 128.
Proof.
  intros Hb. unfold strings.unicode_ToLower.
  destruct (N.leb_spec b 127); [|lia].
  split; [reflexivity|].
  destruct (utf8.between 65 b 90) eqn:Hu; [apply between_spec in Hu|]; lia.
Qed.

(** The byte-wise path of [ToLower] computes what the rune-wise path
    does. *)
Lemma ToLower_Map (s : string) :
  strings.ToLower s = strings.Map strings.unicode_ToLower s.
Proof.
  unfold strings.ToLower. destruct (strings.isASCII s) eqn:Ha; [|reflexivity].
  unfold strings.Map. induction s as [|c t IH]; [reflexivity|].
  cbn [strings.isASCII] in Ha. apply andb_true_iff in Ha as [Hc Ht].
  apply N.ltb_lt in Hc. unfold utf8.RuneSelf in Hc.
  rewrite (runes_String_ascii _ _ Hc). cbn [map fst utf8.encode fold_right].
  fold (utf8.encode (map strings.unicode_ToLower (map fst (utf8.runes t)))).
  rewrite <- (IH Ht). cbn [strings.map_bytes].
  destruct (unicode_ToLower_ascii _ Hc) as [Heq Hlt].
  unfold utf8.EncodeRune.
  destruct (N.leb_spec (strings.unicode_ToLower (utf8.code c)) 127); [|lia].
  rewrite Heq. reflexivity.
Qed.

Hypothesis table_sound : lower_table_sound.

Lemma unicode_ToLower_valid r :
  utf8.ValidRune r = true ->
  utf8.ValidRune (strings.unicode_ToLower r) = true.
Proof using table_sound.
  intros Hv. destruct (N.leb_spec r 127) as [Hr|Hr].
  - destruct (unicode_ToLower_ascii r) as [_ Hlt]; [lia|].
    apply ValidRune_spec. lia.
  - unfold strings.unicode_ToLower. destruct (N.leb_spec r 127); [lia|].
    by apply table_sound.
Qed.

Lemma unicode_ToLower_idem r :
  utf8.ValidRune r = true ->
  strings.unicode_ToLower (strings.unicode_ToLower r) = strings.unicode_ToLower r.
Proof using table_sound.
  intros Hv. destruct (N.leb_spec r 127) as [Hr|Hr].
  - destruct (unicode_ToLower_ascii r) as [Heq _]; [lia|].
    rewrite Heq. destruct (utf8.between 65 r 90) eqn:Hu.
    + apply between_spec in Hu. unfold strings.unicode_ToLower.
      destruct (N.leb_spec (r + 32) 127); [|lia].
      destruct (utf8.between 65 (r + 32) 90) eqn:Hu'; [|reflexivity].
      apply between_spec in Hu'. lia.
    + unfold strings.unicode_ToLower.
      destruct (N.leb_spec r 127); [|lia]. by rewrite Hu.
  - unfold strings.unicode_ToLower at 2 3.
    destruct (N.leb_spec r 127); [lia|]. by apply table_sound.
Qed.

End lowering.

Lemma drop_spaces_map rs :
  strings.drop_spaces (map (fun r => (r, utf8.EncodeRune r)) rs) =
  map (fun r => (r, utf8.EncodeRune r)) (drop_space_runes rs).
Proof.
  induction rs as [|r rs IH]; [reflexivity|].
  cbn [map strings.drop_spaces drop_space_runes].
  by destruct (strings.unicode_IsSpace r).
Qed.

Lemma concat_units rs :
  fold_right (fun u t => snd u ++ t) EmptyString
    (map (fun r => (r, utf8.EncodeRune r)) rs) = utf8.encode rs.
Proof. induction rs as [|r rs IH]; [reflexivity|]. simpl. by rewrite IH. Qed.

(** Trimming a string written rune by rune trims the list of runes. *)
Lemma TrimSpace_encode rs :
  valid_runes rs ->
  strings.TrimSpace (utf8.encode rs) = utf8.encode (trim_runes rs).
Proof.
  intros Hv. unfold strings.TrimSpace, trim_runes.
  rewrite (runes_encode _ Hv), drop_spaces_map, <- List.map_rev,
    drop_spaces_map, <- List.map_rev.
  apply concat_units.
Qed.

Lemma drop_space_runes_Forall (P : utf8.rune -> Prop) rs :
  Forall P rs -> Forall P (drop_space_runes rs).
Proof.
  induction 1 as [|r rs Hr Hrs IH]; [constructor|].
  cbn [drop_space_runes]. destruct (strings.unicode_IsSpace r); [exact IH|].
  by constructor.
Qed.

Lemma trim_runes_Forall (P : utf8.rune -> Prop) rs :
  Forall P rs -> Forall P (trim_runes rs).
Proof.
  intros HP. unfold trim_runes.
  apply Forall_rev, drop_space_runes_Forall, Forall_rev,
    drop_space_runes_Forall, HP.
Qed.

Lemma drop_space_runes_idem rs :
  drop_space_runes (drop_space_runes rs) = drop_space_runes rs.
Proof.
  induction rs as [|r rs IH]; [reflexivity|].
  cbn [drop_space_runes]. destruct (strings.unicode_IsSpace r) eqn:Hs; [exact IH|].
  cbn [drop_space_runes]. by rewrite Hs.
Qed.

Lemma drop_space_runes_snoc rs x :
  strings.unicode_IsSpace x = false ->
  drop_space_runes (rs ++ [x])%list = (drop_space_runes rs ++ [x])%list.
Proof.
  intros Hx. induction rs as [|r rs IH]; simpl; [by rewrite Hx|].
  by destruct (strings.unicode_IsSpace r).
Qed.

Lemma drop_space_runes_head rs :
  match drop_space_runes rs with
  | [] => True
  | x :: _ => strings.unicode_IsSpace x = false
  end.
Proof.
  induction rs as [|r rs IH]; [exact I|].
  cbn [drop_space_runes]. by destruct (strings.unicode_IsSpace r) eqn:Hs.
Qed.

(** Trimming what has been trimmed changes nothing. *)
Lemma trim_runes_idem rs : trim_runes (trim_runes rs) = trim_runes rs.
Proof.
  unfold trim_runes.
  pose proof (drop_space_runes_head rs) as Hh.
  destruct (drop_space_runes rs) as [|x l] eqn:Hd; [reflexivity|].
  cbn [rev]. rewrite (drop_space_runes_snoc _ _ Hh), rev_app_distr.
  cbn [rev app drop_space_runes]. rewrite Hh. cbn [rev].
  rewrite (drop_space_runes_snoc _ _ Hh), rev_app_distr. cbn [rev app].
  by rewrite rev_involutive, drop_space_runes_idem.
Qed.

Lemma map_fst_units (rs : list utf8.rune) :
  map fst (map (fun r => (r, utf8.EncodeRune r)) rs) = rs.
Proof. induction rs as [|r rs IH]; [reflexivity|]. cbn [map fst]. by rewrite IH. Qed.

(** ** [ParseSignerStatus] *)

Section normal_form.

Context `{strings.CaseTable}.
Hypothesis table_sound : lower_table_sound.

Lemma normalise (s : string) :
  exists rs, normal rs /\
             strings.TrimSpace (strings.ToLower s) = utf8.encode rs.
Proof using table_sound.
  set (rs0 := map strings.unicode_ToLower (map fst (utf8.runes s))).
  assert (Hv : valid_runes rs0).
  { unfold rs0, valid_runes. apply Forall_map.
    eapply Forall_impl; [apply runes_valid|].
    intros r Hr. by apply unicode_ToLower_valid. }
  assert (Hf : Forall (fun r => strings.unicode_ToLower r = r) rs0).
  { unfold rs0. apply Forall_map.
    eapply Forall_impl; [apply runes_valid|].
    intros r Hr. by apply unicode_ToLower_idem. }
  exists (trim_runes rs0). split.
  - split; [by apply trim_runes_Forall|].
    split; [by apply trim_runes_Forall | apply trim_runes_idem].
  - rewrite ToLower_Map. unfold strings.Map. fold rs0.
    by apply TrimSpace_encode.
Qed.

Lemma normal_fixed (rs : list utf8.rune) :
  normal rs ->
  strings.TrimSpace (strings.ToLower (utf8.encode rs)) = utf8.encode rs.
Proof.
  intros (Hv & Hf & Ht). rewrite ToLower_Map. unfold strings.Map.
  rewrite (runes_encode _ Hv), map_fst_units.
  assert (map strings.unicode_ToLower rs = rs) as ->.
  { clear Hv Ht. induction Hf as [|r rs Hr Hrs IH]; [reflexivity|].
    cbn [map]. by rewrite Hr, IH. }
  by rewrite (TrimSpace_encode _ Hv), Ht.
Qed.

(** Lowering and trimming a string that has been lowered and trimmed
    changes nothing. *)
Lemma TrimSpace_ToLower_idem (s : string) :
  strings.TrimSpace (strings.ToLower (strings.TrimSpace (strings.ToLower s))) =
  strings.TrimSpace (strings.ToLower s).
Proof using table_sound.
  destruct (normalise s) as (rs & Hn & ->). by apply normal_fixed.
Qed.

End normal_form.

(** [ParseSignerStatus] is the [switch] on the lowered and trimmed text. *)
Lemma ParseSignerStatus_switch `{strings.CaseTable} (s : string) :
  ParseSignerStatus s =
  default SignerStatusUnknownEnum
    (status_for (strings.TrimSpace (strings.ToLower s)) status_table).
Proof.
  unfold ParseSignerStatus. cbn [status_for status_table].
  repeat match goal with
  | |- context [String.eqb ?a ?b] => destruct (String.eqb a b); [reflexivity|]
  end.
  reflexivity.
Qed.

Lemma latin1_table_sound : @lower_table_sound latin1_table.
Proof.
  intros r Hr Hv. cbn [strings.lower_table latin1_table].
  apply ValidRune_spec in Hv. unfold latin1_lower.
  destruct (utf8.between 192 r 222 && negb (r =? 215)) eqn:Hcap.
  - apply andb_true_iff in Hcap as [Hb Hx]. apply between_spec in Hb.
    split; [apply ValidRune_spec; lia|].
    unfold strings.unicode_ToLower.
    destruct (N.leb_spec (r + 32) 127); [lia|].
    cbn [strings.lower_table latin1_table]. unfold latin1_lower.
    destruct (utf8.between 192 (r + 32) 222) eqn:Hb2;
      [apply between_spec in Hb2; lia|]. cbn [andb].
    destruct (N.eqb_spec (r + 32) 304); [lia|].
    by destruct (N.eqb_spec (r + 32) 8490); [lia|].
  - destruct (N.eqb_spec r 304); [by split|].
    destruct (N.eqb_spec r 8490); [by split|].
    split; [apply ValidRune_spec; lia|].
    unfold strings.unicode_ToLower.
    destruct (N.leb_spec r 127); [lia|].
    cbn [strings.lower_table latin1_table]. unfold latin1_lower.
    rewrite Hcap.
    destruct (N.eqb_spec r 304); [lia|].
    by destruct (N.eqb_spec r 8490); [lia|].
Qed.

(** C9.  [ParseSignerStatus] looks at its argument lowered and trimmed
    only: it returns what it returns on the lowered and trimmed text, the
    status the [switch] lists for that text (each of the twelve texts gives
    its own constant) and [SignerStatusUnknownEnum] for any other; so
    [SignerStatus.UnmarshalJSON] succeeds on every JSON string. *)
Theorem ParseSignerStatus_normalises `{strings.CaseTable} (s : string) :
  lower_table_sound ->
  let t := strings.TrimSpace (strings.ToLower s) in
  ParseSignerStatus s = ParseSignerStatus t /\
  ParseSignerStatus s =
    default SignerStatusUnknownEnum (status_for t status_table) /\
  (status_for t status_table = None ->
   ParseSignerStatus s = SignerStatusUnknownEnum) /\
  (forall k st, In (k, st) status_table -> ParseSignerStatus k = st) /\
  (forall (data x : string) (cur : SignerStatus),
     json.parse data = Some (json.Str x) ->
     SignerStatus_UnmarshalJSON data cur = (ParseSignerStatus x, None)).
Proof.
  intros Hsound t. subst t. repeat match goal with |- _ /\ _ => split end.
  - rewrite !ParseSignerStatus_switch.
    by rewrite (TrimSpace_ToLower_idem Hsound).
  - apply ParseSignerStatus_switch.
  - intros Hnone. by rewrite ParseSignerStatus_switch, Hnone.
  - intros k st Hin. cbn [In status_table] in Hin.
    repeat (destruct Hin as [Hin|Hin];
            [inversion Hin; subst; by vm_compute|]).
    destruct Hin.
  - intros data x cur Hp. unfold SignerStatus_UnmarshalJSON, Unmarshal.
    by rewrite Hp.
Qed.

Lemma ParseSignerStatus_normalises_witness :
  @lower_table_sound latin1_table /\
  ParseSignerStatus (H := latin1_table) shouting_status =
    SignerStatusErrorUnknown /\
  ParseSignerStatus (H := latin1_table) shouting_status =
    ParseSignerStatus (H := latin1_table)
      (strings.TrimSpace
         (strings.ToLower (H := latin1_table) shouting_status)).
Proof.
  split; [exact latin1_table_sound|].
  destruct (ParseSignerStatus_normalises (H := latin1_table) shouting_status
              latin1_table_sound) as (Hfix & Hsw & _).
  split; [by vm_compute | exact Hfix].
Defined.

(** * Further properties *)

(** ** [parseResponse] *)

(** X1.  [parseResponse] returns either a payload and no error, or an error
    with neither payload nor warnings; never both, never neither. *)
Theorem parseResponse_payload_xor_error {T : Type} `{Unmarshaler T}
    (body key : string) :
  match parseResponse (T := T) body key with
  | (Some _, _, None) => True
  | (None, None, Some _) => True
  | _ => False
  end.
Proof.
  unfold parseResponse.
  destruct (Unmarshal body ∅) as [raw [e|]]; [exact I|].
  destruct (raw !! key) as [payload|]; [|exact I].
  destruct (decode payload zero) as [result [e|]]; exact I.
Qed.

(** X2.  A body that is not JSON, or that is JSON other than an object,
    makes [parseResponse] fail at the first step, with the error of
    [json.Unmarshal] wrapped; but the body [null] is taken for an empty map
    and reported as a missing key. *)
Theorem parseResponse_not_an_object {T : Type} `{Unmarshaler T}
    (body key : string) :
  match json.parse body with
  | None =>
    parseResponse (T := T) body key =
    (None, None,
     Some (fmt_Errorf "failed to unmarshal response: " (Some json_SyntaxError)))
  | Some json.Null =>
    parseResponse (T := T) body key =
    (None, None,
     Some (fmt_Errorf ("missing key '" ++ key ++ "' in response") None))
  | Some (json.Object _) => True
  | Some v =>
    parseResponse (T := T) body key =
    (None, None,
     Some (fmt_Errorf "failed to unmarshal response: "
             (Some (json_UnmarshalTypeError (describe v)
                      "map[string]json.RawMessage"))))
  end.
Proof.
  unfold parseResponse, Unmarshal.
  destruct (json.parse body) as [[| | | | |]|]; try reflexivity; exact I.
Qed.

(** X3.  [parseResponse] succeeds exactly when the body is an object that
    holds the key with a value the payload type accepts.  Nothing else
    counts: not the other members, and not what [warnings] holds. *)
Theorem parseResponse_succeeds_iff {T : Type} `{Unmarshaler T}
    (body key : string) :
  snd (parseResponse (T := T) body key) = None <->
  exists ms payload,
    json.parse body = Some (json.Object ms) /\
    lookup_member key ms = Some payload /\
    snd (decode payload (zero : T)) = None.
Proof.
  split.
  - unfold parseResponse, Unmarshal.
    destruct (json.parse body) as [[| | | | |ms]|]; try discriminate.
    cbn [decode RawMessage_map_Unmarshaler]. rewrite lookup_raw.
    destruct (lookup_member key ms) as [payload|] eqn:Hk; [|discriminate].
    destruct (decode payload zero) as [result [e|]] eqn:Hd; [discriminate|].
    intros _. exists ms, payload. by rewrite Hd.
  - intros (ms & payload & Hp & Hk & Hd).
    destruct (decode payload (zero : T)) as [result e] eqn:Hdec.
    cbn [snd] in Hd. subst e.
    by rewrite (parseResponse_payload _ _ _ _ _ Hp Hk Hdec).
Qed.

(** X4.  When the value under the key does not decode, [parseResponse]
    fails with the decoder's error wrapped, and never looks at
    [warnings]. *)
Theorem parseResponse_payload_refused {T : Type} `{Unmarshaler T}
    (body key : string) (ms : list (string * json.value))
    (payload : json.value) (e : error) :
  json.parse body = Some (json.Object ms) ->
  lookup_member key ms = Some payload ->
  snd (decode payload (zero : T)) = Some e ->
  parseResponse (T := T) body key =
  (None, None, Some (fmt_Errorf "failed to unmarshal payload: " (Some e))).
Proof.
  intros Hp Hk Hd. unfold parseResponse.
  rewrite (Unmarshal_raw_object _ _ Hp), lookup_raw, Hk.
  destruct (decode payload zero) as [result e']. cbn [snd] in Hd. by subst e'.
Qed.

Lemma parseResponse_payload_refused_witness :
  json.parse number_payload_body =
    Some (json.Object
            [("signature_request", json.Number "7");
             ("warnings",
              json.Array
                [json.Object [("warning_msg", json.Str "m");
                              ("warning_name", json.Str "n")]])]) /\
  parseResponse (T := SignatureRequestResponse.t)
    number_payload_body "signature_request" =
  (None, None,
   Some (fmt_Errorf "failed to unmarshal payload: "
           (Some (json_UnmarshalTypeError "number"
                    "dropboxsign.SignatureRequestResponse")))).
Proof.
  split; [by vm_compute|].
  eapply (parseResponse_payload_refused (T := SignatureRequestResponse.t));
    [by vm_compute | by vm_compute | by vm_compute].
Defined.

(** X5.  A [null] under the key is no error: [parseResponse] returns a
    payload, the zero value of [SignatureRequestResponse]. *)
Theorem parseResponse_null_payload
    (body : string) (ms : list (string * json.value)) :
  json.parse body = Some (json.Object ms) ->
  lookup_member "signature_request" ms = Some json.Null ->
  fst (fst (parseResponse (T := SignatureRequestResponse.t)
              body "signature_request"))
    = Some (zero : SignatureRequestResponse.t) /\
  snd (parseResponse (T := SignatureRequestResponse.t)
         body "signature_request") = None.
Proof.
  intros Hp Hk.
  assert (Hd : decode json.Null (zero : SignatureRequestResponse.t)
               = (zero, None)) by reflexivity.
  by rewrite (parseResponse_payload _ _ _ _ _ Hp Hk Hd).
Qed.

Lemma parseResponse_null_payload_witness :
  json.parse null_payload_body =
    Some (json.Object [("signature_request", json.Null)]) /\
  fst (fst (parseResponse (T := SignatureRequestResponse.t)
              null_payload_body "signature_request"))
    = Some (zero : SignatureRequestResponse.t) /\
  snd (parseResponse (T := SignatureRequestResponse.t)
         null_payload_body "signature_request") = None.
Proof.
  split; [by vm_compute|].
  apply (parseResponse_null_payload null_payload_body
           [("signature_request", json.Null)]); by vm_compute.
Defined.

(** X6.  [parseResponse] reads two members of the body, the one under the
    key and [warnings]: two bodies that agree on them give the same result,
    whatever else they hold. *)
Theorem parseResponse_two_members {T : Type} `{Unmarshaler T}
    (body body' key : string) (ms ms' : list (string * json.value)) :
  json.parse body = Some (json.Object ms) ->
  json.parse body' = Some (json.Object ms') ->
  lookup_member key ms = lookup_member key ms' ->
  lookup_member "warnings" ms = lookup_member "warnings" ms' ->
  parseResponse (T := T) body key = parseResponse (T := T) body' key.
Proof.
  intros Hp Hp' Hk Hw. unfold parseResponse.
  rewrite (Unmarshal_raw_object _ _ Hp), (Unmarshal_raw_object _ _ Hp').
  by rewrite !lookup_raw, Hk, Hw.
Qed.

Lemma parseResponse_two_members_witness :
  lookup_member "api_version"
    (members (default json.Null (json.parse noisy_body)))
    = Some (json.Number "3") /\
  parseResponse (T := SignatureRequestResponse.t)
    noisy_body "signature_request" =
  parseResponse (T := SignatureRequestResponse.t)
    plain_body "signature_request".
Proof.
  split; [by vm_compute|].
  eapply (parseResponse_two_members (T := SignatureRequestResponse.t));
    by vm_compute.
Defined.

(** ** [parseErrorResponse] and the three calls *)

Lemma parseErrorResponse_status c body statusCode :
  status_of (Some (parseErrorResponse c body statusCode)) = Some statusCode /\
  is_typed_error (Some (parseErrorResponse c body statusCode)) = true.
Proof.
  pose proof (parseErrorResponse_cases c body statusCode) as Hc.
  destruct (Unmarshal body zero) as [errResp [e|]]; by rewrite Hc.
Qed.

Lemma predicates_status_of (e : option error) :
  IsNotFound e = bool_decide (status_of e = Some StatusNotFound) /\
  IsBadRequest e = bool_decide (status_of e = Some StatusBadRequest) /\
  IsUnauthorized e = bool_decide (status_of e = Some StatusUnauthorized).
Proof.
  assert (Hd : forall a b : Z, (a =? b)%Z = bool_decide (Some a = Some b)).
  { intros a b. destruct (Z.eqb_spec a b) as [->|Hne].
    - by rewrite bool_decide_eq_true_2.
    - rewrite bool_decide_eq_false_2; [done|congruence]. }
  destruct e as [[| | | e | e |]|]; cbn; rewrite ?Hd; done.
Qed.

(** X7.  Whatever the body, the error [parseErrorResponse] returns is an
    [ErrorResponseError] or a [ClientError] that carries the status passed
    in; so [IsNotFound], [IsBadRequest] and [IsUnauthorized] answer by the
    HTTP status alone, also when the body is not an error envelope. *)
Theorem parseErrorResponse_keeps_status
    (c : Client) (body : string) (statusCode : Z) :
  let e := Some (parseErrorResponse c body statusCode) in
  is_typed_error e = true /\
  status_of e = Some statusCode /\
  IsNotFound e = (statusCode =? 404)%Z /\
  IsBadRequest e = (statusCode =? 400)%Z /\
  IsUnauthorized e = (statusCode =? 401)%Z.
Proof.
  pose proof (parseErrorResponse_cases c body statusCode) as Hc. cbv zeta.
  destruct (Unmarshal body zero) as [errResp [e|]]; by rewrite Hc.
Qed.

Lemma parseResponse_success_payload {T : Type} `{Unmarshaler T}
    (body key : string) :
  snd (parseResponse (T := T) body key) = None ->
  is_Some (fst (fst (parseResponse (T := T) body key))).
Proof.
  unfold parseResponse.
  destruct (Unmarshal body ∅) as [raw [e|]]; [discriminate|].
  destruct (raw !! key) as [payload|]; [|discriminate].
  destruct (decode payload zero) as [result [e|]]; [discriminate|].
  intros _. by eexists.
Qed.

Lemma signature_request_result_shape c x :
  payload_or_typed_error (signature_request_result c x) = true.
Proof.
  destruct x as [err|err|statusCode err|statusCode body]; try reflexivity.
  unfold signature_request_result.
  destruct (negb (statusCode =? StatusOK)%Z).
  - apply parseErrorResponse_status.
  - pose proof (parseResponse_success_payload
                  (T := SignatureRequestResponse.t) body "signature_request")
      as Hr.
    destruct (parseResponse body "signature_request") as [[p w] [e|]];
      [reflexivity|].
    destruct (Hr eq_refl) as [p' Hp]. cbn [fst] in Hp. by subst p.
Qed.

(** X8.  Every error the three calls return is an [ErrorResponseError] or a
    [ClientError], never a bare error; and [GetSignatureRequest] and
    [SendWithTemplate] return either a payload without error or an error
    with neither payload nor warnings. *)
Theorem calls_return_typed_errors
    (roundTrip : Request -> exchange) (c : Client)
    (signatureRequestID : string) (request : SendSignatureRequest.t) :
  payload_or_typed_error (GetSignatureRequest roundTrip c signatureRequestID)
    = true /\
  payload_or_typed_error (SendWithTemplate roundTrip c request) = true /\
  nil_or_typed_error
    (CancelIncompleteSignatureRequest roundTrip c signatureRequestID) = true.
Proof.
  split; [apply signature_request_result_shape|].
  split; [apply signature_request_result_shape|].
  unfold CancelIncompleteSignatureRequest.
  destruct (roundTrip _) as [err|err|statusCode err|statusCode body];
    try reflexivity.
  - by destruct (negb (statusCode =? StatusOK)%Z).
  - destruct (negb (statusCode =? StatusOK)%Z); [|reflexivity].
    apply parseErrorResponse_status.
Qed.

Lemma signature_request_result_status c x :
  status_kept x (snd (signature_request_result c x)).
Proof.
  destruct x as [err|err|statusCode err|statusCode body]; try reflexivity.
  unfold signature_request_result.
  destruct (Z.eqb_spec statusCode StatusOK) as [->|Hne]; cbn [negb].
  - destruct (parseResponse body "signature_request") as [[p w] [e|]];
      reflexivity.
  - cbn [snd status_kept]. apply parseErrorResponse_status.
Qed.

(** X9.  A call succeeds only when the response has status 200: any other
    status, 201 or 204 included, is an error.  An error carries the status
    of the response it comes from, also when that status is 200 and the
    body could not be read or parsed; it carries 0 when no response
    arrived. *)
Theorem calls_keep_status
    (roundTrip : Request -> exchange) (c : Client)
    (signatureRequestID : string) (request : SendSignatureRequest.t) :
  status_kept (roundTrip (get_request c signatureRequestID))
    (snd (GetSignatureRequest roundTrip c signatureRequestID)) /\
  status_kept (roundTrip (send_request c request))
    (snd (SendWithTemplate roundTrip c request)) /\
  status_kept (roundTrip (cancel_request c signatureRequestID))
    (CancelIncompleteSignatureRequest roundTrip c signatureRequestID).
Proof.
  split; [apply signature_request_result_status|].
  split; [apply signature_request_result_status|].
  unfold CancelIncompleteSignatureRequest.
  change (mkRequest "POST" _ _ _ _) with (cancel_request c signatureRequestID).
  destruct (roundTrip _) as [err|err|statusCode err|statusCode body];
    try reflexivity.
  - by destruct (Z.eqb_spec statusCode StatusOK) as [->|Hne].
  - destruct (Z.eqb_spec statusCode StatusOK) as [->|Hne]; [reflexivity|].
    cbn [negb status_kept]. apply parseErrorResponse_status.
Qed.

(** X10.  [CancelIncompleteSignatureRequest] returns nil exactly when a
    response with status 200 arrives.  The body plays no part in it: it is
    not read, so a body that cannot be read does not fail the call. *)
Theorem Cancel_succeeds_iff
    (roundTrip : Request -> exchange) (c : Client)
    (signatureRequestID : string) :
  CancelIncompleteSignatureRequest roundTrip c signatureRequestID = None <->
  exchange_status (roundTrip (cancel_request c signatureRequestID))
    = Some StatusOK.
Proof.
  unfold CancelIncompleteSignatureRequest.
  change (mkRequest "POST" _ _ _ _) with (cancel_request c signatureRequestID).
  destruct (roundTrip _) as [err|err|statusCode err|statusCode body];
    cbn [exchange_status]; try (split; discriminate).
  all: destruct (Z.eqb_spec statusCode StatusOK) as [->|Hne]; cbn [negb];
    (split; [done || discriminate | done || congruence]).
Qed.

(** X11.  [GetSignatureRequest] and [SendWithTemplate] succeed exactly when
    the response has status 200 and a body that [parseResponse] accepts for
    the key [signature_request]; what they return is then what
    [parseResponse] returns. *)
Theorem calls_succeed_iff
    (roundTrip : Request -> exchange) (c : Client)
    (signatureRequestID : string) (request : SendSignatureRequest.t) :
  (snd (GetSignatureRequest roundTrip c signatureRequestID) = None <->
   exists body,
     roundTrip (get_request c signatureRequestID) = responded 200 body /\
     snd (parseResponse (T := SignatureRequestResponse.t)
            body "signature_request") = None /\
     GetSignatureRequest roundTrip c signatureRequestID =
     parseResponse body "signature_request") /\
  (snd (SendWithTemplate roundTrip c request) = None <->
   exists body,
     roundTrip (send_request c request) = responded 200 body /\
     snd (parseResponse (T := SignatureRequestResponse.t)
            body "signature_request") = None /\
     SendWithTemplate roundTrip c request =
     parseResponse body "signature_request").
Proof.
  assert (Hres : forall x,
    snd (signature_request_result c x) = None <->
    exists body,
      x = responded 200 body /\
      snd (parseResponse (T := SignatureRequestResponse.t)
             body "signature_request") = None /\
      signature_request_result c x = parseResponse body "signature_request").
  { intros x. split.
    - destruct x as [err|err|statusCode err|statusCode body];
        try discriminate.
      unfold signature_request_result.
      destruct (Z.eqb_spec statusCode StatusOK) as [->|Hne]; cbn [negb];
        [|discriminate].
      destruct (parseResponse body "signature_request") as [[p w] [e|]]
        eqn:Hr; [discriminate|].
      intros _. exists body. by rewrite Hr.
    - intros (body & -> & Hn & ->). exact Hn. }
  split; apply Hres.
Qed.

(** ** Writing a request *)

Lemma lookup_member_app key (l1 l2 : list (string * json.value)) :
  lookup_member key (l1 ++ l2) =
  match lookup_member key l2 with
  | Some x => Some x
  | None => lookup_member key l1
  end.
Proof.
  induction l1 as [|[k v] l1 IH]; cbn [app lookup_member].
  - by destruct (lookup_member key l2).
  - rewrite IH. by destruct (lookup_member key l2).
Qed.

Lemma lookup_member_keys key ms v :
  lookup_member key ms = Some v -> In key (map fst ms).
Proof.
  induction ms as [|[k x] ms IH]; cbn [lookup_member map fst In];
    [discriminate|].
  destruct (lookup_member key ms); [right; by apply IH|].
  destruct (String.eqb_spec k key) as [->|Hne]; [by left|discriminate].
Qed.

(** The keys written are among the tags, in their order. *)
Lemma keys_sublist {S} (fs : list (efield S)) (s : S) :
  sublist (keys (encode_struct fs s)) (map tag fs).
Proof.
  rewrite keys_encode_struct.
  induction fs as [|f fs IH]; cbn [flat_map map]; [constructor|].
  unfold when_set at 1. destruct (omitempty f && empty_in f s); cbn [app].
  - by apply sublist_cons.
  - by apply sublist_skip.
Qed.

(** Where no two fields share a tag, the member under a key is the value of
    the field with that tag. *)
Lemma lookup_encode_struct {S} (fs : list (efield S)) (key : string) (s : S) :
  NoDup (map tag fs) ->
  lookup_member key (members (encode_struct fs s)) = written fs key s.
Proof.
  intros Hnd. unfold written.
  induction fs as [|f fs IH]; [reflexivity|].
  apply NoDup_cons in Hnd as [Hf Hnd]. specialize (IH Hnd).
  cbn [encode_struct members flat_map List.find] in *.
  rewrite lookup_member_app, IH. clear IH.
  destruct (String.eqb_spec (tag f) key) as [<-|Hne].
  - destruct (List.find _ fs) as [g|] eqn:Hg.
    + apply find_some in Hg as [Hin Heq]. apply String.eqb_eq in Heq.
      exfalso. apply Hf. rewrite <- Heq.
      apply list_elem_of_In, in_map_iff. by exists g.
    + destruct (omitempty f && empty_in f s); cbn [lookup_member]; [done|].
      by rewrite String.eqb_refl.
  - destruct (List.find _ fs) as [g|].
    + by destruct (omitempty g && empty_in g s);
        destruct (omitempty f && empty_in f s); cbn [lookup_member];
        rewrite ?(proj2 (String.eqb_neq _ _) Hne).
    + destruct (omitempty f && empty_in f s); cbn [lookup_member]; [done|].
      by rewrite (proj2 (String.eqb_neq _ _) Hne).
Qed.

Lemma SendSignatureRequest_tags_NoDup :
  NoDup (map tag SendSignatureRequest.fields).
Proof. nodup_names. Qed.

Lemma member_of_request key (r : SendSignatureRequest.t) :
  member_of key r = written SendSignatureRequest.fields key r.
Proof.
  unfold member_of, Marshal. cbn [encode SendSignatureRequest_Marshaler].
  apply lookup_encode_struct, SendSignatureRequest_tags_NoDup.
Qed.

(** X12.  A setter that takes a [bool] or a [string] stores it behind a
    pointer, so the value is always written, [false] and the empty string
    included: [omitempty] does not leave them out. *)
Theorem Marshal_pointer_setters (r : SendSignatureRequest.t)
    (b : bool) (text : string) :
  member_of "allow_decline" (SendSignatureRequest.WithAllowDecline b r)
    = Some (json.Bool b) /\
  member_of "is_eid" (SendSignatureRequest.WithIsEID b r)
    = Some (json.Bool b) /\
  member_of "test_mode" (SendSignatureRequest.WithTestMode b r)
    = Some (json.Bool b) /\
  member_of "client_id" (SendSignatureRequest.WithClientID text r)
    = Some (json.Str (ToValidUTF8 text)) /\
  member_of "message" (SendSignatureRequest.WithMessage text r)
    = Some (json.Str (ToValidUTF8 text)) /\
  member_of "signing_redirect_url"
    (SendSignatureRequest.WithSigningRedirectURL text r)
    = Some (json.Str (ToValidUTF8 text)) /\
  member_of "title" (SendSignatureRequest.WithTitle text r)
    = Some (json.Str (ToValidUTF8 text)).
Proof.
  rewrite !member_of_request.
  repeat match goal with |- _ /\ _ => split end; reflexivity.
Qed.

(** X13.  A setter that takes a slice, a map or a pointer stores it as it
    is, and the key is written only when there is something to write: an
    empty slice or map, like a nil one, is left out of the document, as is
    a nil [SigningOptions]. *)
Theorem Marshal_collection_setters (r : SendSignatureRequest.t)
    (ccs : slice SubCC.t) (customFields : slice SubCustomField.t)
    (files : slice (slice ascii)) (fileURLs : slice string)
    (metadata : gmap string string)
    (signingOptions : option SubSigningOptions.t) :
  member_of "ccs" (SendSignatureRequest.WithCCs ccs r) =
    (if (len ccs =? 0)%nat then None
     else Some (encode (Marshaler := slice_Marshaler) ccs)) /\
  member_of "custom_fields"
    (SendSignatureRequest.WithCustomFields customFields r) =
    (if (len customFields =? 0)%nat then None
     else Some (encode (Marshaler := slice_Marshaler) customFields)) /\
  member_of "files" (SendSignatureRequest.WithFiles files r) =
    (if (len files =? 0)%nat then None
     else Some (encode
                  (Marshaler := slice_Marshaler (H := bytes_Marshaler))
                  files)) /\
  member_of "file_urls" (SendSignatureRequest.WithFileURLs fileURLs r) =
    (if (len fileURLs =? 0)%nat then None
     else Some (encode (Marshaler := slice_Marshaler) fileURLs)) /\
  member_of "metadata" (SendSignatureRequest.WithMetadata metadata r) =
    (if (size metadata =? 0)%nat then None else Some (encode metadata)) /\
  member_of "signing_options"
    (SendSignatureRequest.WithSigningOptions signingOptions r) =
    option_map encode signingOptions.
Proof.
  rewrite !member_of_request.
  repeat match goal with |- _ /\ _ => split end; try reflexivity.
  by destruct signingOptions.
Qed.

(** X14.  Whatever setters were applied, the document written for a request
    is an object whose keys are distinct, begins with [signers] and
    [template_ids], and goes on with optional keys in the order of the
    struct.  No sequence of setters makes a key appear twice. *)
Theorem Marshal_request_keys_distinct (r : SendSignatureRequest.t) :
  Marshal r = json.Object (members (Marshal r)) /\
  NoDup (keys (Marshal r)) /\
  exists rest,
    keys (Marshal r) = "signers" :: "template_ids" :: rest /\
    sublist rest optional_keys.
Proof.
  split; [reflexivity|]. split.
  - apply (sublist_NoDup _ _ SendSignatureRequest_tags_NoDup), keys_sublist.
  - exists (keys (encode_struct (drop 2 SendSignatureRequest.fields) r)).
    split; [reflexivity|].
    exact (keys_sublist (drop 2 SendSignatureRequest.fields) r).
Qed.

(** The setters of the package are assignments of one field. *)
Lemma With_setters_request_set (s : SendSignatureRequest.t)
    (b : bool) (text : string) :
  SendSignatureRequest.WithAllowDecline b s
    = request_set FAllowDecline (Some b) s /\
  SendSignatureRequest.WithIsEID b s = request_set FIsEID (Some b) s /\
  SendSignatureRequest.WithTestMode b s = request_set FTestMode (Some b) s /\
  SendSignatureRequest.WithClientID text s
    = request_set FClientID (Some text) s /\
  SendSignatureRequest.WithMessage text s
    = request_set FMessage (Some text) s /\
  SendSignatureRequest.WithSigningRedirectURL text s
    = request_set FSigningRedirectURL (Some text) s /\
  SendSignatureRequest.WithTitle text s = request_set FTitle (Some text) s /\
  (forall x, SendSignatureRequest.WithCCs x s = request_set FCCs x s) /\
  (forall x, SendSignatureRequest.WithCustomFields x s
             = request_set FCustomFields x s) /\
  (forall x, SendSignatureRequest.WithFiles x s = request_set FFiles x s) /\
  (forall x, SendSignatureRequest.WithFileURLs x s
             = request_set FFileURLs x s) /\
  (forall x, SendSignatureRequest.WithMetadata x s
             = request_set FMetadata x s) /\
  (forall x, SendSignatureRequest.WithSigningOptions x s
             = request_set FSigningOptions x s).
Proof. repeat match goal with |- _ /\ _ => split end; reflexivity. Qed.

(** X15.  Setters of different fields commute, and of two calls of the same
    setter the later one counts: a chain of [With...] calls builds the same
    request in whatever order the fields are set. *)
Theorem setters_commute (f g : request_field)
    (x x' : request_field_type f) (y : request_field_type g)
    (s : SendSignatureRequest.t) :
  f <> g ->
  request_set f x (request_set g y s) = request_set g y (request_set f x s) /\
  request_set f x (request_set f x' s) = request_set f x s /\
  request_set f x (request_set g y (request_set f x' s))
    = request_set f x (request_set g y s).
Proof.
  intros Hne. destruct f, g; try congruence;
    repeat match goal with |- _ /\ _ => split end; reflexivity.
Qed.

Lemma setters_commute_witness :
  FTitle <> FTestMode /\
  SendSignatureRequest.WithTitle "NDA"
    (SendSignatureRequest.WithTestMode true doc_request) =
  SendSignatureRequest.WithTestMode true
    (SendSignatureRequest.WithTitle "NDA" doc_request) /\
  SendSignatureRequest.WithTitle "NDA"
    (SendSignatureRequest.WithTitle "Draft" doc_request) =
  SendSignatureRequest.WithTitle "NDA" doc_request /\
  SendSignatureRequest.WithTitle "NDA"
    (SendSignatureRequest.WithTestMode true
       (SendSignatureRequest.WithTitle "Draft" doc_request)) =
  SendSignatureRequest.WithTitle "NDA"
    (SendSignatureRequest.WithTestMode true doc_request).
Proof.
  split; [discriminate|].
  apply (setters_commute FTitle FTestMode (Some "NDA") (Some "Draft")
           (Some true) doc_request).
  discriminate.
Defined.

Lemma SubSignatureRequestTemplateSigner_tags_NoDup :
  NoDup (map tag SubSignatureRequestTemplateSigner.fields).
Proof. nodup_names. Qed.

Lemma SubCustomField_tags_NoDup : NoDup (map tag SubCustomField.fields).
Proof. nodup_names. Qed.

Lemma SubSigningOptions_tags_NoDup : NoDup (map tag SubSigningOptions.fields).
Proof. nodup_names. Qed.

(** X16.  The constructors of the parts of a request write the required
    members only, so the smallest request is sent as two arrays, of signers
    with [role], [name] and [email_address] and of template IDs; and each
    setter of a part adds its member, whatever the value. *)
Theorem Marshal_parts (role name email text : string) (b : bool)
    (kind : SMSPhoneNumberType) (defaultType : SubSigningOptionsDefaultType)
    (signer : SubSignatureRequestTemplateSigner.t)
    (field : SubCustomField.t) (options : SubSigningOptions.t)
    (c : Client) (templateID : string) :
  Marshal (SubSignatureRequestTemplateSigner.New role name email) =
    json.Object [("role", json.Str (ToValidUTF8 role));
                 ("name", json.Str (ToValidUTF8 name));
                 ("email_address", json.Str (ToValidUTF8 email))] /\
  Marshal (SubCC.New role email) =
    json.Object [("role", json.Str (ToValidUTF8 role));
                 ("email", json.Str (ToValidUTF8 email))] /\
  Marshal (SubCustomField.New name) =
    json.Object [("name", json.Str (ToValidUTF8 name))] /\
  Marshal (SubSigningOptions.New defaultType) =
    json.Object [("default_type", json.Str (ToValidUTF8 defaultType))] /\
  Body (send_request c
          (SendSignatureRequest.New
             (Some [SubSignatureRequestTemplateSigner.New role name email])
             (Some [templateID]))) =
    Some (json.Object
            [("signers",
              json.Array
                [json.Object [("role", json.Str (ToValidUTF8 role));
                              ("name", json.Str (ToValidUTF8 name));
                              ("email_address",
                               json.Str (ToValidUTF8 email))]]);
             ("template_ids",
              json.Array [json.Str (ToValidUTF8 templateID)])]) /\
  member_of "pin" (SubSignatureRequestTemplateSigner.WithPin text signer)
    = Some (json.Str (ToValidUTF8 text)) /\
  member_of "sms_phone_number"
    (SubSignatureRequestTemplateSigner.WithSMSPhoneNumber text signer)
    = Some (json.Str (ToValidUTF8 text)) /\
  member_of "sms_phone_number_type"
    (SubSignatureRequestTemplateSigner.WithSMSPhoneNumberType kind signer)
    = Some (json.Str (ToValidUTF8 kind)) /\
  member_of "editor" (SubCustomField.WithEditor text field)
    = Some (json.Str (ToValidUTF8 text)) /\
  member_of "required" (SubCustomField.WithRequired b field)
    = Some (json.Bool b) /\
  member_of "value" (SubCustomField.WithValue text field)
    = Some (json.Str (ToValidUTF8 text)) /\
  member_of "draw" (SubSigningOptions.WithDraw b options)
    = Some (json.Bool b) /\
  member_of "phone" (SubSigningOptions.WithPhone b options)
    = Some (json.Bool b) /\
  member_of "type" (SubSigningOptions.WithType b options)
    = Some (json.Bool b) /\
  member_of "upload" (SubSigningOptions.WithUpload b options)
    = Some (json.Bool b).
Proof.
  do 5 (split; [reflexivity|]).
  unfold member_of, Marshal.
  cbn [encode SubSignatureRequestTemplateSigner_Marshaler
       SubCustomField_Marshaler SubSigningOptions_Marshaler].
  rewrite !(lookup_encode_struct _ _ _
              SubSignatureRequestTemplateSigner_tags_NoDup),
    !(lookup_encode_struct _ _ _ SubCustomField_tags_NoDup),
    !(lookup_encode_struct _ _ _ SubSigningOptions_tags_NoDup).
  repeat match goal with |- _ /\ _ => split end; reflexivity.
Qed.

(** ** [SignerStatus], further *)

Lemma ParseSignerStatus_range `{strings.CaseTable} (s : string) :
  In (ParseSignerStatus s) all_statuses.
Proof.
  unfold ParseSignerStatus.
  repeat match goal with
  | |- context [String.eqb ?a ?b] =>
    destruct (String.eqb a b); [cbn; tauto|]
  end.
  cbn; tauto.
Qed.

(** X17.  [ParseSignerStatus] returns one of the thirteen values of
    [SignerStatus] and maps each of them to itself, [unknown_enum]
    included; so parsing what has been parsed changes nothing.  This needs
    nothing of the Unicode tables. *)
Theorem ParseSignerStatus_idempotent `{strings.CaseTable} (s : string) :
  In (ParseSignerStatus s) all_statuses /\
  Forall (fun st => ParseSignerStatus st = st) all_statuses /\
  ParseSignerStatus (ParseSignerStatus s) = ParseSignerStatus s.
Proof.
  assert (Hfix : Forall (fun st => ParseSignerStatus st = st) all_statuses).
  { repeat constructor; by vm_compute. }
  split; [apply ParseSignerStatus_range|]. split; [exact Hfix|].
  rewrite Forall_forall in Hfix.
  apply Hfix, list_elem_of_In, ParseSignerStatus_range.
Qed.

(** X18.  [SignerStatus.UnmarshalJSON] fails exactly when the data is not a
    JSON string or [null], with the error of [json.Unmarshal], and then
    leaves the status as it was.  [null] is no error: it reads as the empty
    string and stores [unknown_enum]. *)
Theorem SignerStatus_UnmarshalJSON_cases `{strings.CaseTable}
    (data : string) (cur : SignerStatus) :
  SignerStatus_UnmarshalJSON data cur =
  match json.parse data with
  | None => (cur, Some json_SyntaxError)
  | Some (json.Str x) => (ParseSignerStatus x, None)
  | Some json.Null => (SignerStatusUnknownEnum, None)
  | Some v => (cur, Some (json_UnmarshalTypeError (describe v) "string"))
  end.
Proof.
  unfold SignerStatus_UnmarshalJSON, Unmarshal.
  destruct (json.parse data) as [[| | | | |]|]; try reflexivity.
Qed.

(** *** ASCII texts *)

Lemma isASCII_app (a b : string) :
  strings.isASCII (a ++ b) = strings.isASCII a && strings.isASCII b.
Proof.
  induction a as [|c a IH]; [reflexivity|].
  rewrite append_String. cbn [strings.isASCII]. by rewrite IH, andb_assoc.
Qed.

Lemma ascii_blank_isASCII (s : string) :
  ascii_blank s = true -> strings.isASCII s = true.
Proof.
  induction s as [|c s IH]; [reflexivity|]. cbn [ascii_blank strings.isASCII].
  rewrite !andb_true_iff, orb_true_iff, between_spec, N.eqb_eq, N.ltb_lt.
  intros [Hc Hs]. split; [|by apply IH]. unfold utf8.RuneSelf. lia.
Qed.

Lemma map_bytes_app f (a b : string) :
  strings.map_bytes f (a ++ b) = strings.map_bytes f a ++ strings.map_bytes f b.
Proof.
  induction a as [|c a IH]; [reflexivity|].
  rewrite append_String. cbn [strings.map_bytes]. by rewrite IH.
Qed.

Lemma ascii_lower_blank (s : string) :
  ascii_blank s = true -> ascii_lower s = s.
Proof.
  unfold ascii_lower.
  induction s as [|c s IH]; [reflexivity|]. cbn [ascii_blank strings.map_bytes].
  rewrite andb_true_iff, orb_true_iff, between_spec, N.eqb_eq.
  intros [Hc Hs]. rewrite (IH Hs). f_equal.
  replace (utf8.between 65 (utf8.code c) 90) with false;
    [apply byte_code|].
  symmetry. apply between_false. lia.
Qed.

Lemma ascii_lower_isASCII (s : string) :
  strings.isASCII s = true -> strings.isASCII (ascii_lower s) = true.
Proof.
  unfold ascii_lower.
  induction s as [|c s IH]; [reflexivity|].
  cbn [strings.isASCII strings.map_bytes].
  rewrite !andb_true_iff, !N.ltb_lt. unfold utf8.RuneSelf.
  intros [Hc Hs]. split; [|by apply IH].
  destruct (utf8.between 65 (utf8.code c) 90) eqn:Hb.
  - apply between_spec in Hb. rewrite code_byte; lia.
  - by rewrite byte_code.
Qed.

(** The runes of a text that begins with ASCII bytes. *)
Lemma runes_ascii_app (a b : string) :
  strings.isASCII a = true ->
  utf8.runes (a ++ b) = (utf8.runes a ++ utf8.runes b)%list.
Proof.
  induction a as [|c a IH]; [reflexivity|].
  cbn [strings.isASCII]. rewrite andb_true_iff, N.ltb_lt.
  unfold utf8.RuneSelf. intros [Hc Ha].
  rewrite append_String, !(runes_String_ascii _ _ Hc), (IH Ha). reflexivity.
Qed.

Lemma runes_blank (s : string) :
  ascii_blank s = true ->
  Forall (fun u => strings.unicode_IsSpace (fst u) = true) (utf8.runes s).
Proof.
  induction s as [|c s IH]; [constructor|]. cbn [ascii_blank].
  rewrite andb_true_iff, orb_true_iff, between_spec, N.eqb_eq.
  intros [Hc Hs].
  rewrite runes_String_ascii by lia. constructor; [|by apply IH].
  cbn [fst]. unfold strings.unicode_IsSpace.
  replace (utf8.code c <=? 255) with true by (symmetry; apply N.leb_le; lia).
  destruct Hc as [Hc| ->]; [|reflexivity].
  by rewrite (proj2 (between_spec _ _ _) Hc).
Qed.

Lemma drop_spaces_blank_app (b l : list (utf8.rune * string)) :
  Forall (fun u => strings.unicode_IsSpace (fst u) = true) b ->
  strings.drop_spaces (b ++ l) = strings.drop_spaces l.
Proof.
  induction 1 as [|[r x] b Hr Hb IH]; [reflexivity|].
  cbn [app strings.drop_spaces]. cbn [fst] in Hr. by rewrite Hr.
Qed.

Lemma drop_spaces_app_blank (l b : list (utf8.rune * string)) :
  Forall (fun u => strings.unicode_IsSpace (fst u) = true) b ->
  rev (strings.drop_spaces (rev (strings.drop_spaces (l ++ b)))) =
  rev (strings.drop_spaces (rev (strings.drop_spaces l))).
Proof.
  intros Hb. induction l as [|[r x] l IH].
  - cbn [app]. rewrite <- (app_nil_r b), (drop_spaces_blank_app _ _ Hb).
    reflexivity.
  - cbn [app strings.drop_spaces].
    destruct (strings.unicode_IsSpace r); [exact IH|].
    cbn [rev]. rewrite rev_app_distr, <- !app_assoc.
    rewrite drop_spaces_blank_app; [reflexivity|].
    by apply Forall_rev.
Qed.

(** [TrimSpace] drops the ASCII white space around an ASCII text. *)
Lemma TrimSpace_padded (pre t post : string) :
  ascii_blank pre = true -> strings.isASCII t = true ->
  ascii_blank post = true ->
  strings.TrimSpace (pre ++ t ++ post) = strings.TrimSpace t.
Proof.
  intros Hpre Ht Hpost. unfold strings.TrimSpace.
  rewrite (runes_ascii_app pre _ (ascii_blank_isASCII _ Hpre)),
    (runes_ascii_app t _ Ht).
  rewrite (drop_spaces_blank_app _ _ (runes_blank _ Hpre)).
  by rewrite (drop_spaces_app_blank _ _ (runes_blank _ Hpost)).
Qed.

Lemma ToLower_ascii `{strings.CaseTable} (s : string) :
  strings.isASCII s = true -> strings.ToLower s = ascii_lower s.
Proof. intros Hs. unfold strings.ToLower. by rewrite Hs. Qed.

(** X19.  For ASCII texts [ParseSignerStatus] looks neither at the case of
    the letters nor at the white space around the text: two texts that
    differ in these only are parsed alike. *)
Theorem ParseSignerStatus_ascii `{strings.CaseTable}
    (pre s post s' : string) :
  ascii_blank pre = true -> ascii_blank post = true ->
  strings.isASCII s = true -> strings.isASCII s' = true ->
  ascii_lower s = ascii_lower s' ->
  ParseSignerStatus (pre ++ s ++ post) = ParseSignerStatus s'.
Proof.
  intros Hpre Hpost Hs Hs' Heq.
  assert (Hnorm : strings.TrimSpace (strings.ToLower (pre ++ s ++ post)) =
                  strings.TrimSpace (strings.ToLower s')).
  { assert (Hall : strings.isASCII (pre ++ s ++ post) = true).
    { by rewrite !isASCII_app, Hs, !ascii_blank_isASCII. }
    rewrite (ToLower_ascii _ Hs'), (ToLower_ascii _ Hall).
    unfold ascii_lower at 1. rewrite !map_bytes_app.
    fold (ascii_lower pre) (ascii_lower s) (ascii_lower post).
    rewrite (ascii_lower_blank _ Hpre), (ascii_lower_blank _ Hpost), Heq.
    apply TrimSpace_padded; [done| |done]. by apply ascii_lower_isASCII. }
  unfold ParseSignerStatus. by rewrite Hnorm.
Qed.

Lemma ParseSignerStatus_ascii_witness :
  padded_status =
    String (utf8.byte 9) " " ++ "Awaiting_Signature"
      ++ String (utf8.byte 10) "" /\
  ParseSignerStatus (H := latin1_table) padded_status =
    ParseSignerStatus (H := latin1_table) "AWAITING_SIGNATURE" /\
  ParseSignerStatus (H := latin1_table) padded_status =
    SignerStatusAwaitingSignature.
Proof.
  split; [reflexivity|].
  assert (Hw : ParseSignerStatus (H := latin1_table) padded_status =
               ParseSignerStatus (H := latin1_table) "AWAITING_SIGNATURE").
  { apply (ParseSignerStatus_ascii (H := latin1_table)
             (String (utf8.byte 9) " ") "Awaiting_Signature"
             (String (utf8.byte 10) "") "AWAITING_SIGNATURE");
      by vm_compute. }
  split; [exact Hw|]. rewrite Hw. by vm_compute.
Defined.

(** ** Reading the payload *)

(** A member whose key selects no field is skipped. *)
Lemma decode_members_skip {S} (fs : list (field S)) k v ms1 :
  find_field k fs = None ->
  forall ms2 s saved,
    decode_members fs (ms1 ++ (k, v) :: ms2) s saved =
    decode_members fs (ms1 ++ ms2) s saved.
Proof.
  intros Hk. induction ms1 as [|[k1 v1] ms1 IH]; intros ms2 s saved.
  - cbn [app decode_members]. by rewrite Hk.
  - cbn [app decode_members]. destruct (find_field k1 fs) as [f|]; [|apply IH].
    destruct (store f v1 s) as [s' e]. apply IH.
Qed.

Lemma store_all_cons {T} `{Unmarshaler T} v vs (cur : T) :
  store_all (v :: vs) cur = store_all vs (fst (decode v cur)).
Proof. reflexivity. Qed.

(** A field of a struct holds, after decoding, what the members that select
    it have stored into it one after the other; the other members do not
    touch it. *)
Lemma decode_members_field {S T} `{Unmarshaler T} (fs : list (field S))
    (n : string) (get : S -> T) (set : T -> S -> S) :
  NoDup (map (fun f => foldName (name f)) fs) ->
  In (field_of n get set) fs ->
  (forall x s, get (set x s) = x) ->
  (forall g, In g fs -> name g <> n ->
             forall v s, get (fst (store g v s)) = get s) ->
  forall ms s saved,
    get (fst (decode_members fs ms s saved)) = store_all (named n ms) (get s).
Proof.
  intros Hnd Hin Hgs Hother.
  induction ms as [|[k v] ms IH]; intros s saved; [reflexivity|].
  cbn [decode_members]. rewrite (find_field_names _ _ Hnd), named_cons.
  destruct (List.find _ fs) as [f|] eqn:Hf.
  - apply find_some in Hf as [Hfin Hfk].
    destruct (names n k) eqn:Hnk.
    + assert (f = field_of n get set) as ->.
      { unfold names in *. apply String.eqb_eq in Hfk, Hnk.
        apply list_elem_of_In in Hfin, Hin.
        apply list_elem_of_lookup in Hfin as [i Hi], Hin as [j Hj].
        assert (i = j) as ->; [|congruence].
        eapply NoDup_lookup; [exact Hnd| |].
        - rewrite list_lookup_fmap, Hi. reflexivity.
        - rewrite list_lookup_fmap, Hj. cbn. f_equal. congruence. }
      cbn [store field_of]. destruct (decode v (get s)) as [x e] eqn:Hd.
      rewrite IH, Hgs, store_all_cons, Hd. reflexivity.
    + assert (Hne : name f <> n).
      { intros Heq. rewrite Heq in Hfk. congruence. }
      specialize (Hother f Hfin Hne v s).
      destruct (store f v s) as [s' e]. cbn [fst] in Hother.
      by rewrite IH, Hother.
  - destruct (names n k) eqn:Hnk; [|apply IH].
    exfalso. eapply find_none in Hf; [|exact Hin].
    cbn [name field_of] in Hf. congruence.
Qed.

Lemma SignatureRequestResponse_fields_NoDup :
  NoDup (map (fun f => foldName (name f)) SignatureRequestResponse.fields).
Proof. nodup_names. Qed.

Ltac other_fields :=
  let g := fresh "g" in
  let Hin := fresh "Hin" in
  intros g Hin; cbn [In SignatureRequestResponse.fields] in Hin;
  repeat (destruct Hin as [<-|Hin];
          [let Hne := fresh in
           let v := fresh "v" in
           let s := fresh "s" in
           intros Hne v s; try (by destruct Hne);
           cbn [store field_of]; by destruct (decode v _)|]);
  destruct Hin.

Ltac reads_field :=
  intros; cbn [decode SignatureRequestResponse_Unmarshaler decode_struct fst];
  match goal with
  | |- ?get (fst (decode_members _ ?ms ?cur None))
       = store_all (named ?n ?ms) _ =>
    eapply (decode_members_field SignatureRequestResponse.fields n get);
    [ exact SignatureRequestResponse_fields_NoDup
    | cbn [In SignatureRequestResponse.fields];
      repeat first [left; reflexivity | right]
    | by intros x []
    | other_fields ]
  end.

(** A [SignatureRequestResponse] is its twenty-five fields. *)
Lemma SignatureRequestResponse_eta (r : SignatureRequestResponse.t) :
  r = SignatureRequestResponse.mk
        (SignatureRequestResponse.TestMode r)
        (SignatureRequestResponse.SignatureRequestID r)
        (SignatureRequestResponse.RequesterEmailAddress r)
        (SignatureRequestResponse.Title r)
        (SignatureRequestResponse.OriginalTitle r)
        (SignatureRequestResponse.Subject r)
        (SignatureRequestResponse.Message r)
        (SignatureRequestResponse.Metadata r)
        (SignatureRequestResponse.CreatedAt r)
        (SignatureRequestResponse.ExpiresAt r)
        (SignatureRequestResponse.IsComplete r)
        (SignatureRequestResponse.IsDeclined r)
        (SignatureRequestResponse.HasError r)
        (SignatureRequestResponse.FilesURL r)
        (SignatureRequestResponse.SigningURL r)
        (SignatureRequestResponse.DetailsURL r)
        (SignatureRequestResponse.CCEmailAddresses r)
        (SignatureRequestResponse.SigningRedirectURL r)
        (SignatureRequestResponse.FinalCopyURI r)
        (SignatureRequestResponse.TemplateIDs r)
        (SignatureRequestResponse.CustomIDs r)
        (SignatureRequestResponse.Attachments r)
        (SignatureRequestResponse.ResponseData r)
        (SignatureRequestResponse.Signatures r)
        (SignatureRequestResponse.BulkSendJobID r).
Proof. by destruct r. Qed.

(** X21.  What [SignatureRequestResponse] holds after decoding an object:
    each field has received, in the order of the document, the values of
    the members whose key is its name up to case, and nothing else.  So a
    field no member selects keeps the value it had, the last acceptable
    value wins where a key comes twice, and no member changes the field of
    another. *)
Theorem decode_SignatureRequestResponse_fields
    (ms : list (string * json.value)) (cur : SignatureRequestResponse.t) :
  fst (decode (json.Object ms) cur) =
  SignatureRequestResponse.mk
    (store_all
       (H := (pointer_Unmarshaler (H := bool_Unmarshaler)))
       (named "test_mode" ms)
       (SignatureRequestResponse.TestMode cur))
    (store_all
       (H := string_Unmarshaler)
       (named "signature_request_id" ms)
       (SignatureRequestResponse.SignatureRequestID cur))
    (store_all
       (H := (pointer_Unmarshaler (H := string_Unmarshaler)))
       (named "requester_email_address" ms)
       (SignatureRequestResponse.RequesterEmailAddress cur))
    (store_all
       (H := string_Unmarshaler)
       (named "title" ms)
       (SignatureRequestResponse.Title cur))
    (store_all
       (H := string_Unmarshaler)
       (named "original_title" ms)
       (SignatureRequestResponse.OriginalTitle cur))
    (store_all
       (H := (pointer_Unmarshaler (H := string_Unmarshaler)))
       (named "subject" ms)
       (SignatureRequestResponse.Subject cur))
    (store_all
       (H := (pointer_Unmarshaler (H := string_Unmarshaler)))
       (named "message" ms)
       (SignatureRequestResponse.Message cur))
    (store_all
       (H := string_map_Unmarshaler)
       (named "metadata" ms)
       (SignatureRequestResponse.Metadata cur))
    (store_all
       (H := int64_Unmarshaler)
       (named "created_at" ms)
       (SignatureRequestResponse.CreatedAt cur))
    (store_all
       (H := (pointer_Unmarshaler (H := int64_Unmarshaler)))
       (named "expires_at" ms)
       (SignatureRequestResponse.ExpiresAt cur))
    (store_all
       (H := bool_Unmarshaler)
       (named "is_complete" ms)
       (SignatureRequestResponse.IsComplete cur))
    (store_all
       (H := bool_Unmarshaler)
       (named "is_declined" ms)
       (SignatureRequestResponse.IsDeclined cur))
    (store_all
       (H := bool_Unmarshaler)
       (named "has_error" ms)
       (SignatureRequestResponse.HasError cur))
    (store_all
       (H := string_Unmarshaler)
       (named "files_url" ms)
       (SignatureRequestResponse.FilesURL cur))
    (store_all
       (H := (pointer_Unmarshaler (H := string_Unmarshaler)))
       (named "signing_url" ms)
       (SignatureRequestResponse.SigningURL cur))
    (store_all
       (H := string_Unmarshaler)
       (named "details_url" ms)
       (SignatureRequestResponse.DetailsURL cur))
    (store_all
       (H := (buffer_Unmarshaler (H := string_Unmarshaler)))
       (named "cc_email_addresses" ms)
       (SignatureRequestResponse.CCEmailAddresses cur))
    (store_all
       (H := (pointer_Unmarshaler (H := string_Unmarshaler)))
       (named "signing_redirect_url" ms)
       (SignatureRequestResponse.SigningRedirectURL cur))
    (store_all
       (H := (pointer_Unmarshaler (H := string_Unmarshaler)))
       (named "final_copy_uri" ms)
       (SignatureRequestResponse.FinalCopyURI cur))
    (store_all
       (H := (buffer_Unmarshaler (H := string_Unmarshaler)))
       (named "template_ids" ms)
       (SignatureRequestResponse.TemplateIDs cur))
    (store_all
       (H := (buffer_Unmarshaler (H := string_Unmarshaler)))
       (named "custom_ids" ms)
       (SignatureRequestResponse.CustomIDs cur))
    (store_all
       (H := (pointer_Unmarshaler
               (H := SignatureRequestResponseAttachment_Unmarshaler)))
       (named "attachments" ms)
       (SignatureRequestResponse.Attachments cur))
    (store_all
       (H := (buffer_Unmarshaler
               (H := SignatureRequestResponseData_Unmarshaler)))
       (named "response_data" ms)
       (SignatureRequestResponse.ResponseData cur))
    (store_all
       (H := (buffer_Unmarshaler
               (H := SignatureRequestResponseSignatures_Unmarshaler)))
       (named "signatures" ms)
       (SignatureRequestResponse.Signatures cur))
    (store_all
       (H := (pointer_Unmarshaler (H := string_Unmarshaler)))
       (named "bulk_send_job_id" ms)
       (SignatureRequestResponse.BulkSendJobID cur)).
Proof.
  assert (H0 :
    SignatureRequestResponse.TestMode
      (fst (decode (json.Object ms) cur)) =
    store_all
      (H := (pointer_Unmarshaler (H := bool_Unmarshaler)))
      (named "test_mode" ms)
      (SignatureRequestResponse.TestMode cur))
    by reads_field.
  assert (H1 :
    SignatureRequestResponse.SignatureRequestID
      (fst (decode (json.Object ms) cur)) =
    store_all
      (H := string_Unmarshaler)
      (named "signature_request_id" ms)
      (SignatureRequestResponse.SignatureRequestID cur))
    by reads_field.
  assert (H2 :
    SignatureRequestResponse.RequesterEmailAddress
      (fst (decode (json.Object ms) cur)) =
    store_all
      (H := (pointer_Unmarshaler (H := string_Unmarshaler)))
      (named "requester_email_address" ms)
      (SignatureRequestResponse.RequesterEmailAddress cur))
    by reads_field.
  assert (H3 :
    SignatureRequestResponse.Title
      (fst (decode (json.Object ms) cur)) =
    store_all
      (H := string_Unmarshaler)
      (named "title" ms)
      (SignatureRequestResponse.Title cur))
    by reads_field.
  assert (H4 :
    SignatureRequestResponse.OriginalTitle
      (fst (decode (json.Object ms) cur)) =
    store_all
      (H := string_Unmarshaler)
      (named "original_title" ms)
      (SignatureRequestResponse.OriginalTitle cur))
    by reads_field.
  assert (H5 :
    SignatureRequestResponse.Subject
      (fst (decode (json.Object ms) cur)) =
    store_all
      (H := (pointer_Unmarshaler (H := string_Unmarshaler)))
      (named "subject" ms)
      (SignatureRequestResponse.Subject cur))
    by reads_field.
  assert (H6 :
    SignatureRequestResponse.Message
      (fst (decode (json.Object ms) cur)) =
    store_all
      (H := (pointer_Unmarshaler (H := string_Unmarshaler)))
      (named "message" ms)
      (SignatureRequestResponse.Message cur))
    by reads_field.
  assert (H7 :
    SignatureRequestResponse.Metadata
      (fst (decode (json.Object ms) cur)) =
    store_all
      (H := string_map_Unmarshaler)
      (named "metadata" ms)
      (SignatureRequestResponse.Metadata cur))
    by reads_field.
  assert (H8 :
    SignatureRequestResponse.CreatedAt
      (fst (decode (json.Object ms) cur)) =
    store_all
      (H := int64_Unmarshaler)
      (named "created_at" ms)
      (SignatureRequestResponse.CreatedAt cur))
    by reads_field.
  assert (H9 :
    SignatureRequestResponse.ExpiresAt
      (fst (decode (json.Object ms) cur)) =
    store_all
      (H := (pointer_Unmarshaler (H := int64_Unmarshaler)))
      (named "expires_at" ms)
      (SignatureRequestResponse.ExpiresAt cur))
    by reads_field.
  assert (H10 :
    SignatureRequestResponse.IsComplete
      (fst (decode (json.Object ms) cur)) =
    store_all
      (H := bool_Unmarshaler)
      (named "is_complete" ms)
      (SignatureRequestResponse.IsComplete cur))
    by reads_field.
  assert (H11 :
    SignatureRequestResponse.IsDeclined
      (fst (decode (json.Object ms) cur)) =
    store_all
      (H := bool_Unmarshaler)
      (named "is_declined" ms)
      (SignatureRequestResponse.IsDeclined cur))
    by reads_field.
  assert (H12 :
    SignatureRequestResponse.HasError
      (fst (decode (json.Object ms) cur)) =
    store_all
      (H := bool_Unmarshaler)
      (named "has_error" ms)
      (SignatureRequestResponse.HasError cur))
    by reads_field.
  assert (H13 :
    SignatureRequestResponse.FilesURL
      (fst (decode (json.Object ms) cur)) =
    store_all
      (H := string_Unmarshaler)
      (named "files_url" ms)
      (SignatureRequestResponse.FilesURL cur))
    by reads_field.
  assert (H14 :
    SignatureRequestResponse.SigningURL
      (fst (decode (json.Object ms) cur)) =
    store_all
      (H := (pointer_Unmarshaler (H := string_Unmarshaler)))
      (named "signing_url" ms)
      (SignatureRequestResponse.SigningURL cur))
    by reads_field.
  assert (H15 :
    SignatureRequestResponse.DetailsURL
      (fst (decode (json.Object ms) cur)) =
    store_all
      (H := string_Unmarshaler)
      (named "details_url" ms)
      (SignatureRequestResponse.DetailsURL cur))
    by reads_field.
  assert (H16 :
    SignatureRequestResponse.CCEmailAddresses
      (fst (decode (json.Object ms) cur)) =
    store_all
      (H := (buffer_Unmarshaler (H := string_Unmarshaler)))
      (named "cc_email_addresses" ms)
      (SignatureRequestResponse.CCEmailAddresses cur))
    by reads_field.
  assert (H17 :
    SignatureRequestResponse.SigningRedirectURL
      (fst (decode (json.Object ms) cur)) =
    store_all
      (H := (pointer_Unmarshaler (H := string_Unmarshaler)))
      (named "signing_redirect_url" ms)
      (SignatureRequestResponse.SigningRedirectURL cur))
    by reads_field.
  assert (H18 :
    SignatureRequestResponse.FinalCopyURI
      (fst (decode (json.Object ms) cur)) =
    store_all
      (H := (pointer_Unmarshaler (H := string_Unmarshaler)))
      (named "final_copy_uri" ms)
      (SignatureRequestResponse.FinalCopyURI cur))
    by reads_field.
  assert (H19 :
    SignatureRequestResponse.TemplateIDs
      (fst (decode (json.Object ms) cur)) =
    store_all
      (H := (buffer_Unmarshaler (H := string_Unmarshaler)))
      (named "template_ids" ms)
      (SignatureRequestResponse.TemplateIDs cur))
    by reads_field.
  assert (H20 :
    SignatureRequestResponse.CustomIDs
      (fst (decode (json.Object ms) cur)) =
    store_all
      (H := (buffer_Unmarshaler (H := string_Unmarshaler)))
      (named "custom_ids" ms)
      (SignatureRequestResponse.CustomIDs cur))
    by reads_field.
  assert (H21 :
    SignatureRequestResponse.Attachments
      (fst (decode (json.Object ms) cur)) =
    store_all
      (H := (pointer_Unmarshaler
              (H := SignatureRequestResponseAttachment_Unmarshaler)))
      (named "attachments" ms)
      (SignatureRequestResponse.Attachments cur))
    by reads_field.
  assert (H22 :
    SignatureRequestResponse.ResponseData
      (fst (decode (json.Object ms) cur)) =
    store_all
      (H := (buffer_Unmarshaler
              (H := SignatureRequestResponseData_Unmarshaler)))
      (named "response_data" ms)
      (SignatureRequestResponse.ResponseData cur))
    by reads_field.
  assert (H23 :
    SignatureRequestResponse.Signatures
      (fst (decode (json.Object ms) cur)) =
    store_all
      (H := (buffer_Unmarshaler
              (H := SignatureRequestResponseSignatures_Unmarshaler)))
      (named "signatures" ms)
      (SignatureRequestResponse.Signatures cur))
    by reads_field.
  assert (H24 :
    SignatureRequestResponse.BulkSendJobID
      (fst (decode (json.Object ms) cur)) =
    store_all
      (H := (pointer_Unmarshaler (H := string_Unmarshaler)))
      (named "bulk_send_job_id" ms)
      (SignatureRequestResponse.BulkSendJobID cur))
    by reads_field.
  rewrite (SignatureRequestResponse_eta (fst (decode (json.Object ms) cur))).
  f_equal; assumption.
Qed.

Lemma signature_request_result_success c body ms payload
    (result : SignatureRequestResponse.t) :
  json.parse body = Some (json.Object ms) ->
  lookup_member "signature_request" ms = Some payload ->
  decode payload (zero : SignatureRequestResponse.t) = (result, None) ->
  signature_request_result c (responded 200 body) =
  (Some result, warnings_of ms, None).
Proof.
  intros Hp Hk Hd. unfold signature_request_result, warnings_of.
  cbn [Z.eqb StatusOK Pos.eqb negb].
  by rewrite (parseResponse_payload _ _ _ _ _ Hp Hk Hd).
Qed.

(** X20.  The successful call, end to end: when the response has status 200
    and its body is an object holding under [signature_request] a value the
    payload type accepts, [GetSignatureRequest] and [SendWithTemplate]
    return that value decoded, with the warnings of the body when they
    decode and nil otherwise, and no error. *)
Theorem calls_return_payload
    (roundTrip : Request -> exchange) (c : Client)
    (signatureRequestID : string) (request : SendSignatureRequest.t)
    (body : string) (ms : list (string * json.value))
    (payload : json.value) (result : SignatureRequestResponse.t) :
  json.parse body = Some (json.Object ms) ->
  lookup_member "signature_request" ms = Some payload ->
  decode payload (zero : SignatureRequestResponse.t) = (result, None) ->
  (roundTrip (get_request c signatureRequestID) = responded 200 body ->
   GetSignatureRequest roundTrip c signatureRequestID =
   (Some result, warnings_of ms, None)) /\
  (roundTrip (send_request c request) = responded 200 body ->
   SendWithTemplate roundTrip c request =
   (Some result, warnings_of ms, None)).
Proof.
  intros Hp Hk Hd. split; intros Hr.
  - unfold GetSignatureRequest. cbv zeta.
    change (mkRequest "GET" _ _ _ _) with (get_request c signatureRequestID).
    rewrite Hr. by apply signature_request_result_success with payload.
  - unfold SendWithTemplate. cbv zeta.
    change (mkRequest "POST" _ _ _ _) with (send_request c request).
    rewrite Hr. by apply signature_request_result_success with payload.
Qed.

Lemma calls_return_payload_witness :
  GetSignatureRequest (always 200 plain_body) (NewClient "key") "abc" =
    (Some abc_request, None, None) /\
  SendWithTemplate (always 200 plain_body) (NewClient "key") doc_request =
    (Some abc_request, None, None).
Proof.
  destruct (calls_return_payload (always 200 plain_body) (NewClient "key")
              "abc" doc_request plain_body
              [("signature_request",
                json.Object [("signature_request_id", json.Str "abc");
                             ("title", json.Str "T")])]
              (json.Object [("signature_request_id", json.Str "abc");
                            ("title", json.Str "T")])
              abc_request) as [Hget Hsend];
    [by vm_compute | by vm_compute | by vm_compute|].
  split; [exact (Hget eq_refl) | exact (Hsend eq_refl)].
Defined.

Lemma find_none_forallb {A} (p : A -> bool) (l : list A) :
  forallb (fun x => negb (p x)) l = true -> List.find p l = None.
Proof.
  induction l as [|a l IH]; [reflexivity|]. cbn [forallb List.find].
  destruct (p a); [discriminate|]. exact IH.
Qed.

Lemma unknown_key_fields (key : string) :
  unknown_key key =
  forallb (fun f => negb (names (name f) key)) SignatureRequestResponse.fields.
Proof. reflexivity. Qed.

(** X22.  A member of the payload whose key is the name of no field of
    [SignatureRequestResponse], in any case of its letters, is skipped
    whatever it holds: the payload decodes as it does without that
    member, to the same value and with the same error if any. *)
Theorem decode_SignatureRequestResponse_unknown
    (ms1 ms2 : list (string * json.value)) (key : string) (v : json.value)
    (cur : SignatureRequestResponse.t) :
  unknown_key key = true ->
  decode (json.Object (ms1 ++ (key, v) :: ms2)) cur =
  decode (json.Object (ms1 ++ ms2)) cur.
Proof.
  intros Hu.
  change (decode_members SignatureRequestResponse.fields
            (ms1 ++ (key, v) :: ms2) cur None =
          decode_members SignatureRequestResponse.fields (ms1 ++ ms2) cur None).
  apply decode_members_skip.
  rewrite (find_field_names _ _ SignatureRequestResponse_fields_NoDup).
  rewrite unknown_key_fields in Hu.
  exact (find_none_forallb (fun f => names (name f) key) _ Hu).
Qed.

Lemma decode_SignatureRequestResponse_unknown_witness :
  unknown_key "signer_count" = true /\
  decode
    (json.Object
       ([("signature_request_id", json.Str "abc")]
        ++ ("signer_count", json.Array [json.Number "2"])
        :: [("title", json.Str "T")]))
    (zero : SignatureRequestResponse.t) =
  decode
    (json.Object
       ([("signature_request_id", json.Str "abc")]
        ++ [("title", json.Str "T")]))
    (zero : SignatureRequestResponse.t).
Proof.
  split; [by vm_compute|].
  apply decode_SignatureRequestResponse_unknown. by vm_compute.
Defined.
